(** * mongo-collection-archiver: the archival loop, verified

    A shallow embedding of [internal/archive/archiver.go] together with the
    collaborators it drives ([internal/source/mongodb.go], the stores of
    [internal/storage] and the in-memory store of the archiver's tests),
    followed by the properties of the day loop, the archive writer, the
    conflict guard, the deletion step and the pacing step.

    Conventions.
    - A [time.Time] is an instant in UTC, held as nanoseconds since the
      Unix epoch in an unbounded [Z] (the source only ever builds UTC
      instants; Go's own representation limits are not modelled).
    - An [error] is a tree: leaves made by [errors.New], [%w] wrappers made
      by [fmt.Errorf] and the multi-errors made by [errors.Join].
    - Collaborators are state transformers: a call takes the
      collaborator's state and returns its result with the new state.
    - Every call the archiver makes on a collaborator is appended to a
      ghost trace, so that "never invoked" and "in that order" are
      statements about a list of events. *)

From Stdlib Require Import ZArith Lia List String Ascii Bool.
From Stdlib.Strings Require Import Byte.
From Stdlib Require Import DecimalString DecimalN.
From stdpp Require Import base option list gmap strings.

Import ListNotations.
Set Warnings "-register-all".
Local Open Scope string_scope.
Local Open Scope list_scope.
Local Open Scope Z_scope.

(** Byte strings ([[]byte]). *)
Abbreviation bytes := (list byte).

Definition bytes_of_string (s : string) : bytes := list_byte_of_string s.

(** The newline separator ['\n']. *)
Definition newline : byte := x0a.

(* ===================================================================== *)
(** * Package [errors] and [fmt.Errorf] *)
(* ===================================================================== *)

Module GoErrors.

Inductive error : Type :=
| errorString (s : string)                 (* errors.New(s) *)
| wrapError (msg : string) (err : error)   (* fmt.Errorf(msg + ": %w", err) *)
| joinError (errs : list error).           (* errors.Join(errs...) *)

Definition New (s : string) : error := errorString s.

(** [fmt.Errorf("<msg>: %w", err)]. *)
Definition Errorf (msg : string) (err : error) : error := wrapError msg err.

(** [errors.Join]: nil arguments are dropped; nil when nothing is left. *)
Definition Join (errs : list (option error)) : option error :=
  match omap id errs with
  | [] => None
  | es => Some (joinError es)
  end.

(** The text of [err.Error()]. *)
Fixpoint Error (e : error) : string :=
  match e with
  | errorString s => s
  | wrapError msg err => msg +:+ ": " +:+ Error err
  | joinError errs =>
      (fix lines (l : list error) : string :=
         match l with
         | [] => ""
         | [x] => Error x
         | x :: r => Error x +:+ String "010" (lines r)
         end) errs
  end.

(** [errors.Is err target]: [target] occurs in the tree of [err], which
    is walked through [Unwrap() error] and [Unwrap() []error]. *)
Fixpoint Is (err target : error) : Prop :=
  err = target \/
  match err with
  | errorString _ => False
  | wrapError _ e => Is e target
  | joinError errs =>
      (fix any (l : list error) : Prop :=
         match l with
         | [] => False
         | x :: r => Is x target \/ any r
         end) errs
  end.

(** Go's [(value, error)] results. *)
Inductive result (A : Type) : Type :=
| Ok (a : A)
| Err (e : error).
Arguments Ok {A} a.
Arguments Err {A} e.

End GoErrors.
Import GoErrors.

(* ===================================================================== *)
(** * Package [time] *)
(* ===================================================================== *)

Module GoTime.

(** Nanoseconds since 1970-01-01T00:00:00Z. *)
Definition Time := Z.
(** A [time.Duration] counts nanoseconds. *)
Definition Duration := Z.

Definition Nanosecond : Duration := 1.
Definition Second : Duration := 1000000000.
Definition Minute : Duration := 60 * Second.
Definition Hour : Duration := 60 * Minute.

Definition secondsPerDay : Z := 86400.
Definition nsPerDay : Z := secondsPerDay * Second.

(** Seconds from 0001-01-01T00:00:00Z (Go's zero time) to the Unix epoch. *)
Definition unixToInternal : Z := 62135596800.
(** Days from 0001-01-01 to 1970-01-01. *)
Definition unixEpochDay : Z := 719162.

Definition daysPer400Years : Z := 365 * 400 + 97.
Definition daysPer100Years : Z := 365 * 100 + 24.
Definition daysPer4Years : Z := 365 * 4 + 1.

Definition Before (t u : Time) : bool := t <? u.

(** [t.Truncate(d)]: round down to a multiple of [d] since the zero time. *)
Definition Truncate (t : Time) (d : Duration) : Time :=
  if d <=? 0 then t
  else t - ((t + unixToInternal * Second) mod d).

Definition isLeap (year : Z) : bool :=
  (year mod 4 =? 0) && (negb (year mod 100 =? 0) || (year mod 400 =? 0)).

(** [daysBefore[m]]: days in a non-leap year before month [m+1]. *)
Definition daysBefore (m : Z) : Z :=
  match m with
  | 0 => 0
  | 1 => 31
  | 2 => 31 + 28
  | 3 => 31 + 28 + 31
  | 4 => 31 + 28 + 31 + 30
  | 5 => 31 + 28 + 31 + 30 + 31
  | 6 => 31 + 28 + 31 + 30 + 31 + 30
  | 7 => 31 + 28 + 31 + 30 + 31 + 30 + 31
  | 8 => 31 + 28 + 31 + 30 + 31 + 30 + 31 + 31
  | 9 => 31 + 28 + 31 + 30 + 31 + 30 + 31 + 31 + 30
  | 10 => 31 + 28 + 31 + 30 + 31 + 30 + 31 + 31 + 30 + 31
  | 11 => 31 + 28 + 31 + 30 + 31 + 30 + 31 + 31 + 30 + 31 + 30
  | _ => 31 + 28 + 31 + 30 + 31 + 30 + 31 + 31 + 30 + 31 + 30 + 31
  end.

(** [daysSinceEpoch(year)], counted here from year 1: the days before
    1 January of [year]. *)
Definition daysSinceEpoch (year : Z) : Z :=
  let y := year - 1 in
  let n400 := y / 400 in
  let y := y - 400 * n400 in
  let d := daysPer400Years * n400 in
  let n100 := y / 100 in
  let y := y - 100 * n100 in
  let d := d + daysPer100Years * n100 in
  let n4 := y / 4 in
  let y := y - 4 * n4 in
  let d := d + daysPer4Years * n4 in
  d + 365 * y.

(** [absDate]: year, month and day of month of the day numbered [d]
    (days since 0001-01-01). *)
Definition absDate (d : Z) : Z * Z * Z :=
  let n := d / daysPer400Years in
  let y := 400 * n in
  let d := d - daysPer400Years * n in
  let n := d / daysPer100Years in
  let n := n - Z.shiftr n 2 in
  let y := y + 100 * n in
  let d := d - daysPer100Years * n in
  let n := d / daysPer4Years in
  let y := y + 4 * n in
  let d := d - daysPer4Years * n in
  let n := d / 365 in
  let n := n - Z.shiftr n 2 in
  let y := y + n in
  let d := d - 365 * n in
  let year := y + 1 in
  let day := d in
  if isLeap year && (day =? 31 + 29 - 1) then (year, 2, 29)
  else
    let day := if isLeap year && (day >? 31 + 29 - 1) then day - 1 else day in
    let month := day / 31 in
    let end_ := daysBefore (month + 1) in
    let '(month, begin) :=
      if day >=? end_ then (month + 1, end_) else (month, daysBefore month) in
    (year, month + 1, day - begin + 1).

(** Day number (since 0001-01-01) of the instant [t]. *)
Definition absDay (t : Time) : Z := t / nsPerDay + unixEpochDay.

(** [t.Date()]. *)
Definition Date (t : Time) : Z * Z * Z := absDate (absDay t).

(** [time.Date(year, month, day, hour, min, sec, nsec, time.UTC)]: the
    month is normalised into 1..12, day and clock overflow by addition. *)
Definition mkDate (year month day hour min sec nsec : Z) : Time :=
  let m := month - 1 in
  let year := year + m / 12 in
  let m := m mod 12 in
  let month := m + 1 in
  let d := daysSinceEpoch year in
  let d := d + daysBefore (month - 1) in
  let d := if isLeap year && (month >=? 3) then d + 1 else d in
  let d := d + (day - 1) in
  ((d - unixEpochDay) * secondsPerDay + hour * 3600 + min * 60 + sec) * Second
  + nsec.

(** [t.AddDate(years, months, days)]. *)
Definition AddDate (t : Time) (years months days : Z) : Time :=
  let '(year, month, day) := Date t in
  let clock := t mod nsPerDay in
  let hour := clock / Hour in
  let min := (clock mod Hour) / Minute in
  let sec := (clock mod Minute) / Second in
  let nsec := clock mod Second in
  mkDate (year + years) (month + months) (day + days) hour min sec nsec.

(** Decimal digits of a non-negative number. *)
Definition utod (u : Z) : string := NilZero.string_of_uint (N.to_uint (Z.to_N u)).

Fixpoint zeros (n : nat) : string :=
  match n with
  | O => ""
  | S n' => String "0" (zeros n')
  end.

(** [appendInt(b, x, width)]: sign, then the digits padded with zeros. *)
Definition appendInt (x : Z) (width : nat) : string :=
  let digits := utod (Z.abs x) in
  (if x <? 0 then "-" else "")
    +:+ zeros (width - String.length digits) +:+ digits.

(** [t.Format("2006")], [t.Format("01")] and [t.Format("02")]. *)
Definition Format2006 (t : Time) : string := appendInt (Date t).1.1 4.
Definition Format01 (t : Time) : string := appendInt (Date t).1.2 2.
Definition Format02 (t : Time) : string := appendInt (Date t).2 2.

End GoTime.
Import GoTime.

(* ===================================================================== *)
(** * Package [io]: writable sinks *)
(* ===================================================================== *)

(** An [io.WriteCloser] over the state [X] of whatever holds the written
    bytes. [Write] reports only its error: by the [io.Writer] contract a
    short write comes with a non-nil error, and no caller in this
    repository looks at the count. *)
Record WriteCloser (X : Type) : Type := mkWriteCloser {
  Write : bytes -> X -> option error * X;
  Close : X -> option error * X
}.
Arguments mkWriteCloser {X} _ _.
Arguments Write {X} _ _ _.
Arguments Close {X} _ _.

(* ===================================================================== *)
(** * Package [compress/gzip] *)
(* ===================================================================== *)

Module Gzip.

Definition HuffmanOnly : Z := -2.
Definition DefaultCompression : Z := -1.
Definition BestCompression : Z := 9.

(** The DEFLATE encoder and the gzip framing are the standard library's.
    They are taken as a streaming encoder: each [Write] may hand some
    chunks of compressed output to the sink (the header on the first
    call, a block whenever one fills), and [Close] hands over the rest
    (pending header, final block, trailer). [gunzip] reads a whole file
    back. *)
Class Codec : Type := {
  enc : Type;
  enc_init : enc;
  enc_write : enc -> bytes -> enc * list bytes;
  enc_close : enc -> list bytes;
  gunzip : bytes -> option bytes
}.

(** The chunks an encoder in state [z] emits for the writes [inputs]
    followed by a close. *)
Fixpoint enc_stream `{Codec} (z : enc) (inputs : list bytes) : list bytes :=
  match inputs with
  | [] => enc_close z
  | p :: rest =>
      let '(z', out) := enc_write z p in
      out ++ enc_stream z' rest
  end.

(** The bytes of a gzip file made by writing [inputs] and closing. *)
Definition gzip_file `{Codec} (inputs : list bytes) : bytes :=
  concat (enc_stream enc_init inputs).

(** What makes a codec a compression format: reading back a finished
    stream gives the bytes that were written. *)
Class CodecLaw `{Codec} : Prop :=
  gunzip_gzip_file : forall inputs, gunzip (gzip_file inputs) = Some (concat inputs).

Section Writer.
Context `{Codec} {X : Type}.

(** [gzip.Writer]: the sink, the encoder, the sticky error and the
    closed flag. *)
Record Writer : Type := mkWriter {
  gw_w : WriteCloser X;
  gw_z : enc;
  gw_err : option error;
  gw_closed : bool
}.

(** Hand chunks to the sink in order, stopping at the first error. *)
Fixpoint writeChunks (w : WriteCloser X) (chunks : list bytes) (x : X)
  : option error * X :=
  match chunks with
  | [] => (None, x)
  | c :: rest =>
      let '(e, x) := Write w c x in
      match e with
      | Some _ => (e, x)
      | None => writeChunks w rest x
      end
  end.

(** [gzip.NewWriterLevel(w, level)]. *)
Definition NewWriterLevel (w : WriteCloser X) (level : Z) : result Writer :=
  if (level <? HuffmanOnly) || (level >? BestCompression) then
    Err (New ("gzip: invalid compression level: " +:+ appendInt level 0))
  else
    Ok {| gw_w := w; gw_z := enc_init; gw_err := None; gw_closed := false |}.

(** [Writer.Write(p)]. *)
Definition Writer_Write (gw : Writer) (p : bytes) (x : X)
  : option error * Writer * X :=
  match gw_err gw with
  | Some e => (Some e, gw, x)
  | None =>
      let '(z, chunks) := enc_write (gw_z gw) p in
      let '(e, x) := writeChunks (gw_w gw) chunks x in
      (e, {| gw_w := gw_w gw; gw_z := z; gw_err := e;
             gw_closed := gw_closed gw |}, x)
  end.

(** [Writer.Close()]: flushes and writes the trailer; the sink
    stays open. *)
Definition Writer_Close (gw : Writer) (x : X) : option error * Writer * X :=
  match gw_err gw with
  | Some e => (Some e, gw, x)
  | None =>
      if gw_closed gw then (None, gw, x)
      else
        let '(e, x) := writeChunks (gw_w gw) (enc_close (gw_z gw)) x in
        (e, {| gw_w := gw_w gw; gw_z := gw_z gw; gw_err := e;
               gw_closed := true |}, x)
  end.

End Writer.
Arguments Writer {_} X.

(** Reading an archive back: decompress, then split on newlines. A line
    ends at each newline; a last line without one counts when it is not
    empty. *)
Fixpoint splitLines (cur : bytes) (data : bytes) : list bytes :=
  match data with
  | [] => match cur with [] => [] | _ => [cur] end
  | b :: rest =>
      if Byte.eqb b newline then cur :: splitLines [] rest
      else splitLines (cur ++ [b]) rest
  end.

Definition readLines `{Codec} (file : bytes) : option (list bytes) :=
  match gunzip file with
  | Some data => Some (splitLines [] data)
  | None => None
  end.

End Gzip.
Import Gzip.

(* ===================================================================== *)
(** * Package [source]: the MongoDB document source *)
(* ===================================================================== *)

Module Source.

(** [StreamingResult]: the documents [Iter] yields when drained, and the
    value of [Err()] afterwards. The archiver reads [Err()] only after a
    full drain; what an abandoned iteration does to its cursor is not
    modelled. *)
Record StreamingResult : Type := mkStreamingResult {
  Iter : list bytes;
  sr_Err : option error
}.

(** A document of the collection: its [createdAt] date when it has one,
    and its canonical Extended JSON text ([bson.MarshalExtJSON]). *)
Record Document : Type := mkDocument {
  createdAt : option Time;
  extJSON : bytes
}.

(** [MongoDB]: the collection, in the server's natural order, and the
    error the driver answers with while the server cannot serve a request
    ([None] when it can). Faults in the middle of a cursor are not
    modelled. *)
Record MongoDB : Type := mkMongoDB {
  collection : list Document;
  unavailable : option error
}.

Definition ErrNoDocuments : error := New "mongo: no documents in result".

(** The filter [{createdAt: {$gte: t, $lt: t.AddDate(0, 0, 1)}}]. *)
Definition createdOn (t : Time) (doc : Document) : bool :=
  match createdAt doc with
  | Some c => (t <=? c) && (c <? AddDate t 0 0 1)
  | None => false
  end.

(** [FindAllFromDate]: when [Find] fails the result holds the error and
    [Iter] yields nothing. *)
Definition MongoDB_FindAllFromDate (date : Time) (a : MongoDB)
  : StreamingResult * MongoDB :=
  let t := Truncate date (Hour * 24) in
  match unavailable a with
  | Some err => ({| Iter := []; sr_Err := Some err |}, a)
  | None =>
      ({| Iter := List.map extJSON (List.filter (createdOn t) (collection a));
          sr_Err := None |}, a)
  end.

(** The first [createdAt] in ascending order, if any document has one. *)
Fixpoint minCreatedAt (docs : list Document) : option Time :=
  match docs with
  | [] => None
  | doc :: rest =>
      match createdAt doc, minCreatedAt rest with
      | Some c, Some m => Some (Z.min c m)
      | Some c, None => Some c
      | None, m => m
      end
  end.

(** [EarliestCreatedAt]: [Decode] fails with the request's error, or with
    [ErrNoDocuments] when nothing matched. *)
Definition MongoDB_EarliestCreatedAt (a : MongoDB) : result Time * MongoDB :=
  match unavailable a with
  | Some err => (Err err, a)
  | None =>
      match minCreatedAt (collection a) with
      | Some t => (Ok t, a)
      | None => (Err ErrNoDocuments, a)
      end
  end.

(** [DeleteAllFromDate]. *)
Definition MongoDB_DeleteAllFromDate (date : Time) (a : MongoDB)
  : result Z * MongoDB :=
  let t := Truncate date (Hour * 24) in
  match unavailable a with
  | Some err => (Err err, a)
  | None =>
      (Ok (Z.of_nat (List.length (List.filter (createdOn t) (collection a)))),
       {| collection :=
            List.filter (fun doc => negb (createdOn t doc)) (collection a);
          unavailable := None |})
  end.

(** Number of documents created on the day starting at [t]. *)
Definition countOn (t : Time) (a : MongoDB) : nat :=
  List.length (List.filter (createdOn t) (collection a)).

(** [mockDocumentSource] of the archiver's tests: documents by the
    exact instant they were added under. Go leaves unspecified the order
    in which a range loop visits the keys of a map, and it may differ
    from one loop to the next: [rangeOrder] is that order for the map as
    it is when the loop starts. It is an input of the model; the loop
    visits every key once, so only the orders that [visitsEachKeyOnce]
    admits can occur. *)
Record mockDocumentSource : Type := mkMockDocumentSource {
  docs : gmap Z (list bytes);
  rangeOrder : gmap Z (list bytes) -> list Z
}.

(** The keys of a map, as [map_to_list] lists them. *)
Definition keys (m : gmap Z (list bytes)) : list Z := (map_to_list m).*1.

(** The orders a range loop over the map of [m] can take. *)
Definition visitsEachKeyOnce (m : mockDocumentSource) : Prop :=
  rangeOrder m (docs m) ≡ₚ keys (docs m).

Definition newMockDocumentSource : mockDocumentSource :=
  {| docs := ∅; rangeOrder := keys |}.

Definition mock_add (date : Time) (doc : bytes) (m : mockDocumentSource)
  : mockDocumentSource :=
  {| docs := <[date := default [] (docs m !! date) ++ [doc]]> (docs m);
     rangeOrder := rangeOrder m |}.

Definition mock_FindAllFromDate (date : Time) (m : mockDocumentSource)
  : StreamingResult * mockDocumentSource :=
  ({| Iter := default [] (docs m !! date); sr_Err := None |}, m).

Definition mock_DeleteAllFromDate (date : Time) (m : mockDocumentSource)
  : result Z * mockDocumentSource :=
  (Ok (Z.of_nat (List.length (default [] (docs m !! date)))),
   {| docs := delete date (docs m); rangeOrder := rangeOrder m |}).

(** Go's zero [time.Time], 0001-01-01T00:00:00Z. *)
Definition zeroTime : Time := - (unixToInternal * Second).

(** One turn of the range loop of [EarliestCreatedAt]:
    [if t.Before(earliest) || earliest.IsZero() { earliest = t }]. *)
Definition earlier (earliest t : Time) : Time :=
  if Before t earliest || (earliest =? zeroTime) then t else earliest.

(** [EarliestCreatedAt]: the range loop over the keys, in the order the
    map is visited in. *)
Definition mock_EarliestCreatedAt (m : mockDocumentSource)
  : result Time * mockDocumentSource :=
  if decide (size (docs m) = 0%nat) then (Err (New "no documents found"), m)
  else (Ok (fold_left earlier (rangeOrder m (docs m)) zeroTime), m).

End Source.
Import Source.

(* ===================================================================== *)
(** * Package [storage] and the in-memory store of the tests *)
(* ===================================================================== *)

Module Storage.

(** [mockStorage]: files by path, and the error every sink returns from
    [Close]. *)
Record mockStorage : Type := mkMockStorage {
  files : gmap string bytes;
  forceCloseError : option error
}.

Definition newMockStorage : mockStorage :=
  {| files := ∅; forceCloseError := None |}.

(** [errCloser]: writes go to the buffer stored under [path]. *)
Definition errCloser (path : string) (err : option error) : WriteCloser mockStorage :=
  {| Write := fun p m =>
       (None, {| files := alter (fun buf => buf ++ p) path (files m);
                 forceCloseError := forceCloseError m |});
     Close := fun m => (err, m) |}.

Definition mockStorage_Create (path : string) (m : mockStorage)
  : result (WriteCloser mockStorage) * mockStorage :=
  (Ok (errCloser path (forceCloseError m)),
   {| files := <[path := []]> (files m);
      forceCloseError := forceCloseError m |}).

Definition mockStorage_Exists (path : string) (m : mockStorage)
  : result bool * mockStorage :=
  (Ok (bool_decide (is_Some (files m !! path))), m).

(** [Noop]: the store that discards everything. *)
Definition Noop : Type := unit.

Definition nopCloser : WriteCloser Noop :=
  {| Write := fun _ n => (None, n); Close := fun n => (None, n) |}.

Definition Noop_Create (path : string) (n : Noop) : result (WriteCloser Noop) * Noop :=
  (Ok nopCloser, n).

Definition Noop_Exists (path : string) (n : Noop) : result bool * Noop :=
  (Ok false, n).

End Storage.
Import Storage.

(* ===================================================================== *)
(** * Package [archive] *)
(* ===================================================================== *)

Module Archive.

(** The two collaborator interfaces. An implementation is a type of
    states with one state transformer per method. *)
Class documentSource (S : Type) : Type := {
  FindAllFromDate : Time -> S -> StreamingResult * S;
  DeleteAllFromDate : Time -> S -> result Z * S;
  EarliestCreatedAt : S -> result Time * S
}.

Class store (T : Type) : Type := {
  Create : string -> T -> result (WriteCloser T) * T;
  Exists : string -> T -> result bool * T
}.

#[export] Instance MongoDB_documentSource : documentSource MongoDB := {|
  FindAllFromDate := MongoDB_FindAllFromDate;
  DeleteAllFromDate := MongoDB_DeleteAllFromDate;
  EarliestCreatedAt := MongoDB_EarliestCreatedAt
|}.

#[export] Instance mock_documentSource : documentSource mockDocumentSource := {|
  FindAllFromDate := mock_FindAllFromDate;
  DeleteAllFromDate := mock_DeleteAllFromDate;
  EarliestCreatedAt := mock_EarliestCreatedAt
|}.

#[export] Instance mockStorage_store : store mockStorage := {|
  Create := mockStorage_Create;
  Exists := mockStorage_Exists
|}.

#[export] Instance Noop_store : store Noop := {|
  Create := Noop_Create;
  Exists := Noop_Exists
|}.

(** [context.Context] as the run observes it. [Done date] tells whether
    the select that follows the Day [date] receives from [ctx.Done()]
    (rather than from the timer); [ctx_Err] is what [ctx.Err()] returns
    then. Which channel a select receives from is decided outside the
    program, so it is an input of the model. *)
Record Context : Type := mkContext {
  Done : Time -> bool;
  ctx_Err : error
}.

Definition Canceled : error := New "context canceled".

(** [context.Background()]: never done. *)
Definition Background : Context := {| Done := fun _ => false; ctx_Err := Canceled |}.

(** Go's [int] on the 64-bit targets the program is built for. *)
Definition int_wrap (z : Z) : Z := (z + 2 ^ 63) mod 2 ^ 64 - 2 ^ 63.
Definition int_incr (i : Z) : Z := int_wrap (i + 1).

(** [path.Join]: the non-empty elements separated by slashes. The final
    [Clean] is the identity on the paths built here (no dot elements, no
    doubled or trailing slash) and is left out. *)
Fixpoint path_Join (elems : list string) : string :=
  match elems with
  | [] => ""
  | e :: rest =>
      if decide (e = "") then path_Join rest
      else match path_Join rest with
           | "" => e
           | tl => e +:+ "/" +:+ tl
           end
  end.

(** ** The ghost trace *)

Inductive level : Type := LevelInfo | LevelWarn | LevelError.

(** Attribute values of a log record. Where the source logs the text of
    a [time.Time], the instant itself is recorded. *)
Inductive attr : Type :=
| String_ (s : string)
| Int_ (i : Z)
| Time_ (t : Time).

Inductive event : Type :=
| EvEarliestCreatedAt (r : result Time)
| EvExists (path : string) (r : result bool)
| EvCreate (path : string) (r : option error)
| EvWrite (p : bytes) (r : option error)
| EvGzipClose (r : option error)
| EvFileClose (r : option error)
| EvFindAllFromDate (date : Time)
| EvErr (r : option error)
| EvDeleteAllFromDate (date : Time) (r : result Z)
| EvSelect (date : Time) (done : bool)
| EvLog (l : level) (msg : string) (attrs : list (string * attr)).

Section Archiver.
Context {S T : Type} `{documentSource S} `{store T} `{Codec}.

(** The state the run acts on: the source, the store, and the trace of
    what has been asked of them. *)
Record World : Type := mkWorld {
  src : S;
  sto : T;
  trace : list event
}.

Definition emit (e : event) (s : World) : World :=
  {| src := src s; sto := sto s; trace := trace s ++ [e] |}.

(** [slog.Info], [slog.Warn] and [slog.Error]. *)
Definition slog (l : level) (msg : string) (attrs : list (string * attr))
  (s : World) : World :=
  emit (EvLog l msg attrs) s.

(** The [Archiver] struct. Its [source] and [store] fields are the two
    interface instances in scope; their states live in the [World]. *)
Record Archiver : Type := NewArchiver {
  skipDelete : bool;
  ignoreFileExistsError : bool;
  delay : Duration
}.

(** Calls on the collaborators, each recorded in the trace. *)
Definition source_EarliestCreatedAt (s : World) : result Time * World :=
  let '(r, x) := EarliestCreatedAt (src s) in
  (r, emit (EvEarliestCreatedAt r) {| src := x; sto := sto s; trace := trace s |}).

Definition source_FindAllFromDate (date : Time) (s : World)
  : StreamingResult * World :=
  let '(res, x) := FindAllFromDate date (src s) in
  (res, emit (EvFindAllFromDate date) {| src := x; sto := sto s; trace := trace s |}).

Definition source_DeleteAllFromDate (date : Time) (s : World)
  : result Z * World :=
  let '(r, x) := DeleteAllFromDate date (src s) in
  (r, emit (EvDeleteAllFromDate date r)
        {| src := x; sto := sto s; trace := trace s |}).

Definition store_Exists (path : string) (s : World) : result bool * World :=
  let '(r, t) := Exists path (sto s) in
  (r, emit (EvExists path r) {| src := src s; sto := t; trace := trace s |}).

(** The sink a store hands out, acting on the store inside the world. *)
Definition sink (w : WriteCloser T) : WriteCloser World :=
  {| Write := fun p s =>
       let '(e, t) := Write w p (sto s) in
       (e, emit (EvWrite p e) {| src := src s; sto := t; trace := trace s |});
     Close := fun s =>
       let '(e, t) := Close w (sto s) in
       (e, emit (EvFileClose e) {| src := src s; sto := t; trace := trace s |}) |}.

Definition store_Create (path : string) (s : World)
  : result (WriteCloser World) * World :=
  let '(r, t) := Create path (sto s) in
  let s := {| src := src s; sto := t; trace := trace s |} in
  match r with
  | Ok w => (Ok (sink w), emit (EvCreate path None) s)
  | Err e => (Err e, emit (EvCreate path (Some e)) s)
  end.

Definition gzip_Close (gw : Writer World) (s : World)
  : option error * Writer World * World :=
  let '(e, gw, s) := Writer_Close gw s in
  (e, gw, emit (EvGzipClose e) s).

(** The archive path of a Day. *)
Definition fileNameOf (date : Time) : string :=
  path_Join [Format2006 date; Format01 date; Format02 date +:+ ".json.gz"].

(** [io.Copy(gw, buf)] for a non-empty [bytes.Buffer]: one
    [gw.Write] of the whole content. *)
Definition io_Copy (gw : Writer World) (buf : bytes) (s : World)
  : option error * Writer World * World :=
  Writer_Write gw buf s.

(** The [for doc := range res.Iter(ctx)] loop of [archiveDocuments]:
    count the document, append a newline, copy into the gzip writer;
    leave at the first error. ([bytes.Buffer.WriteByte] always returns
    nil.) *)
Fixpoint writeDocuments (docs : list bytes) (i : Z) (gw : Writer World)
  (s : World) : option error * Z * Writer World * World :=
  match docs with
  | [] => (None, i, gw, s)
  | doc :: rest =>
      let i := int_incr i in
      let buf := doc ++ [newline] in
      let '(err, gw, s) := io_Copy gw buf s in
      match err with
      | Some _ => (err, i, gw, s)
      | None => writeDocuments rest i gw s
      end
  end.

(** The part of [archiveDocuments] that runs between the two [defer]
    statements and the return. *)
Definition archiveDocuments_body (date : Time) (gw : Writer World) (s : World)
  : option error * Writer World * World :=
  let i := 0 in
  let '(res, s) := source_FindAllFromDate date s in
  let '(err, i, gw, s) := writeDocuments (Iter res) i gw s in
  match err with
  | Some _ => (err, gw, s)
  | None =>
      let s := emit (EvErr (sr_Err res)) s in
      match sr_Err res with
      | Some e => (Some e, gw, s)
      | None =>
          let s := slog LevelInfo "documents written" [("total", Int_ i)] s in
          (None, gw, s)
      end
  end.

(** The deferred close of the gzip writer: a close error is joined to
    the error being returned. *)
Definition defer_gzip_Close (gw : Writer World) (err : option error) (s : World)
  : option error * World :=
  let '(cErr, _, s) := gzip_Close gw s in
  match cErr with
  | Some c => (Join [err; Some (Errorf "failed to close gzip writer" c)], s)
  | None => (err, s)
  end.

(** The deferred close of the file writer, which runs last. *)
Definition defer_file_Close (w : WriteCloser World) (err : option error) (s : World)
  : option error * World :=
  let '(cErr, s) := Close w s in
  match cErr with
  | Some c => (Join [err; Some (Errorf "failed to close file" c)], s)
  | None => (err, s)
  end.

(** [archiveDocuments]. *)
Definition archiveDocuments (a : Archiver) (date : Time) (s : World)
  : option error * World :=
  let fileName := fileNameOf date in
  let '(r, s) := store_Exists fileName s in
  match r with
  | Err err => (Some (Errorf "failed to check if file exists" err), s)
  | Ok exists_ =>
      if exists_ then
        let s := slog LevelError "target file already exists"
                   [("file", String_ fileName)] s in
        if ignoreFileExistsError a then
          let s := slog LevelWarn "skipping documents write" [] s in
          (None, s)
        else (Some (New "target file exists"), s)
      else
        let s := slog LevelInfo "writing to file"
                   [("fileName", String_ fileName)] s in
        let '(r, s) := store_Create fileName s in
        match r with
        | Err err => (Some err, s)
        | Ok w =>
            let '(err, s) :=
              match NewWriterLevel w DefaultCompression with
              | Err err => (Some err, s)
              | Ok gw =>
                  let '(err, gw, s) := archiveDocuments_body date gw s in
                  defer_gzip_Close gw err s
              end in
            defer_file_Close w err s
        end
  end.

(** [archiveDocumentsAndDelete]. *)
Definition archiveDocumentsAndDelete (a : Archiver) (date : Time) (s : World)
  : option error * World :=
  let '(err, s) := archiveDocuments a date s in
  match err with
  | Some e => (Some (Errorf "failed to archive documents" e), s)
  | None =>
      if negb (skipDelete a) then
        let '(r, s) := source_DeleteAllFromDate date s in
        match r with
        | Err e => (Some (Errorf "failed to delete documents" e), s)
        | Ok deleted =>
            let s := slog LevelInfo "documents deleted" [("total", Int_ deleted)] s in
            (None, s)
        end
      else (None, s)
  end.

(** The day loop of [Run], from the Day [date] on. [fuel] bounds the
    number of iterations; [None] means it ran out. *)
Fixpoint Run_loop (fuel : nat) (a : Archiver) (ctx : Context)
  (target date : Time) (total : Z) (s : World)
  : option (option error * World) :=
  match fuel with
  | O => None
  | Datatypes.S fuel =>
      if Before date target then
        let s := slog LevelInfo "archiving" [("date", Time_ date)] s in
        let '(err, s) := archiveDocumentsAndDelete a date s in
        match err with
        | Some e => Some (Some (Errorf "archival failed" e), s)
        | None =>
            let total := int_incr total in
            let s := emit (EvSelect date (Done ctx date)) s in
            if Done ctx date then Some (Some (ctx_Err ctx), s)
            else Run_loop fuel a ctx target (AddDate date 0 0 1) total s
        end
      else
        let s := slog LevelInfo "target reached" [("datesArchived", Int_ total)] s in
        Some (None, s)
  end.

(** [Run]. *)
Definition Run (fuel : nat) (a : Archiver) (ctx : Context) (target : Time)
  (s : World) : option (option error * World) :=
  let '(r, s) := source_EarliestCreatedAt s in
  match r with
  | Err err => Some (Some (Errorf "failed to get earliest created at" err), s)
  | Ok earliest =>
      let s := slog LevelInfo "archiver running"
                 [("target", Time_ target); ("earliest", Time_ earliest)] s in
      Run_loop fuel a ctx target (Truncate earliest (Hour * 24)) 0 s
  end.

(** Iterations of the day loop that are enough for it to finish. *)
Definition Run_fuel (earliest target : Time) : nat :=
  Datatypes.S (Z.to_nat ((target - Truncate earliest (Hour * 24)) / nsPerDay + 1)).

End Archiver.
Arguments World : clear implicits.

(** ** The select between two Days *)

(** What the select that follows a Day finds, and what it does with
    it. [signalled]: [ctx.Done()] is closed when the select is
    evaluated, that is, cancellation was signalled before. [fired]: the
    timer of [time.After] has fired by then although the delay is
    positive. [pick]: the case the select takes when both can proceed,
    a pseudo-random choice, [true] for [ctx.Done()]. [interrupted]: when
    neither can proceed and the select waits, whether the cancellation
    comes before the timer fires. All four are decided outside the
    program. The archiver consults the context in this select alone, so
    how long before the select the cancellation was signalled makes no
    difference to it. *)
Record Boundary : Type := mkBoundary {
  signalled : bool;
  fired : bool;
  pick : bool;
  interrupted : bool
}.

(** The channel of [time.After(delay)] can be received from when the
    select is evaluated: at once when the delay is not positive. *)
Definition timer_ready (delay : Duration) (b : Boundary) : bool :=
  (delay <=? 0) || fired b.

(** The select of [Run]: [true] when it receives from [ctx.Done()].
    A case that can proceed alone is taken; of two that can proceed one
    is picked; otherwise the select waits for the first of the two. *)
Definition select_Done (delay : Duration) (b : Boundary) : bool :=
  match signalled b, timer_ready delay b with
  | true, false => true
  | false, true => false
  | true, true => pick b
  | false, false => interrupted b
  end.

(** The context of a run of [a] whose Day boundaries are as [env]
    tells, with [err] for [ctx.Err()]. *)
Definition observed (a : Archiver) (env : Time -> Boundary) (err : error) : Context :=
  {| Done := fun date => select_Done (delay a) (env date); ctx_Err := err |}.

End Archive.
Import Archive.

(* ===================================================================== *)
(** * Definitions used to state and prove the properties *)
(* ===================================================================== *)

(** The two halves of [absDate]: the year with the day of the year, then
    the month with the day of the month. *)
Module Calendar.

Definition yearDay (d : Z) : Z * Z :=
  let n := d / daysPer400Years in
  let y := 400 * n in
  let d := d - daysPer400Years * n in
  let n := d / daysPer100Years in
  let n := n - Z.shiftr n 2 in
  let y := y + 100 * n in
  let d := d - daysPer100Years * n in
  let n := d / daysPer4Years in
  let y := y + 4 * n in
  let d := d - daysPer4Years * n in
  let n := d / 365 in
  let n := n - Z.shiftr n 2 in
  let y := y + n in
  let d := d - 365 * n in
  (y + 1, d).

Definition monthDay (leap : bool) (day : Z) : Z * Z :=
  if leap && (day =? 31 + 29 - 1) then (2, 29)
  else
    let day := if leap && (day >? 31 + 29 - 1) then day - 1 else day in
    let month := day / 31 in
    let end_ := daysBefore (month + 1) in
    let '(month, begin) :=
      if day >=? end_ then (month + 1, end_) else (month, daysBefore month) in
    (month + 1, day - begin + 1).

(** [monthDay] inverts the month table at the day [yd] of the year. *)
Definition monthDay_ok (leap : bool) (yd : Z) : bool :=
  let '(m, dd) := monthDay leap yd in
  (1 <=? m) && (m <=? 12) && (1 <=? dd) && (dd <=? 31) &&
  (daysBefore (m - 1) + (if leap && (m >=? 3) then 1 else 0) + (dd - 1) =? yd).

(** [f] holds at the [n] integers from [z] on. *)
Fixpoint all_from (n : nat) (z : Z) (f : Z -> bool) : bool :=
  match n with
  | O => true
  | Datatypes.S k => f z && all_from k (z + 1) f
  end.

End Calendar.

(** What can be read off a trace. *)
Module Obs.

(** The Day an ["archiving"] record announces. *)
Definition archiving_date (e : event) : option Time :=
  match e with
  | EvLog LevelInfo msg [(_, Time_ d)] =>
      if decide (msg = "archiving") then Some d else None
  | _ => None
  end.

(** The Days the loop body was entered for, in order. *)
Definition days_archived (tr : list event) : list Time := omap archiving_date tr.

Definition deletion (e : event) : option (Time * result Z) :=
  match e with
  | EvDeleteAllFromDate d r => Some (d, r)
  | _ => None
  end.

(** The deletions asked of the source, in order. *)
Definition deletions (tr : list event) : list (Time * result Z) := omap deletion tr.

Definition creation (e : event) : option string :=
  match e with
  | EvCreate p _ => Some p
  | _ => None
  end.

(** The paths [Create] was called with, in order. *)
Definition creations (tr : list event) : list string := omap creation tr.

Definition written (e : event) : option Z :=
  match e with
  | EvLog LevelInfo msg [(_, Int_ n)] =>
      if decide (msg = "documents written") then Some n else None
  | _ => None
  end.

(** The record counts of the ["documents written"] records, in order. *)
Definition documents_written (tr : list event) : list Z := omap written tr.

(** The error an event reports, if it reports one: a failed write, the
    stream's terminal error, a failed close. *)
Definition failure (e : event) : option error :=
  match e with
  | EvWrite _ (Some x) => Some x
  | EvErr (Some x) => Some x
  | EvGzipClose (Some x) => Some x
  | EvFileClose (Some x) => Some x
  | _ => None
  end.

Definition is_write (e : event) : Prop :=
  match e with
  | EvWrite _ _ => True
  | _ => False
  end.

(** The two closes that end the archive step of a Day. *)
Definition closes (c1 c2 : option error) : list event :=
  [EvGzipClose c1; EvFileClose c2].

Definition is_close (e : event) : Prop :=
  match e with
  | EvGzipClose _ | EvFileClose _ => True
  | _ => False
  end.

(** Events of the stream of one Day: the query, the writes, the check
    of the terminal error, the record count. *)
Definition stream_event (e : event) : Prop :=
  match e with
  | EvFindAllFromDate _ | EvWrite _ _ | EvErr _ => True
  | EvLog _ msg _ => msg = "documents written"
  | _ => False
  end.

(** Events the archive step of one Day can produce. *)
Definition archive_event (e : event) : Prop :=
  match e with
  | EvExists _ _ | EvCreate _ _ | EvWrite _ _ | EvGzipClose _
  | EvFileClose _ | EvFindAllFromDate _ | EvErr _ => True
  | EvLog _ msg _ => msg <> "archiving"
  | _ => False
  end.

End Obs.
Import Obs.

(** The Days of the loop header
    [for date := start; date.Before(target); date = date.AddDate(0, 0, 1)]. *)
Fixpoint daysUntil (fuel : nat) (target date : Time) : list Time :=
  match fuel with
  | O => []
  | Datatypes.S fuel =>
      if Before date target then date :: daysUntil fuel target (AddDate date 0 0 1)
      else []
  end.

(** The Day [k] days after [start]. *)
Definition nthDay (start : Time) (k : nat) : Time := start + Z.of_nat k * nsPerDay.

(** The state and the chunks of an encoder after the writes [inputs]. *)
Fixpoint enc_writes `{Codec} (z : enc) (inputs : list bytes) : enc * list bytes :=
  match inputs with
  | [] => (z, [])
  | p :: rest =>
      let '(z', out) := enc_write z p in
      let '(z'', outs) := enc_writes z' rest in
      (z'', out ++ outs)
  end.

(** A record as it is written: its bytes and a newline. *)
Definition line (doc : bytes) : bytes := doc ++ [newline].

(** The value of the record counter after [n] increments from [i]. *)
Fixpoint counted (n : nat) (i : Z) : Z :=
  match n with
  | O => i
  | Datatypes.S n => counted n (int_incr i)
  end.

(** A store keeps what it creates when a path that [Create] returned a
    sink for is [present] from then on, through the writes and the close
    of that sink, and [Exists] says so. *)
Class Persistent {T : Type} `{store T} (present : string -> T -> Prop) : Prop := {
  present_Exists : forall p t, present p t -> exists t', Exists p t = (Ok true, t');
  present_Create : forall p t w t', Create p t = (Ok w, t') -> present p t';
  present_Write : forall p t w t' c t1,
    Create p t = (Ok w, t') -> present p t1 -> present p (Write w c t1).2;
  present_Close : forall p t w t' t1,
    Create p t = (Ok w, t') -> present p t1 -> present p (Close w t1).2
}.

(** [mockStorage] holds a file at [p]. *)
Definition mock_present (p : string) (m : mockStorage) : Prop :=
  is_Some (files m !! p).

(** A codec to run examples with: a two-byte magic number, the data as
    it comes ("stored"), and a one-byte trailer. *)
Module Stored.

Definition header : bytes := [x1f; x8b].
Definition trailer : bytes := [x00].

Definition strip (b : bytes) : option bytes :=
  match b with
  | h1 :: h2 :: rest =>
      if Byte.eqb h1 x1f && Byte.eqb h2 x8b then
        match rev rest with
        | t :: r => if Byte.eqb t x00 then Some (rev r) else None
        | [] => None
        end
      else None
  | _ => None
  end.

Definition codec : Codec := {|
  enc := bool;
  enc_init := false;
  enc_write := fun wroteHeader p =>
    (true, (if wroteHeader then [] else [header]) ++ [p]);
  enc_close := fun wroteHeader =>
    (if wroteHeader then [] else [header]) ++ [trailer];
  gunzip := strip
|}.

End Stored.

(** Worlds and inputs of the scenarios. *)
Module Scenario.

Definition nov (day hour min sec : Z) : Time := mkDate 2024 11 day hour min sec 0.

Definition record (created : Time) (json : string) : Document :=
  {| createdAt := Some created; extJSON := bytes_of_string json |}.

Definition defaults : Archiver :=
  {| skipDelete := false; ignoreFileExistsError := false; delay := 0 |}.

(** Five records: one in the last second of 11/01, two on 11/02, one at
    midnight of 11/03, one on 11/04. *)
Definition doc1 : Document := record (nov 1 23 59 59) "{id:1}".
Definition doc2 : Document := record (nov 2 8 0 0) "{id:2}".
Definition doc3 : Document := record (nov 2 17 30 0) "{id:3}".
Definition doc4 : Document := record (nov 3 0 0 0) "{id:4}".
Definition doc5 : Document := record (nov 4 12 0 0) "{id:5}".

Definition five : MongoDB :=
  {| collection := [doc1; doc2; doc3; doc4; doc5]; unavailable := None |}.

Definition start : World MongoDB mockStorage :=
  {| src := five; sto := newMockStorage; trace := [] |}.

Definition cutoff : Time := nov 3 0 0 0.

(** One record at noon, and a cutoff at that very instant. *)
Definition noon : World MongoDB mockStorage :=
  {| src := {| collection := [record (nov 1 12 0 0) "{id:1}"];
               unavailable := None |};
     sto := newMockStorage; trace := [] |}.

(** A record of two lines in the test source. *)
Definition twoLines : bytes := bytes_of_string "a" ++ [newline] ++ bytes_of_string "b".

Definition multiline : World mockDocumentSource mockStorage :=
  {| src := mock_add (nov 1 0 0 0) twoLines newMockDocumentSource;
     sto := newMockStorage; trace := [] |}.

(** The discarding store, and a server that cannot be reached. *)
Definition timeout : error := New "server selection timeout".

Definition discarding : World MongoDB Noop :=
  {| src := {| collection := [doc1]; unavailable := Some timeout |};
     sto := tt; trace := [] |}.

(** A store whose sinks fail to close. *)
Definition closeError : error := New "force-close-error".

Definition failingClose : World MongoDB mockStorage :=
  {| src := five;
     sto := {| files := ∅; forceCloseError := Some closeError |};
     trace := [] |}.

(** A store that already holds the archive of 11/01. *)
Definition archived : World MongoDB mockStorage :=
  {| src := five;
     sto := {| files := {[ "2024/11/01.json.gz" := [] ]}; forceCloseError := None |};
     trace := [] |}.

Definition path1 : string := "2024/11/01.json.gz".
Definition path2 : string := "2024/11/02.json.gz".
Definition path3 : string := "2024/11/03.json.gz".
Definition path4 : string := "2024/11/04.json.gz".

(** The source once the record of 11/01 is gone, then those of 11/02. *)
Definition four : MongoDB :=
  {| collection := [doc2; doc3; doc4; doc5]; unavailable := None |}.
Definition two : MongoDB :=
  {| collection := [doc4; doc5]; unavailable := None |}.

(** A collection without records. *)
Definition nothing : World MongoDB mockStorage :=
  {| src := {| collection := []; unavailable := None |};
     sto := newMockStorage; trace := [] |}.

(** The other policies. *)
Definition ignoring : Archiver :=
  {| skipDelete := false; ignoreFileExistsError := true; delay := 0 |}.
Definition skipping : Archiver :=
  {| skipDelete := true; ignoreFileExistsError := false; delay := 0 |}.

(** A context cancelled by the time the first Day is over. *)
Definition cancelled : Context := {| Done := fun _ => true; ctx_Err := Canceled |}.

(** The world of an outcome; [dflt] stands for a run out of fuel. *)
Definition outcome {S T : Type} (o : option (option error * World S T))
  (dflt : World S T) : World S T :=
  match o with
  | Some (_, s) => s
  | None => dflt
  end.

End Scenario.

(** An archiver that waits a second between two Days, and Day
    boundaries at each of which cancellation has been signalled: the
    timer of a positive delay has not fired, and when both cases of the
    select can proceed the select takes the timer. *)
Definition paced : Archiver :=
  {| skipDelete := false; ignoreFileExistsError := false; delay := Second |}.

Definition stopRequested : Time -> Boundary :=
  fun _ => {| signalled := true; fired := false; pick := false; interrupted := false |}.

(** The test doubles, which ignore the context they are given, with
    one record under 11/01 and one under 11/02. *)
Definition twoDays : World mockDocumentSource mockStorage :=
  {| src := mock_add (Scenario.nov 2 0 0 0) (extJSON Scenario.doc2)
              (mock_add (Scenario.nov 1 0 0 0) (extJSON Scenario.doc1)
                 newMockDocumentSource);
     sto := newMockStorage; trace := [] |}.

(** The number of Days [start], [start + 1 day], ... before [target]. *)
Definition dayCount (target start : Time) : nat :=
  Z.to_nat ((target - start + nsPerDay - 1) / nsPerDay).

(** How a world changes under the writes of a sink. *)
Section Frames.
Context {S T : Type} `{documentSource S} `{store T} `{Codec}.

(** A property of the store that the writes on a sink keep. *)
Definition kept_by_writes (w : WriteCloser T) (P : T -> Prop) : Prop :=
  forall c t, P t -> P (Write w c t).2.

(** [s'] comes from [s] by writes on the sink [w] that returned [r]:
    the source is untouched, the store changed by writes only, the
    trace grew by write events, and a write failed exactly when an
    error was returned, with that error. *)
Record wrote (w : WriteCloser T) (r : option error) (s s' : World S T) : Prop := {
  wrote_src : src s' = src s;
  wrote_sto : forall P, kept_by_writes w P -> P (sto s) -> P (sto s');
  wrote_trace : exists evs,
    trace s' = trace s ++ evs /\ Forall is_write evs /\
    (forall ev x, In ev evs -> failure ev = Some x -> r = Some x) /\
    (forall x, r = Some x -> exists ev, In ev evs /\ failure ev = Some x)
}.

(** [gw] writes to the sink [w], has not failed and is not closed. *)
Definition fresh (w : WriteCloser T) (gw : Writer (World S T)) : Prop :=
  gw_w gw = sink w /\ gw_err gw = None /\ gw_closed gw = false.

End Frames.

(** Worlds over the in-memory store. *)
Section MockWorlds.
Context {S : Type} `{documentSource S} `{Codec}.

(** The world after [chunks] were appended to the file at [p], which
    held [buf]. *)
Definition appended (p : string) (buf : bytes) (chunks : list bytes)
  (s : World S mockStorage) : World S mockStorage :=
  {| src := src s;
     sto := {| files := <[p := buf ++ concat chunks]> (files (sto s));
               forceCloseError := forceCloseError (sto s) |};
     trace := trace s ++ List.map (fun c => EvWrite c None) chunks |}.

(** The gzip writer after the writes [inputs]. *)
Definition advanced (gw : Writer (World S mockStorage)) (inputs : list bytes)
  : Writer (World S mockStorage) :=
  {| gw_w := gw_w gw; gw_z := (enc_writes (gw_z gw) inputs).1;
     gw_err := None; gw_closed := gw_closed gw |}.

Definition wrote_ok (c : bytes) : event := EvWrite c None.

(** The events of a Day written to a free path of the in-memory
    store. *)
Definition written_events (date : Time) (docs : list bytes)
  (closeErr : option error) : list event :=
  [EvExists (fileNameOf date) (Ok false);
   EvLog LevelInfo "writing to file" [("fileName", String_ (fileNameOf date))];
   EvCreate (fileNameOf date) None;
   EvFindAllFromDate date]
  ++ List.map wrote_ok (enc_writes enc_init (List.map line docs)).2
  ++ [EvErr None;
      EvLog LevelInfo "documents written"
        [("total", Int_ (counted (List.length docs) 0))]]
  ++ List.map wrote_ok (enc_close (enc_writes enc_init (List.map line docs)).1)
  ++ [EvGzipClose None; EvFileClose closeErr].

End MockWorlds.

(** The error of a run stopped by an existing archive. *)
Definition conflict : error :=
  Errorf "archival failed"
    (Errorf "failed to archive documents" (New "target file exists")).

(** The worlds a Day leaves behind. *)
Section DayWorlds.
Context {S T : Type} {Src : documentSource S} {Sto : store T} {Cod : Codec}.

(** After the archive step skipped an existing file. *)
Definition skipped (date : Time) (t' : T) (s : World S T) : World S T :=
  {| src := src s; sto := t';
     trace := trace s ++
       [EvExists (fileNameOf date) (Ok true);
        EvLog LevelError "target file already exists"
          [("file", String_ (fileNameOf date))];
        EvLog LevelWarn "skipping documents write" []] |}.

(** The outcome of the Day after the skip: that of the deletion, when
    there is one. *)
Definition after_skip (a : Archiver) (date : Time) (t' : T) (s : World S T)
  : option error * World S T :=
  if skipDelete a then (None, skipped date t' s)
  else
    let '(r, x) := DeleteAllFromDate date (src s) in
    match r with
    | Ok n =>
        (None,
         {| src := x; sto := t';
            trace := trace (skipped date t' s) ++
              [EvDeleteAllFromDate date (Ok n);
               EvLog LevelInfo "documents deleted" [("total", Int_ n)]] |})
    | Err e =>
        (Some (Errorf "failed to delete documents" e),
         {| src := x; sto := t';
            trace := trace (skipped date t' s) ++
              [EvDeleteAllFromDate date (Err e)] |})
    end.

(** After a Day was written to a free path of the in-memory store and
    its [n] records were deleted, leaving the source as [x]. *)
Definition day_done (date : Time) (docs : list bytes) (n : Z) (x : S)
  (s : World S mockStorage) : World S mockStorage :=
  {| src := x;
     sto := {| files := <[fileNameOf date := gzip_file (List.map line docs)]>
                          (files (sto s));
               forceCloseError := None |};
     trace := trace s
       ++ [EvLog LevelInfo "archiving" [("date", Time_ date)]]
       ++ written_events date docs None
       ++ [EvDeleteAllFromDate date (Ok n);
           EvLog LevelInfo "documents deleted" [("total", Int_ n)];
           EvSelect date false] |}.

End DayWorlds.

(** ** Days of documents, the cursor of a streaming result, traces of a Day *)

(** The UTC day of an instant, as the midnight it starts at. *)
Definition dayOf (t : Time) : Time := Truncate t (Hour * 24).

(** A document created on the UTC day of [date]. *)
Definition sameDay (date : Time) (doc : Document) : bool :=
  match createdAt doc with
  | Some c => dayOf c =? dayOf date
  | None => false
  end.

(** The cursor behind [mongoStreamingResult]. *)
Module MongoCursor.

(** What one turn of the loop of [Iter] meets: a document that decodes
    and marshals to Extended JSON, one that [Decode] rejects, or one
    that [MarshalExtJSON] rejects. *)
Inductive item : Type :=
| Doc (json : bytes)
| DecodeError (e : error)
| MarshalError (e : error).

(** [*mongo.Cursor]: the documents still to come; the error [Next]
    stops with after them, which [Err()] reports from then on; the
    error of [Close]; whether it was closed. *)
Record Cursor : Type := mkCursor {
  pending : list item;
  nextErr : option error;
  closeErr : option error;
  closed : bool
}.

(** [mongoStreamingResult]. The cursor is nil when [Find] failed. *)
Record mongoStreamingResult : Type := mkResult {
  err : option error;
  cursor : option Cursor
}.

(** The [for sr.cursor.Next(ctx)] loop. [yield] is the body of the
    consumer's range loop, acting on the consumer's state; it answers
    whether to go on. The result: the error the loop stored in
    [sr.err], whether [Next] returned false, the documents not reached,
    and the consumer's state. *)
Fixpoint loop {A : Type} (yield : bytes -> A -> A * bool) (items : list item) (a : A)
  : option error * bool * list item * A :=
  match items with
  | [] => (None, true, [], a)
  | DecodeError e :: rest => (Some e, false, rest, a)
  | MarshalError e :: rest => (Some e, false, rest, a)
  | Doc json :: rest =>
      let '(a, more) := yield json a in
      if more then loop yield rest a else (None, false, rest, a)
  end.

(** [cursor.Err()] at the time the deferred function runs. *)
Definition Cursor_Err (c : Cursor) (exhausted : bool) : option error :=
  if exhausted then nextErr c else None.

(** [Iter(ctx)] applied to [yield]. [None] stands for the panic of a
    nil cursor. *)
Definition Iter {A : Type} (sr : mongoStreamingResult)
  (yield : bytes -> A -> A * bool) (a : A) : option (mongoStreamingResult * A) :=
  match err sr with
  | Some _ => Some (sr, a)
  | None =>
      match cursor sr with
      | None => None
      | Some c =>
          let '(e, exhausted, rest, a) := loop yield (pending c) a in
          let e := match Cursor_Err c exhausted with
                   | Some x => Join [e; Some x]
                   | None => e
                   end in
          let e := match closeErr c with
                   | Some x => Join [e; Some x]
                   | None => e
                   end in
          Some ({| err := e;
                   cursor := Some {| pending := rest; nextErr := nextErr c;
                                     closeErr := closeErr c; closed := true |} |}, a)
      end
  end.

(** The result [FindAllFromDate] builds from what [collection.Find]
    returned. *)
Definition found (r : result Cursor) : mongoStreamingResult :=
  match r with
  | Ok c => {| err := None; cursor := Some c |}
  | Err e => {| err := Some e; cursor := None |}
  end.

(** A cursor as the driver hands it out: nothing read yet, not closed. *)
Definition fresh_cursor (items : list item) (nextErr closeErr : option error) : Cursor :=
  {| pending := items; nextErr := nextErr; closeErr := closeErr; closed := false |}.

(** [collection.Find] with the day filter on the model of the server:
    a fresh cursor over the matching documents, or the server's error. *)
Definition Find (date : Time) (a : MongoDB) : result Cursor :=
  let t := Truncate date (Hour * 24) in
  match unavailable a with
  | Some e => Err e
  | None =>
      Ok (fresh_cursor
            (List.map (fun doc => Doc (extJSON doc))
               (List.filter (createdOn t) (collection a)))
            None None)
  end.

(** A consumer that keeps every document and goes on. *)
Definition collect (json : bytes) (seen : list bytes) : list bytes * bool :=
  (seen ++ [json], true).

(** A consumer that keeps every document and stops after the first one
    that [stop] picks. *)
Definition collect_until (stop : bytes -> bool) (json : bytes) (seen : list bytes)
  : list bytes * bool :=
  (seen ++ [json], negb (stop json)).

(** The documents at the head of [items], up to the first that fails. *)
Fixpoint docs_before_failure (items : list item) : list bytes :=
  match items with
  | Doc json :: rest => json :: docs_before_failure rest
  | _ => []
  end.

(** The first failure among [items], if any. *)
Fixpoint first_failure (items : list item) : option error :=
  match items with
  | [] => None
  | Doc _ :: rest => first_failure rest
  | DecodeError e :: _ => Some e
  | MarshalError e :: _ => Some e
  end.

(** [Err()]. *)
Definition Err (sr : mongoStreamingResult) : option error := err sr.

End MongoCursor.

(** How the events of a Day end, by what the archive step returned
    ([rA]) and what the Day returns ([r]). *)
Definition day_tail (a : Archiver) (date : Time) (rA r : option error)
  (D : list event) : Prop :=
  match rA with
  | Some e => r = Some (Errorf "failed to archive documents" e) /\ D = []
  | None =>
      if skipDelete a then r = None /\ D = []
      else
        (exists n, r = None /\
           D = [EvDeleteAllFromDate date (Ok n);
                EvLog LevelInfo "documents deleted" [("total", Int_ n)]]) \/
        (exists e, r = Some (Errorf "failed to delete documents" e) /\
           D = [EvDeleteAllFromDate date (Err e)])
  end.

Section Justified.
Context {S T : Type} {Src : documentSource S} {Sto : store T} {Cod : Codec}.

(** Every deletion recorded in [tr] comes right after an archive step
    of the same Day that returned nil. *)
Definition justified (a : Archiver) (tr : list event) : Prop :=
  forall pre d x post,
    tr = pre ++ EvDeleteAllFromDate d x :: post ->
    skipDelete a = false /\
    exists s1 s2 : World S T,
      archiveDocuments a d s1 = (None, s2) /\
      (exists pre1,
         trace s1 = pre1 ++ [EvLog LevelInfo "archiving" [("date", Time_ d)]]) /\
      trace s2 = pre.

End Justified.

(** The ["target reached"] record with its count. *)
Definition target_reached (n : Z) : event :=
  EvLog LevelInfo "target reached" [("datesArchived", Int_ n)].

(** A document of a Day before the cutoff [target]. *)
Definition due (target : Time) (doc : Document) : bool :=
  match createdAt doc with
  | Some c => dayOf c <? target
  | None => false
  end.

(** A document of a Day from [date] on and before [target]. *)
Definition between (date target : Time) (doc : Document) : bool :=
  match createdAt doc with
  | Some c => (date <=? c) && (dayOf c <? target)
  | None => false
  end.

(** Stores that fail: one that cannot be written to, one that cannot be
    reached. *)
Module Faults.

Definition denied : error := New "permission denied".
Definition unreachable : error := New "connection refused".

Definition readOnly : store unit :=
  {| Create := fun _ n => (Err denied, n);
     Exists := fun _ n => (Ok false, n) |}.

Definition offline : store unit :=
  {| Create := fun _ n => (Err unreachable, n);
     Exists := fun _ n => (Err unreachable, n) |}.

Definition noSpace : error := New "no space left on device".

(** A sink that takes no byte, and the store that hands it out. *)
Definition fullSink : WriteCloser unit :=
  {| Write := fun _ n => (Some noSpace, n); Close := fun n => (None, n) |}.

Definition full : store unit :=
  {| Create := fun _ n => (Ok fullSink, n);
     Exists := fun _ n => (Ok false, n) |}.

End Faults.

(** A sink whose writes and close never fail. *)
Definition reliable {T : Type} (w : WriteCloser T) : Prop :=
  (forall c t, (Write w c t).1 = None) /\ (forall t, (Close w t).1 = None).

(** An event other than a write that failed. *)
Definition no_failed_write (ev : event) : Prop :=
  match ev with
  | EvWrite _ (Some _) => False
  | _ => True
  end.

(** The event of the write that returned [r], when it is an error. *)
Definition failed_write (r : option error) (F : list event) : Prop :=
  match r with
  | None => F = []
  | Some e => exists p, F = [EvWrite p (Some e)]
  end.

(* ===================================================================== *)
(** * Facts about [time] *)
(* ===================================================================== *)

Section TimeFacts.
Import Calendar.

Lemma absDate_split d :
  absDate d =
  let '(y, yd) := yearDay d in
  let '(m, dd) := monthDay (isLeap y) yd in (y, m, dd).
Proof.
  unfold absDate, yearDay, monthDay. cbv zeta.
  repeat match goal with
         | |- context [if ?b then _ else _] => destruct b
         end; reflexivity.
Qed.

(** The year found is the one whose first day is [yd] days before [d]. *)
Lemma yearDay_spec d :
  let '(y, yd) := yearDay d in
  daysSinceEpoch y + yd = d /\ 0 <= yd < 365 + (if isLeap y then 1 else 0).
Proof.
  unfold yearDay, daysSinceEpoch, isLeap,
    daysPer400Years, daysPer100Years, daysPer4Years.
  cbv zeta. rewrite !Z.shiftr_div_pow2 by lia. change (2 ^ 2) with 4.
  repeat match goal with
         | |- context [(?a =? ?b)] => destruct (Z.eqb_spec a b)
         end; cbn [andb orb negb];
    Z.div_mod_to_equations; lia.
Qed.

Lemma all_from_spec n : forall z f,
  all_from n z f = true -> forall x, z <= x < z + Z.of_nat n -> f x = true.
Proof.
  induction n as [|n IH]; intros z f Hall x Hx.
  - lia.
  - cbn [all_from] in Hall. apply andb_true_iff in Hall as [Hz Hrest].
    destruct (Z.eq_dec x z) as [->|Hne]; [exact Hz|].
    apply (IH (z + 1) f Hrest). lia.
Qed.

Lemma monthDay_spec (leap : bool) (yd : Z) :
  0 <= yd < 365 + (if leap then 1 else 0) -> monthDay_ok leap yd = true.
Proof.
  intros Hyd. destruct leap.
  - apply (all_from_spec 366 0 (monthDay_ok true));
      [vm_compute; reflexivity | lia].
  - apply (all_from_spec 365 0 (monthDay_ok false));
      [vm_compute; reflexivity | lia].
Qed.

(** [absDate] is inverted by the day count of [time.Date]. *)
Lemma absDate_spec d :
  let '(y, m, dd) := absDate d in
  1 <= m <= 12 /\ 1 <= dd <= 31 /\
  daysSinceEpoch y + daysBefore (m - 1)
    + (if isLeap y && (m >=? 3) then 1 else 0) + (dd - 1) = d.
Proof.
  rewrite absDate_split. pose proof (yearDay_spec d) as Hy.
  destruct (yearDay d) as [y yd]. destruct Hy as [Hd Hyd].
  pose proof (monthDay_spec (isLeap y) yd Hyd) as Hm.
  unfold monthDay_ok in Hm. destruct (monthDay (isLeap y) yd) as [m dd].
  rewrite !andb_true_iff in Hm. destruct Hm as [[[[H1 H2] H3] H4] H5].
  apply Z.leb_le in H1, H2, H3, H4. apply Z.eqb_eq in H5. lia.
Qed.

Lemma clock_split c :
  0 <= c < nsPerDay ->
  (c / Hour * 3600 + (c mod Hour) / Minute * 60 + (c mod Minute) / Second)
    * Second + c mod Second = c.
Proof.
  unfold nsPerDay, secondsPerDay, Hour, Minute, Second. intros Hc.
  Z.div_mod_to_equations. lia.
Qed.

(** Adding [n] calendar days to a UTC instant adds [n] times 24 hours. *)
Lemma AddDate_days t n : AddDate t 0 0 n = t + n * nsPerDay.
Proof.
  unfold AddDate, Date. pose proof (absDate_spec (absDay t)) as Hspec.
  destruct (absDate (absDay t)) as [[y m] dd].
  destruct Hspec as (Hm & Hdd & Hd).
  unfold mkDate. cbv zeta. rewrite !Z.add_0_r.
  replace ((m - 1) / 12) with 0 by (Z.div_mod_to_equations; lia).
  replace ((m - 1) mod 12) with (m - 1) by (Z.div_mod_to_equations; lia).
  rewrite Z.add_0_r. replace (m - 1 + 1) with m by lia.
  assert (Hc : 0 <= t mod nsPerDay < nsPerDay)
    by (apply Z.mod_pos_bound; reflexivity).
  pose proof (clock_split _ Hc) as Hs.
  assert (Ht : t = nsPerDay * (t / nsPerDay) + t mod nsPerDay)
    by (apply Z.div_mod; discriminate).
  unfold absDay in Hd.
  destruct (isLeap y && (m >=? 3)); unfold nsPerDay in *; lia.
Qed.

Lemma AddDate_next t : AddDate t 0 0 1 = t + nsPerDay.
Proof. rewrite AddDate_days. lia. Qed.

(** Truncating to 24 hours gives the UTC midnight at or before [t]. *)
Lemma Truncate_day t : Truncate t (Hour * 24) = nsPerDay * (t / nsPerDay).
Proof.
  unfold Truncate.
  change (Hour * 24) with 86400000000000.
  change nsPerDay with 86400000000000.
  change (unixToInternal * Second) with (86400000000000 * 719162).
  change (86400000000000 <=? 0) with false. cbv iota.
  Z.div_mod_to_equations. lia.
Qed.

Lemma Truncate_day_le t : Truncate t (Hour * 24) <= t < Truncate t (Hour * 24) + nsPerDay.
Proof.
  rewrite Truncate_day. change nsPerDay with 86400000000000.
  Z.div_mod_to_equations. lia.
Qed.

Lemma Truncate_day_midnight t : Truncate t (Hour * 24) mod nsPerDay = 0.
Proof.
  rewrite Truncate_day, Z.mul_comm. apply Z.mod_mul. discriminate.
Qed.

(** A midnight at or before [t] is at or before the truncation of [t]. *)
Lemma Truncate_day_mono_midnight t c :
  c mod nsPerDay = 0 -> c <= t -> c <= Truncate t (Hour * 24).
Proof.
  rewrite Truncate_day. change nsPerDay with 86400000000000.
  intros Hc Hle. Z.div_mod_to_equations. lia.
Qed.

End TimeFacts.
(* ===================================================================== *)
(** * Facts about [errors] *)
(* ===================================================================== *)

Section ErrorFacts.

Lemma Is_refl e : Is e e.
Proof. destruct e; cbn; left; reflexivity. Qed.

Lemma Is_Errorf msg e target : Is e target -> Is (Errorf msg e) target.
Proof. intros HIs. cbn. right. exact HIs. Qed.

Lemma Join_pair err x :
  Join [err; Some x] =
  Some (joinError (match err with Some e => [e; x] | None => [x] end)).
Proof. destruct err; reflexivity. Qed.

(** What was being returned stays in the joined error. *)
Lemma Is_Join_left e x r target :
  Join [Some e; Some x] = Some r -> Is e target -> Is r target.
Proof.
  rewrite Join_pair. intros [= <-] HIs. cbn. right. left. exact HIs.
Qed.

(** The error joined in is in the joined error. *)
Lemma Is_Join_right err x r target :
  Join [err; Some x] = Some r -> Is x target -> Is r target.
Proof.
  rewrite Join_pair. intros [= <-] HIs.
  destruct err; cbn; right; [right|]; left; exact HIs.
Qed.

Lemma Join_pair_is_Some err x : exists r, Join [err; Some x] = Some r.
Proof. rewrite Join_pair. eauto. Qed.

End ErrorFacts.

(* ===================================================================== *)
(** * The sink: writes and closes through the gzip writer *)
(* ===================================================================== *)

Section SinkFacts.
Context {S T : Type} `{documentSource S} `{store T} `{Codec}.

Lemma wrote_nothing (w : WriteCloser T) (s : World S T) : wrote w None s s.
Proof.
  split; [reflexivity | auto |].
  exists []. rewrite app_nil_r.
  repeat split; [constructor | intros ? ? [] | discriminate].
Qed.

(** Writes that all succeeded, followed by more writes. *)
Lemma wrote_then (w : WriteCloser T) r (s1 s2 s3 : World S T) :
  wrote w None s1 s2 -> wrote w r s2 s3 -> wrote w r s1 s3.
Proof.
  intros [Hsrc1 Hsto1 (evs1 & Ht1 & Hw1 & Hf1 & _)]
    [Hsrc2 Hsto2 (evs2 & Ht2 & Hw2 & Hf2 & Hg2)].
  split.
  - congruence.
  - intros P HP HPs. apply Hsto2; [exact HP|]. apply Hsto1; assumption.
  - exists (evs1 ++ evs2). rewrite Ht2, Ht1, app_assoc.
    repeat split.
    + apply Forall_app; split; assumption.
    + intros ev x Hin Hfail. apply in_app_or in Hin as [Hin|Hin].
      * specialize (Hf1 ev x Hin Hfail). discriminate.
      * eapply Hf2; eassumption.
    + intros x Hr. destruct (Hg2 x Hr) as (ev & Hin & Hfail).
      exists ev. split; [apply in_or_app; right; exact Hin | exact Hfail].
Qed.

Lemma sink_Write w c (s : World S T) :
  let '(r, s') := Write (sink w) c s in wrote w r s s'.
Proof.
  cbn. destruct (Write w c (sto s)) as [r t] eqn:Hw. split; cbn.
  - reflexivity.
  - intros P HP HPs. specialize (HP c (sto s) HPs). rewrite Hw in HP. exact HP.
  - exists [EvWrite c r]. repeat split.
    + repeat constructor.
    + intros ev x [<-|[]] Hfail. destruct r; cbn in Hfail; congruence.
    + intros x ->. exists (EvWrite c (Some x)). split; [left|]; reflexivity.
Qed.

Lemma writeChunks_sink w chunks : forall s : World S T,
  let '(r, s') := writeChunks (sink w) chunks s in wrote w r s s'.
Proof.
  induction chunks as [|c rest IH]; intros s.
  - cbn. apply wrote_nothing.
  - cbn [writeChunks]. pose proof (sink_Write w c s) as Hc.
    destruct (Write (sink w) c s) as [r s1]. destruct r as [e|].
    + exact Hc.
    + specialize (IH s1). destruct (writeChunks (sink w) rest s1) as [r s2].
      eapply wrote_then; eassumption.
Qed.

Lemma NewWriterLevel_default (w : WriteCloser T) :
  exists gw : Writer (World S T),
    NewWriterLevel (sink w) DefaultCompression = Ok gw /\ fresh w gw.
Proof. eexists. split; [reflexivity|]. repeat split. Qed.

(** After a write through the gzip writer: either it succeeded and the
    writer is still fresh, or it failed and the writer holds the error. *)
Lemma Writer_Write_sink w gw p (s : World S T) :
  fresh w gw ->
  let '(r, gw', s') := Writer_Write gw p s in
  wrote w r s s' /\ gw_w gw' = sink w /\ gw_err gw' = r /\ gw_closed gw' = false.
Proof.
  intros (Hw & Herr & Hcl). unfold Writer_Write. rewrite Herr.
  destruct (enc_write (gw_z gw) p) as [z chunks]. rewrite Hw.
  pose proof (writeChunks_sink w chunks s) as Hc.
  destruct (writeChunks (sink w) chunks s) as [r s']. cbn. auto.
Qed.

Lemma writeDocuments_sink w docs : forall i gw (s : World S T),
  fresh w gw ->
  let '(r, i', gw', s') := writeDocuments docs i gw s in
  wrote w r s s' /\ gw_w gw' = sink w /\ gw_err gw' = r /\ gw_closed gw' = false.
Proof.
  induction docs as [|doc rest IH]; intros i gw s Hfresh.
  - cbn. destruct Hfresh as (Hw & Herr & Hcl).
    split; [apply wrote_nothing | auto].
  - cbn [writeDocuments]. unfold io_Copy.
    pose proof (Writer_Write_sink w gw (doc ++ [newline]) s Hfresh) as Hstep.
    destruct (Writer_Write gw (doc ++ [newline]) s) as [[r gw1] s1].
    destruct Hstep as (Hwrote & Hw1 & Herr1 & Hcl1). destruct r as [e|].
    + auto.
    + specialize (IH (int_incr i) gw1 s1 (conj Hw1 (conj Herr1 Hcl1))).
      destruct (writeDocuments rest (int_incr i) gw1 s1) as [[[r i'] gw2] s2].
      destruct IH as (Hwrote2 & IH). split; [|exact IH].
      eapply wrote_then; eassumption.
Qed.


(** The stream of one Day, between the creation of the gzip writer and
    the deferred closes. *)
Lemma archiveDocuments_body_sink w date gw (s : World S T) :
  fresh w gw ->
  let '(r, gw', s') := archiveDocuments_body date gw s in
  src s' = (FindAllFromDate date (src s)).2 /\
  (forall P, kept_by_writes w P -> P (sto s) -> P (sto s')) /\
  (exists evs,
     trace s' = trace s ++ evs /\ Forall stream_event evs /\
     (forall ev x, In ev evs -> failure ev = Some x -> r = Some x) /\
     (forall x, r = Some x -> exists ev, In ev evs /\ failure ev = Some x)) /\
  gw_w gw' = sink w /\ gw_closed gw' = false /\
  (forall e, gw_err gw' = Some e -> r = Some e).
Proof.
  intros Hfresh. unfold archiveDocuments_body, source_FindAllFromDate.
  destruct (FindAllFromDate date (src s)) as [res src1]. cbn [snd].
  set (s0 := emit (EvFindAllFromDate date) _).
  pose proof (writeDocuments_sink w (Iter res) 0 gw s0 Hfresh) as Hdocs.
  destruct (writeDocuments (Iter res) 0 gw s0) as [[[r i] gw1] s1].
  destruct Hdocs as ([Hsrc Hsto (evs & Ht & Hw & Hf & Hg)] & Hw1 & Herr1 & Hcl1).
  assert (Hstream : Forall stream_event evs).
  { eapply Forall_impl; [exact Hw|]. intros ev Hev. destruct ev; cbn in *; tauto. }
  destruct r as [e|].
  - repeat split; try assumption.
    + exists (EvFindAllFromDate date :: evs). rewrite Ht. cbn.
      rewrite <- app_assoc. repeat split.
      * constructor; [exact I | exact Hstream].
      * intros ev x [<-|Hin] Hfail; [discriminate | eauto].
      * intros x Hx. destruct (Hg x Hx) as (ev & Hin & Hfail).
        exists ev. split; [right; exact Hin | exact Hfail].
    + intros e' He'. congruence.
  - destruct (sr_Err res) as [e|] eqn:Hres; cbn.
    + repeat split; try assumption.
      * exists (EvFindAllFromDate date :: evs ++ [EvErr (Some e)]). rewrite Ht. cbn.
        rewrite <- !app_assoc. repeat split.
        -- constructor; [exact I|]. apply Forall_app. split; [exact Hstream|].
           repeat constructor.
        -- intros ev x [<-|Hin] Hfail; [discriminate|].
           apply in_app_or in Hin as [Hin|[<-|[]]].
           ++ specialize (Hf ev x Hin Hfail). discriminate.
           ++ cbn in Hfail. congruence.
        -- intros x [= <-]. exists (EvErr (Some e)).
           split; [right; apply in_or_app; right; left|]; reflexivity.
      * intros e' He'. congruence.
    + repeat split; try assumption.
      * exists (EvFindAllFromDate date :: evs ++
                  [EvErr None; EvLog LevelInfo "documents written" [("total", Int_ i)]]).
        rewrite Ht. cbn. rewrite <- !app_assoc. repeat split.
        -- constructor; [exact I|]. apply Forall_app. split; [exact Hstream|].
           repeat constructor.
        -- intros ev x [<-|Hin] Hfail; [discriminate|].
           apply in_app_or in Hin as [Hin|[<-|[<-|[]]]]; try discriminate.
           specialize (Hf ev x Hin Hfail). discriminate.
        -- discriminate.
      * intros e' He'. congruence.
Qed.

(** The deferred close of the gzip writer. *)
Lemma gzip_Close_sink w gw (s : World S T) :
  gw_w gw = sink w -> gw_closed gw = false ->
  let '(c, _, s') := gzip_Close gw s in
  src s' = src s /\
  (forall P, kept_by_writes w P -> P (sto s) -> P (sto s')) /\
  (forall e, gw_err gw = Some e -> c = Some e) /\
  exists evs,
    trace s' = trace s ++ evs ++ [EvGzipClose c] /\ Forall is_write evs /\
    (forall ev x, In ev evs -> failure ev = Some x -> c = Some x).
Proof.
  intros Hw Hcl. unfold gzip_Close, Writer_Close. rewrite Hcl, Hw.
  destruct (gw_err gw) as [e|].
  - cbn. split; [reflexivity|]. split; [auto|]. split; [auto|].
    exists []. repeat split; [constructor | intros ? ? []].
  - pose proof (writeChunks_sink w (enc_close (gw_z gw)) s) as Hc.
    destruct (writeChunks (sink w) (enc_close (gw_z gw)) s) as [c s1].
    destruct Hc as [Hsrc Hsto (evs & Ht & Hwr & Hf & _)]. cbn.
    split; [exact Hsrc|]. split; [exact Hsto|]. split; [discriminate|].
    exists evs. rewrite Ht, <- app_assoc. auto.
Qed.

End SinkFacts.

(* ===================================================================== *)
(** * The archive step of one Day *)
(* ===================================================================== *)

Section ArchiveFacts.
Context {S T : Type} `{documentSource S} `{store T} `{Codec}.

(** What a deferred close returns: the error on its way out joined with
    the wrapped close error. *)
Lemma deferred_result err msg cErr :
  let r := match cErr with
           | Some c => Join [err; Some (Errorf msg c)]
           | None => err
           end in
  (forall e x, err = Some e -> Is e x -> exists r', r = Some r' /\ Is r' x) /\
  (forall x, cErr = Some x -> exists r', r = Some r' /\ Is r' x) /\
  (r = None <-> err = None /\ cErr = None).
Proof.
  destruct cErr as [c|]; cbn zeta.
  - rewrite Join_pair. repeat split.
    + intros e x -> HIs. eexists. split; [reflexivity|].
      cbn. right. left. exact HIs.
    + intros x [= <-]. eexists. split; [reflexivity|].
      destruct err; cbn; right; [right|]; left; right; apply Is_refl.
    + discriminate.
    + discriminate.
    + intros [_ [=]].
  - repeat split.
    + intros e x -> HIs. eauto.
    + discriminate.
    + assumption.
    + intros [-> _]. reflexivity.
Qed.

(** Once [Create] has handed out a sink: the stream is written, the
    gzip writer is closed, then the sink; every failure reported along
    the way is in the error returned, and nothing else touches the
    store. *)
Lemma archiveDocuments_created a date (s : World S T) t1 w t2 :
  Exists (fileNameOf date) (sto s) = (Ok false, t1) ->
  Create (fileNameOf date) t1 = (Ok w, t2) ->
  let '(r, s') := archiveDocuments a date s in
  src s' = (FindAllFromDate date (src s)).2 /\
  (forall P, kept_by_writes w P -> (forall t, P t -> P (Close w t).2) ->
             P t2 -> P (sto s')) /\
  exists evs c1 c2,
    trace s' =
      trace s ++
      [EvExists (fileNameOf date) (Ok false);
       EvLog LevelInfo "writing to file" [("fileName", String_ (fileNameOf date))];
       EvCreate (fileNameOf date) None] ++ evs ++ closes c1 c2 /\
    Forall stream_event evs /\
    (forall ev x, In ev (evs ++ closes c1 c2) -> failure ev = Some x ->
                  exists r', r = Some r' /\ Is r' x) /\
    (r = None <-> Forall (fun ev => failure ev = None) (evs ++ closes c1 c2)).
Proof.
  intros HE HC. unfold archiveDocuments, store_Exists. rewrite HE.
  cbv beta iota zeta. unfold store_Create, slog. cbn [sto src trace emit].
  rewrite HC. cbv beta iota zeta.
  destruct (NewWriterLevel_default (S:=S) w) as (gw & -> & Hfresh).
  set (s0 := emit (EvCreate _ None) _).
  pose proof (archiveDocuments_body_sink w date gw s0 Hfresh) as Hbody.
  destruct (archiveDocuments_body date gw s0) as [[r0 gw1] s1].
  destruct Hbody as (Hsrc1 & Hsto1 & (evs1 & Ht1 & Hev1 & Hf1 & Hg1) & Hw1 & Hcl1 & Herr1).
  unfold defer_gzip_Close.
  pose proof (gzip_Close_sink w gw1 s1 Hw1 Hcl1) as Hgz.
  destruct (gzip_Close gw1 s1) as [[c1 gw2] s2].
  destruct Hgz as (Hsrc2 & Hsto2 & Herr2 & (evs2 & Ht2 & Hev2 & Hf2)).
  pose proof (deferred_result r0 "failed to close gzip writer" c1) as Hd1.
  cbn zeta in Hd1.
  set (r1 := match c1 with
             | Some c => Join [r0; Some (Errorf "failed to close gzip writer" c)]
             | None => r0
             end) in *.
  replace (match c1 with
           | Some c => (Join [r0; Some (Errorf "failed to close gzip writer" c)], s2)
           | None => (r0, s2)
           end) with (r1, s2) by (subst r1; destruct c1; reflexivity).
  unfold defer_file_Close. cbn [Close sink].
  destruct (Close w (sto s2)) as [c2 t3] eqn:Hclose.
  pose proof (deferred_result r1 "failed to close file" c2) as Hd2.
  cbn zeta in Hd2.
  set (r2 := match c2 with
             | Some c => Join [r1; Some (Errorf "failed to close file" c)]
             | None => r1
             end) in *.
  replace (match c2 with
           | Some c => (Join [r1; Some (Errorf "failed to close file" c)], _)
           | None => (r1, _)
           end) with (r2, emit (EvFileClose c2)
                            {| src := src s2; sto := t3; trace := trace s2 |})
    by (subst r2; destruct c2; reflexivity).
  destruct Hd1 as (Hd1l & Hd1r & Hd1n). destruct Hd2 as (Hd2l & Hd2r & Hd2n).
  cbn [src sto trace emit].
  split; [|split].
  - rewrite Hsrc2, Hsrc1. reflexivity.
  - intros P HPw HPc HP. specialize (HPc (sto s2)). rewrite Hclose in HPc.
    apply HPc, Hsto2, Hsto1; assumption.
  - exists (evs1 ++ evs2), c1, c2. split; [|split; [|split]].
    + rewrite Ht2, Ht1. subst s0. cbn. unfold closes.
      rewrite <- !app_assoc. reflexivity.
    + apply Forall_app. split; [exact Hev1|].
      eapply Forall_impl; [exact Hev2|].
      intros ev Hev. destruct ev; cbn in *; tauto.
    + intros ev x Hin Hfail.
      assert (Hfrom1 : forall y, r1 = Some y -> Is y x ->
                                 exists r', r2 = Some r' /\ Is r' x)
        by (intros y Hy; apply (Hd2l y x Hy)).
      assert (Hfromc1 : c1 = Some x -> exists r', r2 = Some r' /\ Is r' x).
      { intros Hc1. destruct (Hd1r x Hc1) as (y & Hy & HIs). eauto. }
      rewrite <- app_assoc in Hin.
      apply in_app_or in Hin as [Hin|Hin]; [|apply in_app_or in Hin as [Hin|Hin]].
      * specialize (Hf1 ev x Hin Hfail).
        destruct (Hd1l x x Hf1 (Is_refl x)) as (y & Hy & HIs). eauto.
      * apply Hfromc1. eauto.
      * destruct Hin as [<-|[<-|[]]].
        -- apply Hfromc1. destruct c1; cbn in Hfail; congruence.
        -- apply Hd2r. destruct c2; cbn in Hfail; congruence.
    + rewrite Hd2n, Hd1n. split.
      * intros [[Hr0 Hc1] Hc2]. subst c1 c2.
        apply Forall_app. split; [apply Forall_app; split|].
        -- apply Forall_forall. intros ev Hin.
           destruct (failure ev) as [x|] eqn:Hfail; [|reflexivity].
           apply list_elem_of_In in Hin.
           specialize (Hf1 ev x Hin Hfail). congruence.
        -- apply Forall_forall. intros ev Hin.
           destruct (failure ev) as [x|] eqn:Hfail; [|reflexivity].
           apply list_elem_of_In in Hin.
           specialize (Hf2 ev x Hin Hfail). congruence.
        -- repeat constructor.
      * intros Hall. apply Forall_app in Hall as [Hall Hcl].
        apply Forall_app in Hall as [Hall1 Hall2].
        inversion Hcl as [|? ? Hc1 Hcl']; subst.
        inversion Hcl' as [|? ? Hc2 _]; subst.
        assert (c1 = None) by (destruct c1; cbn in Hc1; congruence).
        assert (c2 = None) by (destruct c2; cbn in Hc2; congruence).
        repeat split; try assumption.
        destruct r0 as [x|]; [|reflexivity].
        destruct (Hg1 x eq_refl) as (ev & Hin & Hfail).
        rewrite Forall_forall in Hall1.
        apply list_elem_of_In in Hin. specialize (Hall1 ev Hin). congruence.
Qed.

End ArchiveFacts.

Section StepFacts.
Context {S T : Type} `{documentSource S} `{store T} `{Codec}.

Lemma stream_event_archive_event e : stream_event e -> archive_event e.
Proof. destruct e; cbn; try tauto. intros ->. discriminate. Qed.

Lemma archive_event_no_archiving e : archive_event e -> archiving_date e = None.
Proof.
  destruct e as [| | | | | | | | | |l msg attrs]; cbn; try tauto.
  intros Hmsg. destruct l; try reflexivity.
  destruct attrs as [|[k [| |d]] [|]]; try reflexivity.
  destruct (decide (msg = "archiving")); [contradiction | reflexivity].
Qed.

Lemma archive_event_no_deletion e : archive_event e -> deletion e = None.
Proof. destruct e; cbn; tauto. Qed.

(** Every event of the archive step is one of its own, and the source
    is touched by its query at most. *)
Lemma archiveDocuments_events a date (s : World S T) :
  let '(r, s') := archiveDocuments a date s in
  (src s' = src s \/ src s' = (FindAllFromDate date (src s)).2) /\
  exists evs, trace s' = trace s ++ evs /\ Forall archive_event evs.
Proof.
  destruct (Exists (fileNameOf date) (sto s)) as [[[|]|e] t1] eqn:HE.
  - unfold archiveDocuments, store_Exists. rewrite HE.
    cbv beta iota zeta. unfold slog. destruct (ignoreFileExistsError a);
      cbn [src sto trace emit]; (split; [left; reflexivity|]);
      eexists; rewrite <- !app_assoc; (split; [reflexivity|]);
      repeat constructor; discriminate.
  - destruct (Create (fileNameOf date) t1) as [[w|e] t2] eqn:HC.
    + pose proof (archiveDocuments_created a date s t1 w t2 HE HC) as Hc.
      destruct (archiveDocuments a date s) as [r s'].
      destruct Hc as (Hsrc & _ & evs & c1 & c2 & Ht & Hev & _).
      split; [right; exact Hsrc|]. eexists. split; [exact Ht|].
      repeat (apply Forall_cons; split; [cbn; try exact I; discriminate|]).
      apply Forall_app. split.
      * eapply Forall_impl; [exact Hev|]. apply stream_event_archive_event.
      * repeat constructor.
    + unfold archiveDocuments, store_Exists. rewrite HE.
      cbv beta iota zeta. unfold store_Create, slog. cbn [src sto trace emit].
      rewrite HC. cbn [src sto trace emit]. split; [left; reflexivity|].
      eexists. rewrite <- !app_assoc. split; [reflexivity|].
      repeat constructor; discriminate.
  - unfold archiveDocuments, store_Exists. rewrite HE.
    cbn [src sto trace emit]. split; [left; reflexivity|].
    eexists. split; [reflexivity|]. repeat constructor.
Qed.

(** The events of one Day never announce another Day; with deletion
    skipped there is no deletion among them and the source is touched
    by the query at most. *)
Lemma archiveDocumentsAndDelete_events a date (s : World S T) :
  let '(r, s') := archiveDocumentsAndDelete a date s in
  exists evs,
    trace s' = trace s ++ evs /\
    Forall (fun e => archiving_date e = None) evs /\
    (skipDelete a = true ->
     Forall (fun e => deletion e = None) evs /\
     (src s' = src s \/ src s' = (FindAllFromDate date (src s)).2)).
Proof.
  unfold archiveDocumentsAndDelete.
  pose proof (archiveDocuments_events a date s) as Ha.
  destruct (archiveDocuments a date s) as [r s1].
  destruct Ha as (Hsrc & evs & Ht & Hev).
  assert (Hna : Forall (fun e => archiving_date e = None) evs)
    by (eapply Forall_impl; [exact Hev | apply archive_event_no_archiving]).
  assert (Hnd : Forall (fun e => deletion e = None) evs)
    by (eapply Forall_impl; [exact Hev | apply archive_event_no_deletion]).
  destruct r as [e|]; [exists evs; auto|].
  destruct (skipDelete a); cbn [negb]; [exists evs; auto|].
  unfold source_DeleteAllFromDate.
  destruct (DeleteAllFromDate date (src s1)) as [[n|e] x]; unfold slog;
    cbn [src sto trace emit]; eexists; rewrite Ht, <- !app_assoc;
    (split; [reflexivity|]); (split; [|discriminate]);
    (apply Forall_app; split; [exact Hna | repeat constructor]).
Qed.

End StepFacts.

(* ===================================================================== *)
(** * The day loop *)
(* ===================================================================== *)

Section DayFacts.

Lemma dayCount_spec target start (k : nat) :
  (k < dayCount target start)%nat <-> nthDay start k < target.
Proof.
  unfold dayCount, nthDay. change nsPerDay with 86400000000000.
  split; intros Hk; Z.div_mod_to_equations; lia.
Qed.

Lemma dayCount_zero target start : dayCount target start = 0%nat <-> target <= start.
Proof.
  pose proof (dayCount_spec target start 0) as H0. unfold nthDay in H0.
  rewrite Z.mul_0_l, Z.add_0_r in H0. split; intros Hz.
  - destruct (Z_le_gt_dec target start); [assumption|].
    assert (0 < dayCount target start)%nat by (apply H0; lia). lia.
  - destruct (dayCount target start); [reflexivity|].
    assert (start < target) by (apply H0; lia). lia.
Qed.

Lemma dayCount_next target date :
  Before date target = true ->
  dayCount target date = Datatypes.S (dayCount target (date + nsPerDay)).
Proof.
  unfold Before. intros Hlt. apply Z.ltb_lt in Hlt.
  unfold dayCount. change nsPerDay with 86400000000000.
  rewrite <- Z2Nat.inj_succ by (Z.div_mod_to_equations; lia).
  f_equal. Z.div_mod_to_equations. lia.
Qed.

Lemma nthDay_next date k : nthDay date (Datatypes.S k) = nthDay (date + nsPerDay) k.
Proof. unfold nthDay. lia. Qed.

(** With enough fuel the loop header visits the Days
    [start], [start + 1 day], ... that are before the target. *)
Lemma daysUntil_nthDay fuel : forall target date,
  (dayCount target date < fuel)%nat ->
  daysUntil fuel target date = List.map (nthDay date) (seq 0 (dayCount target date)).
Proof.
  induction fuel as [|fuel IH]; intros target date Hfuel; [lia|].
  cbn [daysUntil]. destruct (Before date target) eqn:Hb.
  - rewrite (dayCount_next _ _ Hb) in *. cbn [seq List.map].
    rewrite AddDate_next, IH by lia. f_equal.
    + unfold nthDay. lia.
    + rewrite <- seq_shift, List.map_map. apply List.map_ext.
      intros k. symmetry. apply nthDay_next.
  - unfold Before in Hb. apply Z.ltb_ge in Hb.
    apply dayCount_zero in Hb. rewrite Hb. reflexivity.
Qed.

Lemma Run_fuel_enough earliest target :
  (dayCount target (Truncate earliest (Hour * 24)%Z) < Run_fuel earliest target)%nat.
Proof.
  unfold Run_fuel, dayCount. change nsPerDay with 86400000000000.
  Z.div_mod_to_equations. lia.
Qed.

End DayFacts.

Section LoopFacts.
Context {S T : Type} `{documentSource S} `{store T} `{Codec}.

(** The loop returns as soon as the fuel exceeds the Days to visit. *)
Lemma Run_loop_returns fuel : forall a ctx target date total (s : World S T),
  (dayCount target date < fuel)%nat ->
  exists r s', Run_loop fuel a ctx target date total s = Some (r, s').
Proof.
  induction fuel as [|fuel IH]; intros a ctx target date total s Hfuel; [lia|].
  cbn [Run_loop]. destruct (Before date target) eqn:Hb; [|eauto].
  destruct (archiveDocumentsAndDelete a date _) as [[e|] s1]; [eauto|].
  destruct (Done ctx date); [eauto|].
  apply IH. rewrite AddDate_next. rewrite (dayCount_next _ _ Hb) in Hfuel. lia.
Qed.

(** More fuel does not change what the loop returns. *)
Lemma Run_loop_fuel fuel : forall fuel' a ctx target date total (s : World S T) res,
  Run_loop fuel a ctx target date total s = Some res ->
  (fuel <= fuel')%nat ->
  Run_loop fuel' a ctx target date total s = Some res.
Proof.
  induction fuel as [|fuel IH]; intros fuel' a ctx target date total s res Hrun Hle;
    [discriminate|].
  destruct fuel' as [|fuel']; [lia|]. cbn [Run_loop] in *.
  destruct (Before date target); [|exact Hrun].
  destruct (archiveDocumentsAndDelete a date _) as [[e|] s1]; [exact Hrun|].
  destruct (Done ctx date); [exact Hrun|].
  eapply IH; [exact Hrun | lia].
Qed.

(** The Days the loop enters are, in order, a prefix of the Days of its
    header, and all of them when the run succeeds. *)
Lemma Run_loop_days fuel : forall a ctx target date total (s : World S T) r s',
  Run_loop fuel a ctx target date total s = Some (r, s') ->
  exists l,
    days_archived (trace s') = days_archived (trace s) ++ l /\
    l `prefix_of` daysUntil fuel target date /\
    (r = None -> l = daysUntil fuel target date).
Proof.
  induction fuel as [|fuel IH]; intros a ctx target date total s r s' Hrun;
    [discriminate|].
  cbn [Run_loop daysUntil] in *. destruct (Before date target).
  - unfold slog in Hrun.
    pose proof (archiveDocumentsAndDelete_events a date
                  (emit (EvLog LevelInfo "archiving" [("date", Time_ date)]) s)) as Hstep.
    destruct (archiveDocumentsAndDelete a date _) as [err s1].
    destruct Hstep as (evs & Ht & Hna & _).
    assert (Hs1 : days_archived (trace s1) = days_archived (trace s) ++ [date]).
    { rewrite Ht. cbn [trace emit]. unfold days_archived.
      rewrite !omap_app. cbn.
      replace (omap archiving_date evs) with (@nil Time); [apply app_nil_r|].
      symmetry. clear -Hna. induction Hna as [|e evs He _ IHe]; [reflexivity|].
      cbn. rewrite He. exact IHe. }
    destruct err as [e|].
    + injection Hrun as <- <-. exists [date]. split; [exact Hs1|].
      split; [|discriminate]. exists (daysUntil fuel target (AddDate date 0 0 1)).
      reflexivity.
    + destruct (Done ctx date).
      * injection Hrun as <- <-. exists [date]. cbn [trace emit].
        unfold days_archived in *. rewrite omap_app, Hs1. cbn.
        rewrite app_nil_r. split; [reflexivity|]. split; [|discriminate].
        exists (daysUntil fuel target (AddDate date 0 0 1)). reflexivity.
      * apply IH in Hrun as (l & Hl & Hpre & Hall). exists (date :: l).
        cbn [trace emit] in Hl. unfold days_archived in *.
        rewrite omap_app, Hs1 in Hl. cbn in Hl. rewrite app_nil_r in Hl.
        rewrite Hl, <- app_assoc. split; [reflexivity|]. split.
        -- apply prefix_cons. exact Hpre.
        -- intros Hr. rewrite (Hall Hr). reflexivity.
  - injection Hrun as <- <-. exists []. unfold slog. cbn [trace emit].
    unfold days_archived. rewrite omap_app. cbn. rewrite !app_nil_r.
    split; [reflexivity|]. split; [apply prefix_nil | reflexivity].
Qed.

(** With deletion skipped the loop asks for no deletion, and a source
    whose queries leave it as it is stays as it is. *)
Lemma Run_loop_skipDelete fuel : forall a ctx target date total (s : World S T) r s',
  skipDelete a = true ->
  Run_loop fuel a ctx target date total s = Some (r, s') ->
  deletions (trace s') = deletions (trace s) /\
  ((forall d x, (FindAllFromDate d x).2 = x) -> src s' = src s).
Proof.
  induction fuel as [|fuel IH]; intros a ctx target date total s r s' Hskip Hrun;
    [discriminate|].
  cbn [Run_loop] in Hrun. destruct (Before date target).
  - unfold slog in Hrun.
    pose proof (archiveDocumentsAndDelete_events a date
                  (emit (EvLog LevelInfo "archiving" [("date", Time_ date)]) s)) as Hstep.
    destruct (archiveDocumentsAndDelete a date _) as [err s1].
    destruct Hstep as (evs & Ht & _ & Hskipped).
    destruct (Hskipped Hskip) as (Hnd & Hsrc). cbn [src emit] in Hsrc.
    assert (Hd1 : deletions (trace s1) = deletions (trace s)).
    { rewrite Ht. cbn [trace emit]. unfold deletions. rewrite !omap_app. cbn.
      replace (omap deletion evs) with (@nil (Time * result Z));
        [rewrite !app_nil_r; reflexivity|].
      symmetry. clear -Hnd. induction Hnd as [|e evs He _ IHe]; [reflexivity|].
      cbn. rewrite He. exact IHe. }
    assert (Hs1 : (forall d x, (FindAllFromDate d x).2 = x) -> src s1 = src s).
    { intros Hro. destruct Hsrc as [->| ->]; [reflexivity | apply Hro]. }
    destruct err as [e|]; [injection Hrun as <- <-; auto|].
    destruct (Done ctx date).
    + injection Hrun as <- <-. cbn [trace src emit].
      unfold deletions in *. rewrite omap_app, Hd1. cbn. rewrite app_nil_r. auto.
    + apply (IH _ _ _ _ _ _ _ _ Hskip) in Hrun as [Hd Hs]. cbn [trace src emit] in *.
      unfold deletions in *. rewrite omap_app, Hd1 in Hd. cbn in Hd.
      rewrite app_nil_r in Hd. split; [exact Hd|].
      intros Hro. rewrite (Hs Hro). auto.
  - injection Hrun as <- <-. unfold slog. cbn [trace src emit].
    unfold deletions. rewrite omap_app. cbn. rewrite app_nil_r. auto.
Qed.

End LoopFacts.

(* ===================================================================== *)
(** * The in-memory store *)
(* ===================================================================== *)

Section MockStoreFacts.
Context {S : Type} `{documentSource S} `{Codec}.

Lemma alter_present (f : bytes -> bytes) (m : gmap string bytes) p buf :
  m !! p = Some buf -> alter f p m = <[p := f buf]> m.
Proof.
  intros Hp. rewrite <- (insert_id m p buf Hp) at 1. apply alter_insert_eq.
Qed.

Lemma appended_nothing p buf (s : World S mockStorage) :
  files (sto s) !! p = Some buf -> appended p buf [] s = s.
Proof.
  intros Hp. unfold appended. cbn. rewrite !app_nil_r, (insert_id _ _ _ Hp).
  destruct s as [x [fs fce] tr]. reflexivity.
Qed.

Lemma appended_more p buf c chunks (s : World S mockStorage) :
  appended p (buf ++ c) chunks (appended p buf [c] s) = appended p buf (c :: chunks) s.
Proof.
  unfold appended. cbn. rewrite app_nil_r, insert_insert_eq, <- !app_assoc.
  reflexivity.
Qed.

Lemma appended_app p buf chunks1 chunks2 (s : World S mockStorage) :
  appended p (buf ++ concat chunks1) chunks2 (appended p buf chunks1 s)
  = appended p buf (chunks1 ++ chunks2) s.
Proof.
  unfold appended. cbn.
  rewrite insert_insert_eq, concat_app, List.map_app, <- !app_assoc. reflexivity.
Qed.

Lemma appended_lookup p buf chunks (s : World S mockStorage) :
  files (sto (appended p buf chunks s)) !! p = Some (buf ++ concat chunks).
Proof. cbn. apply lookup_insert_eq. Qed.

(** Writes on a sink of the in-memory store never fail and append. *)
Lemma writeChunks_mock p err chunks : forall buf (s : World S mockStorage),
  files (sto s) !! p = Some buf ->
  writeChunks (sink (errCloser p err)) chunks s = (None, appended p buf chunks s).
Proof.
  induction chunks as [|c rest IH]; intros buf s Hp.
  - cbn. rewrite (appended_nothing _ _ _ Hp). reflexivity.
  - cbn [writeChunks]. cbn [Write sink errCloser]. cbv beta iota zeta.
    rewrite (alter_present _ _ _ _ Hp).
    assert (Hone : emit (EvWrite c None)
                     {| src := src s;
                        sto := {| files := <[p := buf ++ c]> (files (sto s));
                                  forceCloseError := forceCloseError (sto s) |};
                        trace := trace s |} = appended p buf [c] s)
      by (unfold appended; cbn; rewrite app_nil_r; reflexivity).
    rewrite Hone, (IH (buf ++ c)).
    + rewrite appended_more. reflexivity.
    + rewrite <- Hone. cbn. apply lookup_insert_eq.
Qed.

Lemma writeDocuments_mock p err docs : forall i gw buf (s : World S mockStorage),
  gw_w gw = sink (errCloser p err) -> gw_err gw = None ->
  files (sto s) !! p = Some buf ->
  writeDocuments docs i gw s =
  (None, counted (List.length docs) i, advanced gw (List.map line docs),
   appended p buf (enc_writes (gw_z gw) (List.map line docs)).2 s).
Proof.
  induction docs as [|doc rest IH]; intros i gw buf s Hw Herr Hp.
  - cbn. rewrite (appended_nothing _ _ _ Hp). unfold advanced. cbn.
    rewrite <- Herr. destruct gw; reflexivity.
  - cbn [writeDocuments List.map List.length counted enc_writes].
    unfold io_Copy, Writer_Write. rewrite Herr. fold (line doc).
    destruct (enc_write (gw_z gw) (line doc)) as [z out] eqn:Hz.
    rewrite Hw, (writeChunks_mock _ _ _ _ _ Hp).
    rewrite (IH _ _ (buf ++ concat out)); [|reflexivity|reflexivity|apply appended_lookup].
    cbn [gw_z]. destruct (enc_writes z (List.map line rest)) as [z' outs] eqn:Hz'.
    cbn [fst snd]. rewrite appended_app. unfold advanced.
    cbn [List.map enc_writes gw_z gw_w gw_closed]. rewrite Hz, Hz', Hw.
    reflexivity.
Qed.

End MockStoreFacts.

Section MockArchiveFacts.
Context {S : Type} `{documentSource S} `{Codec}.

Lemma enc_stream_writes z inputs :
  enc_stream z inputs = (enc_writes z inputs).2 ++ enc_close (enc_writes z inputs).1.
Proof.
  revert z. induction inputs as [|p rest IH]; intros z; [reflexivity|].
  cbn [enc_stream enc_writes]. destruct (enc_write z p) as [z' out].
  rewrite IH. destruct (enc_writes z' rest) as [z'' outs]. cbn.
  rewrite app_assoc. reflexivity.
Qed.

(** A Day whose path is free in the in-memory store and whose stream
    ends without error: the file holds the gzip stream of the lines,
    and only the close of the sink can fail. *)
Lemma archiveDocuments_mock_written a date (s : World S mockStorage) res x :
  files (sto s) !! fileNameOf date = None ->
  FindAllFromDate date (src s) = (res, x) ->
  sr_Err res = None ->
  archiveDocuments a date s =
  (match forceCloseError (sto s) with
   | Some c => Join [None; Some (Errorf "failed to close file" c)]
   | None => None
   end,
   {| src := x;
      sto := {| files := <[fileNameOf date := gzip_file (List.map line (Iter res))]>
                           (files (sto s));
                forceCloseError := forceCloseError (sto s) |};
      trace := trace s ++ written_events date (Iter res) (forceCloseError (sto s)) |}).
Proof.
  intros Hp HF Hres. unfold archiveDocuments, store_Exists.
  cbn [Exists mockStorage_store mockStorage_Exists]. rewrite Hp.
  replace (bool_decide (is_Some (@None bytes))) with false
    by (symmetry; apply bool_decide_eq_false; intros [? [=]]).
  cbv beta iota zeta. unfold store_Create, slog.
  cbn [Create mockStorage_store mockStorage_Create src sto trace emit
       files forceCloseError].
  unfold NewWriterLevel.
  change ((DefaultCompression <? HuffmanOnly) || (DefaultCompression >? BestCompression))
    with false. cbv iota.
  unfold archiveDocuments_body, source_FindAllFromDate.
  cbn [src sto trace emit]. rewrite HF. cbv beta iota zeta.
  erewrite (writeDocuments_mock (fileNameOf date) _ _ _ _ []);
    [|reflexivity|reflexivity|cbn; apply lookup_insert_eq].
  cbv beta iota zeta. rewrite Hres. unfold slog, defer_gzip_Close, gzip_Close, Writer_Close.
  cbn [gw_err gw_closed gw_w gw_z advanced].
  erewrite writeChunks_mock; [|cbn; apply lookup_insert_eq].
  cbv beta iota zeta. unfold defer_file_Close. cbn [Close sink errCloser].
  cbn [src sto trace emit appended files forceCloseError].
  rewrite !insert_insert_eq. unfold gzip_file. rewrite enc_stream_writes.
  rewrite concat_app. cbn [app]. unfold written_events, wrote_ok.
  destruct (forceCloseError (sto s)); unfold emit; cbn [src sto trace];
    repeat (rewrite <- ?app_assoc; cbn [app]); reflexivity.
Qed.

End MockArchiveFacts.

(* ===================================================================== *)
(** * Lines, the example codec, stores that keep what they create *)
(* ===================================================================== *)

Section LineFacts.

Lemma splitLines_line doc : forall cur rest,
  ~ In newline doc ->
  splitLines cur (line doc ++ rest) = (cur ++ doc) :: splitLines [] rest.
Proof.
  induction doc as [|b doc IH]; intros cur rest Hnl.
  - cbn. rewrite app_nil_r. reflexivity.
  - cbn [line app splitLines] in *. destruct (Byte.eqb b newline) eqn:Hb.
    + apply Byte.byte_dec_bl in Hb. exfalso. apply Hnl. left. exact Hb.
    + change (doc ++ [newline]) with (line doc).
      rewrite IH, <- app_assoc; [reflexivity|]. intros Hin. apply Hnl. right. exact Hin.
Qed.

(** Splitting the lines of newline-free records gives the records. *)
Lemma splitLines_lines docs :
  Forall (fun doc => ~ In newline doc) docs ->
  splitLines [] (concat (List.map line docs)) = docs.
Proof.
  induction 1 as [|doc docs Hdoc _ IH]; [reflexivity|].
  cbn [List.map concat]. rewrite splitLines_line by exact Hdoc.
  rewrite IH. reflexivity.
Qed.

Lemma readLines_gzip_file `{Codec} `{!CodecLaw} docs :
  Forall (fun doc => ~ In newline doc) docs ->
  readLines (gzip_file (List.map line docs)) = Some docs.
Proof.
  intros Hdocs. unfold readLines. rewrite gunzip_gzip_file, splitLines_lines by exact Hdocs.
  reflexivity.
Qed.

End LineFacts.

Section StoredFacts.

Lemma Stored_stream (wroteHeader : bool) inputs :
  concat (@enc_stream Stored.codec wroteHeader inputs) =
  (if wroteHeader then [] else Stored.header) ++ concat inputs ++ Stored.trailer.
Proof.
  revert wroteHeader. induction inputs as [|p rest IH]; intros wroteHeader.
  - destruct wroteHeader; reflexivity.
  - cbn [enc_stream enc_write Stored.codec]. rewrite concat_app, IH.
    destruct wroteHeader; cbn; rewrite ?app_nil_r, <- ?app_assoc; reflexivity.
Qed.

Lemma Stored_strip data :
  Stored.strip (Stored.header ++ data ++ Stored.trailer) = Some data.
Proof.
  cbn. rewrite rev_app_distr. cbn. rewrite rev_involutive. reflexivity.
Qed.

#[export] Instance Stored_law : @CodecLaw Stored.codec.
Proof.
  intros inputs. unfold gzip_file. cbn [enc_init gunzip Stored.codec].
  rewrite Stored_stream. apply Stored_strip.
Qed.

End StoredFacts.

Section PersistentFacts.

#[export] Instance mockStorage_Persistent : Persistent mock_present.
Proof.
  split.
  - intros p t Hp. exists t. cbn. unfold mockStorage_Exists.
    rewrite bool_decide_eq_true_2 by exact Hp. reflexivity.
  - intros p t w t' [= <- <-]. unfold mock_present. cbn.
    rewrite lookup_insert_eq. eauto.
  - intros p t w t' c t1 [= <- <-] Hp. unfold mock_present in *. cbn.
    apply lookup_alter_is_Some. exact Hp.
  - intros p t w t' t1 [= <- <-] Hp. exact Hp.
Qed.

End PersistentFacts.

(* ===================================================================== *)
(** * The claims *)
(* ===================================================================== *)

(** Unfold the trace bookkeeping and flatten the appended events. *)
Ltac world_simpl :=
  unfold slog, emit; cbn [src sto trace]; rewrite <- ?app_assoc; cbn [app].

Section Conflict.
Context {S T : Type} {Src : documentSource S} {Sto : store T} {Cod : Codec}.

(** Under the default policy a successful archive step leaves the
    Day's path present in a store that keeps what it creates. *)
Lemma archived_present (present : string -> T -> Prop) `{!Persistent present}
  a date (s s1 : World S T) :
  ignoreFileExistsError a = false ->
  archiveDocuments a date s = (None, s1) ->
  present (fileNameOf date) (sto s1).
Proof.
  intros Hdefault Hrun.
  destruct (Exists (fileNameOf date) (sto s)) as [[[|]|e] t1] eqn:HE.
  - unfold archiveDocuments, store_Exists in Hrun. rewrite HE, Hdefault in Hrun.
    discriminate.
  - destruct (Create (fileNameOf date) t1) as [[w|e] t2] eqn:HC.
    + pose proof (archiveDocuments_created a date s t1 w t2 HE HC) as Hc.
      rewrite Hrun in Hc. destruct Hc as (_ & Hsto & _).
      apply Hsto.
      * intros c t. apply (present_Write _ _ _ _ c t HC).
      * intros t. apply (present_Close _ _ _ _ t HC).
      * apply (present_Create _ _ _ _ HC).
    + unfold archiveDocuments, store_Exists in Hrun. rewrite HE in Hrun.
      cbv beta iota zeta in Hrun. unfold store_Create, slog in Hrun.
      cbn [src sto trace emit] in Hrun. rewrite HC in Hrun. discriminate.
  - unfold archiveDocuments, store_Exists in Hrun. rewrite HE in Hrun.
    discriminate.
Qed.

(** The loop at a Day whose path exists, under the default policy. *)
Lemma Run_loop_conflict fuel a ctx target date total (s : World S T) t' :
  ignoreFileExistsError a = false ->
  Before date target = true ->
  Exists (fileNameOf date) (sto s) = (Ok true, t') ->
  Run_loop (Datatypes.S fuel) a ctx target date total s =
  Some (Some conflict,
        {| src := src s; sto := t';
           trace := trace s ++
             [EvLog LevelInfo "archiving" [("date", Time_ date)];
              EvExists (fileNameOf date) (Ok true);
              EvLog LevelError "target file already exists"
                [("file", String_ (fileNameOf date))]] |}).
Proof.
  intros Hdefault Hbefore HE. cbn [Run_loop]. rewrite Hbefore.
  unfold archiveDocumentsAndDelete, archiveDocuments, store_Exists, slog.
  cbn [src sto trace emit]. rewrite HE, Hdefault. world_simpl. reflexivity.
Qed.

(** C4. Under the default conflict policy, a Day whose archive path
    already exists in the Store fails the run with the conflict error
    after the existence check alone: the source is left as it was and
    no deletion is asked for. Hence, in a store that keeps what it
    creates, a Day that a first run archived fails a second run in the
    same way, before anything is deleted. *)
Theorem existing_archive_is_a_conflict :
  (forall fuel a ctx target date total (s : World S T) t',
     ignoreFileExistsError a = false ->
     Before date target = true ->
     Exists (fileNameOf date) (sto s) = (Ok true, t') ->
     exists s',
       Run_loop (Datatypes.S fuel) a ctx target date total s = Some (Some conflict, s') /\
       Error conflict = "archival failed: failed to archive documents: target file exists" /\
       src s' = src s /\
       deletions (trace s') = deletions (trace s) /\
       creations (trace s') = creations (trace s)) /\
  (forall (present : string -> T -> Prop) a0 date (s0 s1 : World S T),
     Persistent present ->
     ignoreFileExistsError a0 = false ->
     archiveDocuments a0 date s0 = (None, s1) ->
     forall fuel a ctx target total (s : World S T),
       sto s = sto s1 ->
       ignoreFileExistsError a = false ->
       Before date target = true ->
       exists s',
         Run_loop (Datatypes.S fuel) a ctx target date total s = Some (Some conflict, s') /\
         src s' = src s /\
         deletions (trace s') = deletions (trace s)).
Proof.
  split.
  - intros fuel a ctx target date total s t' Hdefault Hbefore HE.
    eexists. split; [apply (Run_loop_conflict _ _ _ _ _ _ _ t'); assumption|].
    cbn [src trace]. unfold deletions, creations. rewrite !omap_app. cbn.
    rewrite !app_nil_r. auto.
  - intros present a0 date s0 s1 Hpers Hdefault0 Hfirst fuel a ctx target total s
      Hsto Hdefault Hbefore.
    pose proof (archived_present present a0 date s0 s1 Hdefault0 Hfirst) as Hp.
    rewrite <- Hsto in Hp. destruct (present_Exists _ _ Hp) as (t' & HE).
    eexists. split; [apply (Run_loop_conflict _ _ _ _ _ _ _ t'); assumption|].
    cbn [src trace]. unfold deletions. rewrite !omap_app. cbn.
    rewrite !app_nil_r. auto.
Qed.

End Conflict.

Section Policies.
Context {S T : Type} {Src : documentSource S} {Sto : store T} {Cod : Codec}.

Lemma archiveDocuments_skip a date (s : World S T) t' :
  ignoreFileExistsError a = true ->
  Exists (fileNameOf date) (sto s) = (Ok true, t') ->
  archiveDocuments a date s = (None, skipped date t' s).
Proof.
  intros Hignore HE. unfold archiveDocuments, store_Exists.
  rewrite HE, Hignore. world_simpl. reflexivity.
Qed.

Lemma archiveDocumentsAndDelete_skip a date (s : World S T) t' :
  ignoreFileExistsError a = true ->
  Exists (fileNameOf date) (sto s) = (Ok true, t') ->
  archiveDocumentsAndDelete a date s = after_skip a date t' s.
Proof.
  intros Hignore HE. unfold archiveDocumentsAndDelete, after_skip.
  rewrite (archiveDocuments_skip _ _ _ _ Hignore HE).
  destruct (skipDelete a); [reflexivity|]. cbn [negb].
  unfold source_DeleteAllFromDate. cbn [src sto trace skipped].
  destruct (DeleteAllFromDate date (src s)) as [[n|e] x]; world_simpl; reflexivity.
Qed.

(** C5. Under the ignore-existing policy, at a Day whose archive path
    already exists the archive step returns success without creating
    or writing anything; the deletion of the Day is then asked for
    exactly when deletion is enabled, and the Day ends as that
    deletion does (in success when it is skipped). When the Day
    succeeds and no cancellation is observed the loop counts it and
    goes on; if it was the last Day before the cutoff the run
    succeeds. *)
Theorem existing_archive_ignored a date (s : World S T) t' :
  ignoreFileExistsError a = true ->
  Exists (fileNameOf date) (sto s) = (Ok true, t') ->
  archiveDocuments a date s = (None, skipped date t' s) /\
  creations (trace (skipped date t' s)) = creations (trace s) /\
  archiveDocumentsAndDelete a date s = after_skip a date t' s /\
  creations (trace (after_skip a date t' s).2) = creations (trace s) /\
  deletions (trace (after_skip a date t' s).2) =
    deletions (trace s) ++
    (if skipDelete a then []
     else [(date, (DeleteAllFromDate date (src s)).1)]) /\
  (forall fuel ctx target total s1,
     Before date target = true ->
     after_skip a date t' (slog LevelInfo "archiving" [("date", Time_ date)] s)
       = (None, s1) ->
     Done ctx date = false ->
     Run_loop (Datatypes.S fuel) a ctx target date total s =
       Run_loop fuel a ctx target (AddDate date 0 0 1) (int_incr total)
         (emit (EvSelect date false) s1) /\
     (Before (AddDate date 0 0 1) target = false ->
      exists s', Run_loop (Datatypes.S (Datatypes.S fuel)) a ctx target date total s
                 = Some (None, s'))).
Proof.
  intros Hignore HE. split; [apply archiveDocuments_skip; assumption|].
  split.
  { cbn [trace skipped]. unfold creations. rewrite omap_app. cbn.
    apply app_nil_r. }
  split; [apply archiveDocumentsAndDelete_skip; assumption|].
  assert (Hobs :
    creations (trace (after_skip a date t' s).2) = creations (trace s) /\
    deletions (trace (after_skip a date t' s).2) =
      deletions (trace s) ++
      (if skipDelete a then []
       else [(date, (DeleteAllFromDate date (src s)).1)])).
  { unfold after_skip. destruct (skipDelete a).
    - cbn [snd trace skipped]. unfold creations, deletions. rewrite !omap_app. cbn.
      rewrite !app_nil_r. split; reflexivity.
    - destruct (DeleteAllFromDate date (src s)) as [[n|e] x];
        cbn [fst snd trace skipped]; unfold creations, deletions;
        rewrite !omap_app; cbn; rewrite !app_nil_r; split; reflexivity. }
  destruct Hobs as [Hcre Hdel]. split; [exact Hcre|]. split; [exact Hdel|].
  intros fuel ctx target total s1 Hbefore Hstep Hnot.
    assert (Hone : forall f, Run_loop (Datatypes.S f) a ctx target date total s =
                             Run_loop f a ctx target (AddDate date 0 0 1) (int_incr total)
                               (emit (EvSelect date false) s1)).
    { intros f. cbn [Run_loop]. rewrite Hbefore.
      rewrite (archiveDocumentsAndDelete_skip a date _ t' Hignore)
        by (unfold slog; cbn [sto emit]; exact HE).
      rewrite Hstep, Hnot. reflexivity. }
    split; [apply Hone|]. intros Hlast. rewrite Hone. cbn [Run_loop].
    rewrite Hlast. eauto.
Qed.

End Policies.

Section Closing.
Context {S T : Type} {Src : documentSource S} {Sto : store T} {Cod : Codec}.

Lemma stream_event_not_close e : stream_event e -> ~ is_close e.
Proof. destruct e; cbn; tauto. Qed.

(** C6. Once the file of a Day has been created, the archive step ends
    with the close of the gzip writer followed by the close of the
    sink, each once and in that order, whatever happened before; and
    every failure met on the way (a failed write, the terminal error of
    the stream, a failed close of either) is in the error returned,
    which is nil only when none was met. *)
Theorem closes_in_order_and_errors_joined a date (s : World S T) t1 w t2 :
  Exists (fileNameOf date) (sto s) = (Ok false, t1) ->
  Create (fileNameOf date) t1 = (Ok w, t2) ->
  exists r s' evs c1 c2,
    archiveDocuments a date s = (r, s') /\
    trace s' =
      trace s ++
      [EvExists (fileNameOf date) (Ok false);
       EvLog LevelInfo "writing to file" [("fileName", String_ (fileNameOf date))];
       EvCreate (fileNameOf date) None]
      ++ evs ++ [EvGzipClose c1; EvFileClose c2] /\
    Forall (fun ev => ~ is_close ev) evs /\
    (forall ev x, In ev (evs ++ [EvGzipClose c1; EvFileClose c2]) ->
                  failure ev = Some x ->
                  exists r', r = Some r' /\ Is r' x) /\
    (r = None <->
     Forall (fun ev => failure ev = None) (evs ++ [EvGzipClose c1; EvFileClose c2])).
Proof.
  intros HE HC. pose proof (archiveDocuments_created a date s t1 w t2 HE HC) as Hc.
  destruct (archiveDocuments a date s) as [r s'].
  destruct Hc as (_ & _ & evs & c1 & c2 & Ht & Hev & Hfail & Hnil).
  exists r, s', evs, c1, c2. split; [reflexivity|]. split; [exact Ht|].
  split; [|split; assumption].
  eapply Forall_impl; [exact Hev|]. apply stream_event_not_close.
Qed.

End Closing.

Section Cancellation.
Context {S T : Type} {Src : documentSource S} {Sto : store T} {Cod : Codec}.

(** A Day that succeeded leaves the store as its archive step left
    it. *)
Lemma archiveDocumentsAndDelete_archived a date (s s1 : World S T) :
  archiveDocumentsAndDelete a date s = (None, s1) ->
  exists sA : World S T, archiveDocuments a date s = (None, sA) /\ sto s1 = sto sA.
Proof.
  unfold archiveDocumentsAndDelete. intros Hstep.
  destruct (archiveDocuments a date s) as [[e|] sA]; [discriminate|].
  exists sA. split; [reflexivity|].
  destruct (skipDelete a); cbn [negb] in Hstep.
  - injection Hstep as <-. reflexivity.
  - unfold source_DeleteAllFromDate, slog in Hstep.
    destruct (DeleteAllFromDate date (src sA)) as [[n|e] x]; [|discriminate].
    injection Hstep as <-. reflexivity.
Qed.

(** C7, amended. Cancellation is signalled after a Day is complete:
    before the select that follows the Day is evaluated, or while that
    select waits. When the timer of the delay cannot be received from
    as the select is evaluated, or when it can and the select picks
    the cancellation that was signalled, the run returns the context's
    error. The world is the one the Day left: its deletions stay, and
    in a store that keeps what it creates, under the default policy,
    the Day's file is there. The observation of the cancellation is
    the last event, so no later Day is entered and nothing is created,
    written or deleted for one. *)
Theorem cancelled_between_days fuel a env err target date total (s s1 : World S T) :
  Before date target = true ->
  archiveDocumentsAndDelete a date
    (slog LevelInfo "archiving" [("date", Time_ date)] s) = (None, s1) ->
  signalled (env date) = true \/ interrupted (env date) = true ->
  timer_ready (delay a) (env date) = false \/
    (signalled (env date) = true /\ pick (env date) = true) ->
  exists s',
    Run_loop (Datatypes.S fuel) a (observed a env err) target date total s
    = Some (Some err, s') /\
    src s' = src s1 /\ sto s' = sto s1 /\
    trace s' = trace s1 ++ [EvSelect date true] /\
    days_archived (trace s') = days_archived (trace s) ++ [date] /\
    creations (trace s') = creations (trace s1) /\
    deletions (trace s') = deletions (trace s1) /\
    (forall present : string -> T -> Prop,
       Persistent present -> ignoreFileExistsError a = false ->
       present (fileNameOf date) (sto s')).
Proof.
  intros Hbefore Hstep Hsig Hsel.
  assert (Hdone : Done (observed a env err) date = true).
  { cbn [Done observed]. unfold select_Done.
    destruct Hsel as [-> | [-> Hpick]].
    - destruct Hsig as [-> | ->]; [reflexivity|].
      destruct (signalled (env date)); reflexivity.
    - destruct (timer_ready (delay a) (env date)); [exact Hpick | reflexivity]. }
  cbn [Run_loop]. rewrite Hbefore, Hstep, Hdone. cbn [ctx_Err observed].
  eexists. split; [reflexivity|]. cbn [src sto trace emit].
  split; [reflexivity|]. split; [reflexivity|]. split; [reflexivity|].
  split.
  { pose proof (archiveDocumentsAndDelete_events a date
                  (slog LevelInfo "archiving" [("date", Time_ date)] s)) as Hev.
    rewrite Hstep in Hev. destruct Hev as (evs & Ht & Hna & _).
    rewrite Ht. unfold slog. cbn [trace emit]. unfold days_archived.
    rewrite !omap_app. cbn.
    replace (omap archiving_date evs) with (@nil Time); [rewrite !app_nil_r; reflexivity|].
    symmetry. clear -Hna. induction Hna as [|e evs He _ IHe]; [reflexivity|].
    cbn. rewrite He. exact IHe. }
  split; [unfold creations; rewrite omap_app; cbn; apply app_nil_r|].
  split; [unfold deletions; rewrite omap_app; cbn; apply app_nil_r|].
  intros present Hpers Hdefault.
  destruct (archiveDocumentsAndDelete_archived _ _ _ _ Hstep) as (sA & HA & ->).
  apply (archived_present present a date _ sA Hdefault HA).
Qed.

End Cancellation.

Section EarliestError.
Context {S T : Type} {Src : documentSource S} {Sto : store T} {Cod : Codec}.

(** C8. When the source cannot tell the earliest timestamp, the run
    fails at once with that error wrapped: the query is the only event,
    the store is not touched, and no amount of fuel is needed. The
    MongoDB source answers so when no document has a [createdAt]. *)
Theorem earliest_error_fails_the_run fuel a ctx target (s : World S T) e x :
  EarliestCreatedAt (src s) = (Err e, x) ->
  Run fuel a ctx target s =
    Some (Some (Errorf "failed to get earliest created at" e),
          {| src := x; sto := sto s;
             trace := trace s ++ [EvEarliestCreatedAt (Err e)] |}) /\
  (forall docs, minCreatedAt docs = None ->
     MongoDB_EarliestCreatedAt {| collection := docs; unavailable := None |}
     = (Err ErrNoDocuments, {| collection := docs; unavailable := None |})) /\
  minCreatedAt [] = None.
Proof.
  intros HE. split; [|split; [|reflexivity]].
  - unfold Run, source_EarliestCreatedAt. rewrite HE. reflexivity.
  - intros docs Hnone. unfold MongoDB_EarliestCreatedAt. cbn. rewrite Hnone.
    reflexivity.
Qed.

End EarliestError.

Section SkipDelete.

Lemma MongoDB_FindAllFromDate_state d x : (MongoDB_FindAllFromDate d x).2 = x.
Proof. unfold MongoDB_FindAllFromDate. destruct (unavailable x); reflexivity. Qed.

Lemma MongoDB_EarliestCreatedAt_state x : (MongoDB_EarliestCreatedAt x).2 = x.
Proof.
  unfold MongoDB_EarliestCreatedAt.
  destruct (unavailable x); [reflexivity|].
  destruct (minCreatedAt (collection x)); reflexivity.
Qed.

Lemma Run_skipDelete {S T : Type} {Src : documentSource S} {Sto : store T} {Cod : Codec}
  fuel a ctx target (s : World S T) r s' :
  skipDelete a = true ->
  Run fuel a ctx target s = Some (r, s') ->
  deletions (trace s') = deletions (trace s) /\
  ((forall d x, (FindAllFromDate d x).2 = x) ->
   (forall x, (EarliestCreatedAt x).2 = x) -> src s' = src s).
Proof.
  intros Hskip Hrun. unfold Run, source_EarliestCreatedAt in Hrun.
  destruct (EarliestCreatedAt (src s)) as [[earliest|e] x] eqn:HE.
  - apply (Run_loop_skipDelete _ _ _ _ _ _ _ _ _ Hskip) in Hrun as [Hd Hs].
    unfold slog in *. cbn [src sto trace emit] in *.
    unfold deletions in *. rewrite !omap_app in Hd. cbn in Hd.
    rewrite !app_nil_r in Hd. split; [exact Hd|].
    intros Hfind Hearliest. rewrite (Hs Hfind). specialize (Hearliest (src s)).
    rewrite HE in Hearliest. exact Hearliest.
  - injection Hrun as <- <-. cbn [src trace emit]. unfold deletions.
    rewrite omap_app. cbn. rewrite app_nil_r. split; [reflexivity|].
    intros _ Hearliest. specialize (Hearliest (src s)).
    rewrite HE in Hearliest. exact Hearliest.
Qed.

(** With fuel enough, [Run] returns. *)
Lemma Run_returns {S T : Type} {Src : documentSource S} {Sto : store T} {Cod : Codec}
  a ctx target (s : World S T) :
  exists fuel, forall fuel', (fuel <= fuel')%nat ->
    exists r s', Run fuel' a ctx target s = Some (r, s').
Proof.
  unfold Run, source_EarliestCreatedAt.
  destruct (EarliestCreatedAt (src s)) as [[earliest|e] x].
  - exists (Run_fuel earliest target). intros fuel' Hfuel.
    apply Run_loop_returns. pose proof (Run_fuel_enough earliest target). lia.
  - exists 0%nat. intros fuel' _. eauto.
Qed.

(** C9. A run returns once it has fuel enough. With the skip-delete
    policy a run, however it ends, asks the source for no deletion; and
    over the MongoDB source the collection is afterwards what it was, so
    the number of records of every day is unchanged. *)
Theorem skip_delete_never_deletes :
  (forall (S T : Type) (HS : documentSource S) (HT : store T) (HC : Codec)
          a ctx target (s : World S T),
     exists fuel, forall fuel', (fuel <= fuel')%nat ->
       exists r s', Run fuel' a ctx target s = Some (r, s')) /\
  (forall (S T : Type) (HS : documentSource S) (HT : store T) (HC : Codec)
          fuel a ctx target (s : World S T) r s',
     skipDelete a = true ->
     Run fuel a ctx target s = Some (r, s') ->
     deletions (trace s') = deletions (trace s)) /\
  (forall (T : Type) (HT : store T) (HC : Codec)
          fuel a ctx target (s : World MongoDB T) r s',
     skipDelete a = true ->
     Run fuel a ctx target s = Some (r, s') ->
     src s' = src s /\ forall t, countOn t (src s') = countOn t (src s)).
Proof.
  split; [|split].
  - intros S T HS HT HC a ctx target s. apply Run_returns.
  - intros S T HS HT HC fuel a ctx target s r s' Hskip Hrun.
    apply (Run_skipDelete _ _ _ _ _ _ _ Hskip Hrun).
  - intros T HT HC fuel a ctx target s r s' Hskip Hrun.
    destruct (Run_skipDelete _ _ _ _ _ _ _ Hskip Hrun) as [_ Hsrc].
    assert (Heq : src s' = src s).
    { apply Hsrc; [apply MongoDB_FindAllFromDate_state
                  | apply MongoDB_EarliestCreatedAt_state]. }
    split; [exact Heq|]. intros t. rewrite Heq. reflexivity.
Qed.

End SkipDelete.

Section Leftover.
Context {S T : Type} {Src : documentSource S} {Sto : store T} {Cod : Codec}.

(** C10, amended. After [Create] has succeeded for a Day, whatever the
    archive step returns (in particular when it fails on the stream or
    on a close), nothing but writes and the two closes was asked of the
    store; so in a store that keeps what it creates the Day's path is
    present afterwards, [Exists] reports it, and a new attempt at the
    Day under the default policy fails with the conflict error. *)
Theorem created_file_is_left_behind (present : string -> T -> Prop)
  a date (s : World S T) t1 w t2 r s' :
  Persistent present ->
  Exists (fileNameOf date) (sto s) = (Ok false, t1) ->
  Create (fileNameOf date) t1 = (Ok w, t2) ->
  archiveDocuments a date s = (r, s') ->
  present (fileNameOf date) (sto s') /\
  (exists t', Exists (fileNameOf date) (sto s') = (Ok true, t')) /\
  (forall a' (s2 : World S T),
     sto s2 = sto s' ->
     ignoreFileExistsError a' = false ->
     exists s3,
       archiveDocuments a' date s2 = (Some (New "target file exists"), s3) /\
       src s3 = src s2 /\ creations (trace s3) = creations (trace s2)).
Proof.
  intros Hpers HE HC Hrun.
  pose proof (archiveDocuments_created a date s t1 w t2 HE HC) as Hc.
  rewrite Hrun in Hc. destruct Hc as (_ & Hsto & _).
  assert (Hp : present (fileNameOf date) (sto s')).
  { apply Hsto.
    - intros c t. apply (present_Write _ _ _ _ c t HC).
    - intros t. apply (present_Close _ _ _ _ t HC).
    - apply (present_Create _ _ _ _ HC). }
  split; [exact Hp|]. split; [apply present_Exists; exact Hp|].
  intros a' s2 Hsto2 Hdefault. rewrite <- Hsto2 in Hp.
  destruct (present_Exists _ _ Hp) as (t' & HE2).
  unfold archiveDocuments, store_Exists. rewrite HE2, Hdefault.
  eexists. split; [reflexivity|]. world_simpl.
  unfold creations. rewrite omap_app. cbn. rewrite app_nil_r. auto.
Qed.

End Leftover.

Section WrittenDay.
Context {S : Type} {Src : documentSource S} {Cod : Codec}.

Lemma omap_wrote_ok {A} (f : event -> option A) l :
  (forall c, f (wrote_ok c) = None) -> omap f (List.map wrote_ok l) = [].
Proof.
  intros Hf. induction l as [|c l IH]; [reflexivity|].
  cbn. rewrite Hf. exact IH.
Qed.

Lemma days_archived_written date docs closeErr :
  days_archived (written_events date docs closeErr) = [].
Proof.
  unfold days_archived, written_events. rewrite !omap_app, !omap_wrote_ok by reflexivity.
  reflexivity.
Qed.

Lemma deletions_written date docs closeErr :
  deletions (written_events date docs closeErr) = [].
Proof.
  unfold deletions, written_events. rewrite !omap_app, !omap_wrote_ok by reflexivity.
  reflexivity.
Qed.

Lemma creations_written date docs closeErr :
  creations (written_events date docs closeErr) = [fileNameOf date].
Proof.
  unfold creations, written_events. rewrite !omap_app, !omap_wrote_ok by reflexivity.
  reflexivity.
Qed.

Lemma documents_written_written date docs closeErr :
  documents_written (written_events date docs closeErr)
  = [counted (List.length docs) 0].
Proof.
  unfold documents_written, written_events.
  rewrite !omap_app, !omap_wrote_ok by reflexivity. reflexivity.
Qed.

(** One iteration of the loop that writes and deletes a Day. *)
Lemma Run_loop_day_done fuel a ctx target date total (s : World S mockStorage)
  res x n x' :
  Before date target = true ->
  files (sto s) !! fileNameOf date = None ->
  forceCloseError (sto s) = None ->
  FindAllFromDate date (src s) = (res, x) ->
  sr_Err res = None ->
  skipDelete a = false ->
  DeleteAllFromDate date x = (Ok n, x') ->
  Done ctx date = false ->
  Run_loop (Datatypes.S fuel) a ctx target date total s =
  Run_loop fuel a ctx target (AddDate date 0 0 1) (int_incr total)
    (day_done date (Iter res) n x' s).
Proof.
  intros Hbefore Hfree Hclose HF Hres Hdel HD Hnot.
  cbn [Run_loop]. rewrite Hbefore. unfold archiveDocumentsAndDelete.
  rewrite (archiveDocuments_mock_written a date _ res x);
    [|exact Hfree|exact HF|exact Hres].
  unfold slog. cbn [sto emit]. rewrite Hclose, Hdel. cbn [negb].
  unfold source_DeleteAllFromDate. cbn [src sto trace]. rewrite HD, Hnot.
  f_equal. unfold day_done, slog, emit. cbn [src sto trace].
  rewrite <- !app_assoc. reflexivity.
Qed.

End WrittenDay.

(* ===================================================================== *)
(** * The scenarios *)
(* ===================================================================== *)

Import Scenario.

Section FiveRecords.
Context {Cod : Codec}.

(** C1. Five records, the earliest at 2024-11-01T23:59:59Z, one on
    11/01, two on 11/02, one on 11/03 and one on 11/04; cutoff
    2024-11-03T00:00:00Z, default policies, no delay, no cancellation,
    an empty store. The run succeeds. It enters the Days 11/01 and
    11/02 and no other, creates their two files and no other, with one
    and two records, deletes one and two records on those Days and
    nothing else, leaves the records and the paths of 11/03 and 11/04
    as they were, and reports two days archived. *)
Theorem five_records_two_days :
  exists s',
    Run (Run_fuel (nov 1 23 59 59) cutoff) defaults Background cutoff start
    = Some (None, s') /\
    days_archived (trace s') = [nov 1 0 0 0; nov 2 0 0 0] /\
    creations (trace s') = [path1; path2] /\
    files (sto s') =
      <[path2 := gzip_file [line (extJSON doc2); line (extJSON doc3)]]>
        (<[path1 := gzip_file [line (extJSON doc1)]]> ∅) /\
    documents_written (trace s') = [1; 2] /\
    deletions (trace s') = [(nov 1 0 0 0, Ok 1); (nov 2 0 0 0, Ok 2)] /\
    collection (src s') = [doc4; doc5] /\
    countOn (nov 3 0 0 0) (src s') = 1%nat /\
    countOn (nov 4 0 0 0) (src s') = 1%nat /\
    files (sto s') !! path3 = None /\
    files (sto s') !! path4 = None /\
    last (trace s') =
      Some (EvLog LevelInfo "target reached" [("datesArchived", Int_ 2)]).
Proof.
  unfold Run, source_EarliestCreatedAt.
  change (EarliestCreatedAt (src start)) with (Ok (nov 1 23 59 59), five).
  cbv beta iota zeta.
  change (Truncate (nov 1 23 59 59) (Hour * 24)) with (nov 1 0 0 0).
  change (Run_fuel (nov 1 23 59 59) cutoff) with 4%nat.
  set (s0 := slog _ _ _ _).
  rewrite (Run_loop_day_done 3 defaults Background cutoff (nov 1 0 0 0) 0 s0
             {| Iter := [extJSON doc1]; sr_Err := None |} five 1 four);
    try reflexivity.
  change (AddDate (nov 1 0 0 0) 0 0 1) with (nov 2 0 0 0).
  set (s1 := day_done _ _ _ _ s0).
  rewrite (Run_loop_day_done 2 defaults Background cutoff (nov 2 0 0 0) _ s1
             {| Iter := [extJSON doc2; extJSON doc3]; sr_Err := None |} four 2 two);
    try reflexivity.
  change (AddDate (nov 2 0 0 0) 0 0 1) with (nov 3 0 0 0).
  set (s2 := day_done _ _ _ _ s1).
  cbn [Run_loop]. change (Before (nov 3 0 0 0) cutoff) with false. cbv iota.
  eexists. split; [reflexivity|].
  unfold slog. cbn [trace src sto emit].
  subst s2 s1 s0. unfold day_done, slog, emit. cbn [trace src sto files].
  change (fileNameOf (nov 1 0 0 0)) with path1.
  change (fileNameOf (nov 2 0 0 0)) with path2.
  split.
  { unfold days_archived. rewrite !omap_app.
    fold (days_archived (written_events (nov 1 0 0 0) [extJSON doc1] None)).
    fold (days_archived (written_events (nov 2 0 0 0) [extJSON doc2; extJSON doc3] None)).
    rewrite !days_archived_written. reflexivity. }
  split.
  { unfold creations. rewrite !omap_app.
    fold (creations (written_events (nov 1 0 0 0) [extJSON doc1] None)).
    fold (creations (written_events (nov 2 0 0 0) [extJSON doc2; extJSON doc3] None)).
    rewrite !creations_written. reflexivity. }
  split; [reflexivity|].
  split.
  { unfold documents_written. rewrite !omap_app.
    fold (documents_written (written_events (nov 1 0 0 0) [extJSON doc1] None)).
    fold (documents_written
            (written_events (nov 2 0 0 0) [extJSON doc2; extJSON doc3] None)).
    rewrite !documents_written_written. reflexivity. }
  split.
  { unfold deletions. rewrite !omap_app.
    fold (deletions (written_events (nov 1 0 0 0) [extJSON doc1] None)).
    fold (deletions (written_events (nov 2 0 0 0) [extJSON doc2; extJSON doc3] None)).
    rewrite !deletions_written. reflexivity. }
  split; [reflexivity|]. split; [reflexivity|]. split; [reflexivity|].
  split; [reflexivity|]. split; [reflexivity|].
  rewrite !app_assoc. apply last_snoc.
Qed.

End FiveRecords.

Section Days.
Context {S T : Type} {Src : documentSource S} {Sto : store T} {Cod : Codec}.

Lemma nthDay_inj start k1 k2 : nthDay start k1 = nthDay start k2 -> k1 = k2.
Proof. unfold nthDay. change nsPerDay with 86400000000000. lia. Qed.

Lemma In_nthDays start n k :
  In (nthDay start k) (List.map (nthDay start) (seq 0 n)) <-> (k < n)%nat.
Proof.
  rewrite in_map_iff. split.
  - intros (k' & Heq & Hin). apply nthDay_inj in Heq. subst k'.
    apply in_seq in Hin. lia.
  - intros Hk. exists k. split; [reflexivity|]. apply in_seq. lia.
Qed.

(** C2, amended. The Days of a run start at the UTC midnight at or
    before the earliest timestamp, each next one is one calendar day
    later, and they are exactly those of these Days that are strictly
    before the cutoff. There are none exactly when that first midnight
    is at or after the cutoff; so there are none when the earliest
    timestamp is at or after a cutoff that is itself a midnight. With
    [Run_fuel] iterations the run returns; the Days it entered are a
    prefix of this sequence, and the whole of it when the run
    succeeds. *)
Theorem days_of_a_run a ctx target (s : World S T) earliest x :
  EarliestCreatedAt (src s) = (Ok earliest, x) ->
  let start := Truncate earliest (Hour * 24) in
  let days := List.map (nthDay start) (seq 0 (dayCount target start)) in
  start mod nsPerDay = 0 /\
  start <= earliest < start + nsPerDay /\
  (forall k, AddDate (nthDay start k) 0 0 1 = nthDay start (Datatypes.S k)) /\
  (forall k, In (nthDay start k) days <-> nthDay start k < target) /\
  (days = [] <-> target <= start) /\
  (target mod nsPerDay = 0 -> target <= earliest -> days = []) /\
  (forall fuel, (Run_fuel earliest target <= fuel)%nat ->
     exists r s' l,
       Run fuel a ctx target s = Some (r, s') /\
       days_archived (trace s') = days_archived (trace s) ++ l /\
       l `prefix_of` days /\
       (r = None -> l = days)).
Proof.
  intros HE start days.
  assert (Hempty : days = [] <-> target <= start).
  { subst days. rewrite <- dayCount_zero.
    destruct (dayCount target start); cbn; split; congruence. }
  split; [apply Truncate_day_midnight|].
  split; [apply Truncate_day_le|].
  split; [intros k; rewrite AddDate_next; unfold nthDay; lia|].
  split; [intros k; subst days; rewrite In_nthDays; apply dayCount_spec|].
  split; [exact Hempty|].
  split.
  { intros Hmid Hle. apply Hempty. apply Truncate_day_mono_midnight; assumption. }
  intros fuel Hfuel.
  pose proof (Run_fuel_enough earliest target) as Henough. fold start in Henough.
  unfold Run, source_EarliestCreatedAt. rewrite HE.
  set (s0 := slog _ _ _ _).
  destruct (Run_loop_returns fuel a ctx target start 0 s0) as (r & s' & Hrun); [lia|].
  fold start. exists r, s'.
  destruct (Run_loop_days _ _ _ _ _ _ _ _ _ Hrun) as (l & Hl & Hpre & Hall).
  rewrite daysUntil_nthDay in Hpre, Hall by lia.
  exists l. split; [exact Hrun|]. split; [|split; assumption].
  rewrite Hl. subst s0. unfold slog. cbn [trace emit]. unfold days_archived.
  rewrite !omap_app. cbn. rewrite !app_nil_r. reflexivity.
Qed.

End Days.

Section RoundTrip.
Context {S : Type} {Src : documentSource S} {Cod : Codec} {Law : CodecLaw}.

(** C3, amended. For a Day whose stream ends without error and whose
    records hold no newline byte, archived to a path that is free in
    the in-memory store with no close error forced, the archive step
    succeeds; the file is the gzip stream of the records, each followed
    by one newline; decompressed and split on newlines it gives back
    exactly the records, in order. *)
Theorem archive_round_trip a date (s : World S mockStorage) res x :
  files (sto s) !! fileNameOf date = None ->
  forceCloseError (sto s) = None ->
  FindAllFromDate date (src s) = (res, x) ->
  sr_Err res = None ->
  Forall (fun doc => ~ In newline doc) (Iter res) ->
  exists s' file,
    archiveDocuments a date s = (None, s') /\
    files (sto s') !! fileNameOf date = Some file /\
    file = gzip_file (List.map line (Iter res)) /\
    readLines file = Some (Iter res) /\
    documents_written (trace s') =
      documents_written (trace s) ++ [counted (List.length (Iter res)) 0].
Proof.
  intros Hfree Hclose HF Hres Hdocs.
  rewrite (archiveDocuments_mock_written a date s res x Hfree HF Hres), Hclose.
  eexists. eexists. split; [reflexivity|]. cbn [sto files trace].
  split; [apply lookup_insert_eq|]. split; [reflexivity|].
  split; [apply readLines_gzip_file; exact Hdocs|].
  unfold documents_written, written_events. rewrite !omap_app.
  assert (Hw : forall l, omap written (List.map wrote_ok l) = []).
  { induction l as [|c l IHl]; [reflexivity | exact IHl]. }
  rewrite !Hw. cbn. reflexivity.
Qed.

End RoundTrip.

(** C2, counterexample. With the earliest record at noon of 11/01 and the
    cutoff at that same instant, the earliest timestamp is not before the
    cutoff, yet the run archives the Day 11/01 and deletes its record. *)
Lemma cutoff_inside_the_first_day :
  let earliest := nov 1 12 0 0 in
  let target := nov 1 12 0 0 in
  EarliestCreatedAt (src noon) = (Ok earliest, src noon) /\
  target <= earliest /\
  exists s',
    @Run _ _ _ _ Stored.codec (Run_fuel earliest target) defaults Background target noon
    = Some (None, s') /\
    days_archived (trace s') = [nov 1 0 0 0] /\
    deletions (trace s') = [(nov 1 0 0 0, Ok 1)] /\
    collection (src s') = [].
Proof.
  cbv zeta. split; [reflexivity|]. split; [discriminate|].
  eexists. split; [vm_compute; reflexivity|]. vm_compute. auto.
Qed.

(** C3, counterexample. A record of the test source holding a newline is
    archived with success, but the file reads back as two records. *)
Lemma newline_in_a_record :
  let date := nov 1 0 0 0 in
  (FindAllFromDate date (src multiline)).1 = {| Iter := [twoLines]; sr_Err := None |} /\
  exists s' file,
    @archiveDocuments _ _ _ _ Stored.codec defaults date multiline = (None, s') /\
    files (sto s') !! fileNameOf date = Some file /\
    @readLines Stored.codec file = Some [bytes_of_string "a"; bytes_of_string "b"] /\
    @readLines Stored.codec file <> Some [twoLines].
Proof.
  cbv zeta. split; [vm_compute; reflexivity|].
  eexists. eexists. split; [vm_compute; reflexivity|].
  split; [vm_compute; reflexivity|]. split; [vm_compute; reflexivity|].
  vm_compute. discriminate.
Qed.

(** C10, counterexample. With the discarding store and a server that
    cannot be reached, [Create] succeeds and the archive step fails on
    the stream; the store then reports the path as absent, and a new
    attempt fails again on the stream, not on a conflict. *)
Lemma discarding_store_keeps_nothing :
  let date := nov 1 0 0 0 in
  exists s',
    @archiveDocuments _ _ _ _ Stored.codec defaults date discarding = (Some timeout, s') /\
    creations (trace s') = [fileNameOf date] /\
    In (EvCreate (fileNameOf date) None) (trace s') /\
    Exists (fileNameOf date) (sto s') = (Ok false, sto s') /\
    (@archiveDocuments _ _ _ _ Stored.codec defaults date s').1 = Some timeout /\
    Some timeout <> Some (New "target file exists").
Proof.
  cbv zeta. eexists. split; [vm_compute; reflexivity|].
  split; [vm_compute; reflexivity|]. split; [vm_compute; tauto|].
  split; [reflexivity|]. split; [vm_compute; reflexivity | discriminate].
Qed.

(** C7, counterexample. The test doubles ignore the context, and the
    archiver consults it in the select alone. With no delay the timer
    can be received from as soon as the select is evaluated.
    Cancellation has been signalled by the end of 11/01, after the
    archive and the deletion of that Day, and the select takes the
    timer: the run goes on, archives and deletes 11/02, and returns
    success. *)
Lemma cancellation_signalled_timer_taken :
  let date := nov 1 0 0 0 in
  let ctx := observed defaults stopRequested Canceled in
  (@archiveDocumentsAndDelete _ _ _ _ Stored.codec defaults date
     (slog LevelInfo "archiving" [("date", Time_ date)] twoDays)).1 = None /\
  signalled (stopRequested date) = true /\
  delay defaults = 0 /\
  exists s',
    @Run _ _ _ _ Stored.codec 4 defaults ctx cutoff twoDays = Some (None, s') /\
    @None error <> Some Canceled /\
    days_archived (trace s') = [nov 1 0 0 0; nov 2 0 0 0] /\
    creations (trace s') = [path1; path2] /\
    deletions (trace s') = [(nov 1 0 0 0, Ok 1); (nov 2 0 0 0, Ok 1)] /\
    is_Some (files (sto s') !! path2) /\
    docs (src s') = ∅ /\
    In (EvSelect date false) (trace s').
Proof.
  cbv zeta. split; [vm_compute; reflexivity|]. split; [reflexivity|].
  split; [reflexivity|].
  eexists. split; [vm_compute; reflexivity|]. split; [discriminate|].
  split; [vm_compute; reflexivity|]. split; [vm_compute; reflexivity|].
  split; [vm_compute; reflexivity|]. split; [vm_compute; eauto|].
  split; [vm_compute; reflexivity|]. vm_compute. tauto.
Qed.

(* ===================================================================== *)
(** * The theorems at the scenarios *)
(* ===================================================================== *)

Section Witnesses.
#[local] Existing Instance Stored.codec.

(** C2 at the five records: the fuel of [Run_fuel] is enough, and the
    Days entered are among 11/01 and 11/02. *)
Lemma days_of_a_run_witness :
  let earliest := nov 1 23 59 59 in
  let start_ := Truncate earliest (Hour * 24) in
  EarliestCreatedAt (src start) = (Ok earliest, five) /\
  List.map (nthDay start_) (seq 0 (dayCount cutoff start_))
    = [nov 1 0 0 0; nov 2 0 0 0] /\
  exists r s' l,
    Run (Run_fuel earliest cutoff) defaults Background cutoff start = Some (r, s') /\
    days_archived (trace s') = days_archived (trace start) ++ l /\
    l `prefix_of` List.map (nthDay start_) (seq 0 (dayCount cutoff start_)) /\
    (r = None -> l = List.map (nthDay start_) (seq 0 (dayCount cutoff start_))).
Proof.
  cbv zeta. split; [reflexivity|]. split; [vm_compute; reflexivity|].
  destruct (days_of_a_run (Src := MongoDB_documentSource) defaults Background cutoff start (nov 1 23 59 59) five
              eq_refl) as (_ & _ & _ & _ & _ & _ & Hrun).
  exact (Hrun _ (le_n _)).
Defined.

(** C3 at the record of 11/01 of the five records. *)
Lemma archive_round_trip_witness :
  let date := nov 1 0 0 0 in
  files (sto start) !! fileNameOf date = None /\
  FindAllFromDate date (src start)
    = ({| Iter := [extJSON doc1]; sr_Err := None |}, five) /\
  exists s' file,
    archiveDocuments defaults date start = (None, s') /\
    files (sto s') !! fileNameOf date = Some file /\
    file = gzip_file (List.map line [extJSON doc1]) /\
    readLines file = Some [extJSON doc1] /\
    documents_written (trace s') = documents_written (trace start) ++ [1].
Proof.
  cbv zeta. split; [reflexivity|]. split; [reflexivity|].
  apply (archive_round_trip defaults (nov 1 0 0 0) start
           {| Iter := [extJSON doc1]; sr_Err := None |} five);
    try reflexivity.
  repeat constructor; vm_compute; intuition discriminate.
Defined.

(** C4 at a store that holds the archive of 11/01, and at the store
    a first run of that Day leaves. *)
Lemma existing_archive_is_a_conflict_witness :
  let date := nov 1 0 0 0 in
  let first := (archiveDocuments skipping date start).2 in
  Exists (fileNameOf date) (sto archived) = (Ok true, sto archived) /\
  (exists s',
     Run_loop 1 defaults Background cutoff date 0 archived = Some (Some conflict, s') /\
     Error conflict = "archival failed: failed to archive documents: target file exists" /\
     src s' = src archived /\
     deletions (trace s') = deletions (trace archived) /\
     creations (trace s') = creations (trace archived)) /\
  archiveDocuments skipping date start = (None, first) /\
  (exists s',
     Run_loop 1 defaults Background cutoff date 0 first = Some (Some conflict, s') /\
     src s' = src first /\
     deletions (trace s') = deletions (trace first)).
Proof.
  cbv zeta. split; [reflexivity|]. split.
  - apply (proj1 existing_archive_is_a_conflict 0%nat defaults Background cutoff
             (nov 1 0 0 0) 0 archived (sto archived)); reflexivity.
  - split; [vm_compute; reflexivity|].
    apply (proj2 existing_archive_is_a_conflict mock_present skipping (nov 1 0 0 0)
             start (archiveDocuments skipping (nov 1 0 0 0) start).2
             mockStorage_Persistent);
      reflexivity.
Defined.

(** C5 at a store that holds the archive of 11/01, with the
    ignore-existing policy: the run succeeds, nothing is created, the
    record of 11/01 is deleted. *)
Lemma existing_archive_ignored_witness :
  let date := nov 1 0 0 0 in
  Exists (fileNameOf date) (sto archived) = (Ok true, sto archived) /\
  archiveDocuments ignoring date archived = (None, skipped date (sto archived) archived) /\
  creations (trace (after_skip ignoring date (sto archived) archived).2) = [] /\
  deletions (trace (after_skip ignoring date (sto archived) archived).2)
    = [(date, Ok 1)] /\
  exists s', Run_loop 2 ignoring Background (nov 2 0 0 0) date 0 archived = Some (None, s').
Proof.
  cbv zeta. split; [reflexivity|].
  destruct (existing_archive_ignored (Src := MongoDB_documentSource)
              (Sto := mockStorage_store) ignoring (nov 1 0 0 0) archived (sto archived)
              eq_refl eq_refl)
    as (Harchive & _ & _ & Hcre & Hdel & Hrun).
  split; [exact Harchive|]. split; [exact Hcre|]. split; [exact Hdel|].
  refine (proj2 (Hrun 0%nat Background (nov 2 0 0 0) 0
                   (after_skip ignoring (nov 1 0 0 0) (sto archived)
                      (slog LevelInfo "archiving" [("date", Time_ (nov 1 0 0 0))] archived)).2
                   _ _ _) _); reflexivity.
Defined.

(** C6 at a store whose sinks fail to close: the close error is in
    the error returned. *)
Lemma closes_in_order_and_errors_joined_witness :
  let date := nov 1 0 0 0 in
  Exists (fileNameOf date) (sto failingClose) = (Ok false, sto failingClose) /\
  exists r s' evs c1 c2,
    archiveDocuments defaults date failingClose = (r, s') /\
    trace s' =
      trace failingClose ++
      [EvExists (fileNameOf date) (Ok false);
       EvLog LevelInfo "writing to file" [("fileName", String_ (fileNameOf date))];
       EvCreate (fileNameOf date) None]
      ++ evs ++ [EvGzipClose c1; EvFileClose c2] /\
    Forall (fun ev => ~ is_close ev) evs /\
    (forall ev x, In ev (evs ++ [EvGzipClose c1; EvFileClose c2]) ->
                  failure ev = Some x ->
                  exists r', r = Some r' /\ Is r' x) /\
    (r = None <->
     Forall (fun ev => failure ev = None) (evs ++ [EvGzipClose c1; EvFileClose c2])).
Proof.
  cbv zeta. split; [reflexivity|].
  eapply (closes_in_order_and_errors_joined defaults (nov 1 0 0 0) failingClose);
    reflexivity.
Defined.

(** C7 at the five records, with a second of delay: cancellation is
    signalled by the end of 11/01 and the timer has not fired. *)
Lemma cancelled_between_days_witness :
  let date := nov 1 0 0 0 in
  let done_ := (archiveDocumentsAndDelete paced date
                  (slog LevelInfo "archiving" [("date", Time_ date)] start)).2 in
  Before date cutoff = true /\
  signalled (stopRequested date) = true /\
  timer_ready (delay paced) (stopRequested date) = false /\
  collection (src done_) = [doc2; doc3; doc4; doc5] /\
  is_Some (files (sto done_) !! path1) /\
  exists s',
    Run_loop 4 paced (observed paced stopRequested Canceled) cutoff date 0 start
    = Some (Some Canceled, s') /\
    src s' = src done_ /\ sto s' = sto done_ /\
    trace s' = trace done_ ++ [EvSelect date true] /\
    days_archived (trace s') = days_archived (trace start) ++ [date] /\
    creations (trace s') = creations (trace done_) /\
    deletions (trace s') = deletions (trace done_) /\
    (forall present : string -> mockStorage -> Prop,
       Persistent present -> ignoreFileExistsError paced = false ->
       present (fileNameOf date) (sto s')).
Proof.
  cbv zeta. split; [reflexivity|]. split; [reflexivity|]. split; [reflexivity|].
  split; [vm_compute; reflexivity|]. split; [vm_compute; eauto|].
  apply (cancelled_between_days 3 paced stopRequested Canceled cutoff (nov 1 0 0 0) 0
           start);
    [reflexivity | vm_compute; reflexivity | left; reflexivity | left; reflexivity].
Defined.

(** C8 at a collection without records. *)
Lemma earliest_error_fails_the_run_witness :
  EarliestCreatedAt (src nothing) = (Err ErrNoDocuments, src nothing) /\
  Run 0 defaults Background cutoff nothing =
    Some (Some (Errorf "failed to get earliest created at" ErrNoDocuments),
          {| src := src nothing; sto := sto nothing;
             trace := [EvEarliestCreatedAt (Err ErrNoDocuments)] |}).
Proof.
  split; [reflexivity|].
  exact (proj1 (earliest_error_fails_the_run (Src := MongoDB_documentSource) 0 defaults Background cutoff nothing
                  ErrNoDocuments (src nothing) eq_refl)).
Defined.

(** C9 at the five records with deletion skipped. *)
Lemma skip_delete_never_deletes_witness :
  let s' := outcome (Run 4 skipping Background cutoff start) start in
  Run 4 skipping Background cutoff start = Some (None, s') /\
  creations (trace s') = [path1; path2] /\
  deletions (trace s') = [] /\
  src s' = five /\
  forall t, countOn t (src s') = countOn t five.
Proof.
  cbv zeta. split; [vm_compute; reflexivity|]. split; [vm_compute; reflexivity|].
  split.
  - apply (proj1 (proj2 skip_delete_never_deletes) MongoDB mockStorage _ _ _
             4%nat skipping Background cutoff start None);
      [reflexivity | vm_compute; reflexivity].
  - apply (proj2 (proj2 skip_delete_never_deletes) mockStorage _ _
             4%nat skipping Background cutoff start None);
      [reflexivity | vm_compute; reflexivity].
Defined.

(** C10 at a store whose sinks fail to close: the archive step fails,
    the file stays, and the next attempt is a conflict. *)
Lemma created_file_is_left_behind_witness :
  let date := nov 1 0 0 0 in
  let failed := archiveDocuments defaults date failingClose in
  failed.1 = Some (joinError [Errorf "failed to close file" closeError]) /\
  mock_present (fileNameOf date) (sto failed.2) /\
  (exists t', Exists (fileNameOf date) (sto failed.2) = (Ok true, t')) /\
  (forall a' (s2 : World MongoDB mockStorage),
     sto s2 = sto failed.2 ->
     ignoreFileExistsError a' = false ->
     exists s3,
       archiveDocuments a' date s2 = (Some (New "target file exists"), s3) /\
       src s3 = src s2 /\ creations (trace s3) = creations (trace s2)).
Proof.
  cbv zeta. split; [vm_compute; reflexivity|].
  eapply (created_file_is_left_behind mock_present defaults (nov 1 0 0 0) failingClose);
    [exact mockStorage_Persistent | reflexivity | reflexivity
    | apply surjective_pairing].
Defined.

End Witnesses.

(* ===================================================================== *)
(** * More on the MongoDB source *)
(* ===================================================================== *)

Section MongoFacts.

Lemma createdOn_sameDay date doc :
  createdOn (Truncate date (Hour * 24)) doc = sameDay date doc.
Proof.
  unfold createdOn, sameDay, dayOf. destruct (createdAt doc) as [c|]; [|reflexivity].
  rewrite AddDate_next, !Truncate_day. change nsPerDay with 86400000000000.
  apply eq_true_iff_eq. rewrite andb_true_iff, Z.leb_le, Z.ltb_lt, Z.eqb_eq.
  split; intros Hc; Z.div_mod_to_equations; lia.
Qed.

Lemma filter_createdOn date docs :
  List.filter (createdOn (Truncate date (Hour * 24))) docs
  = List.filter (sameDay date) docs.
Proof. apply filter_ext. intros doc. apply createdOn_sameDay. Qed.

Lemma FindAllFromDate_available date (a : MongoDB) :
  unavailable a = None ->
  MongoDB_FindAllFromDate date a =
    ({| Iter := List.map extJSON (List.filter (sameDay date) (collection a));
        sr_Err := None |}, a).
Proof.
  intros Hup. unfold MongoDB_FindAllFromDate. rewrite Hup, filter_createdOn.
  reflexivity.
Qed.

(** X1. [FindAllFromDate] yields, in the order of the collection, the
    documents whose [createdAt] lies on the UTC day of [date]: from its
    midnight on, and before the next midnight. The time of day of
    [date] does not matter. *)
Theorem FindAllFromDate_is_the_day date (a : MongoDB) :
  unavailable a = None ->
  MongoDB_FindAllFromDate date a =
    ({| Iter := List.map extJSON (List.filter (sameDay date) (collection a));
        sr_Err := None |}, a) /\
  (forall doc, sameDay date doc = true <->
     exists c, createdAt doc = Some c /\
               dayOf date <= c < dayOf date + 24 * Hour) /\
  (forall date', dayOf date' = dayOf date ->
     MongoDB_FindAllFromDate date' a = MongoDB_FindAllFromDate date a).
Proof.
  intros Hup. split; [|split].
  - apply FindAllFromDate_available. exact Hup.
  - intros doc. unfold sameDay, dayOf. destruct (createdAt doc) as [c|].
    + rewrite Z.eqb_eq, !Truncate_day. change nsPerDay with 86400000000000.
      change (24 * Hour) with 86400000000000. split.
      * intros Hc. exists c. split; [reflexivity|]. Z.div_mod_to_equations. lia.
      * intros (c' & [= <-] & Hc). Z.div_mod_to_equations. lia.
    + split; [discriminate | intros (c & [=] & _)].
  - intros date' Hday. unfold MongoDB_FindAllFromDate, dayOf in *. rewrite Hday.
    reflexivity.
Qed.

Lemma filter_filter_negb {A} (f : A -> bool) l :
  List.filter f (List.filter (fun x => negb (f x)) l) = [].
Proof.
  induction l as [|x l IH]; [reflexivity|]. cbn.
  destruct (f x) eqn:Hf; cbn; [exact IH | rewrite Hf; exact IH].
Qed.

Lemma filter_other {A} (f g : A -> bool) l :
  (forall x, g x = true -> f x = false) ->
  List.filter g (List.filter (fun x => negb (f x)) l) = List.filter g l.
Proof.
  intros Hfg. induction l as [|x l IH]; [reflexivity|]. cbn.
  destruct (f x) eqn:Hf; cbn.
  - destruct (g x) eqn:Hg; [|exact IH]. rewrite (Hfg x Hg) in Hf. discriminate.
  - rewrite IH. reflexivity.
Qed.

(** X2. [DeleteAllFromDate] on a reachable server reports as many
    documents as [FindAllFromDate] yields for that date; afterwards
    [FindAllFromDate] yields none for it, and a second deletion removes
    nothing. *)
Theorem DeleteAllFromDate_removes_the_day date (a : MongoDB) :
  unavailable a = None ->
  exists a',
    MongoDB_DeleteAllFromDate date a =
      (Ok (Z.of_nat (List.length (Iter (MongoDB_FindAllFromDate date a).1))), a') /\
    unavailable a' = None /\
    Iter (MongoDB_FindAllFromDate date a').1 = [] /\
    MongoDB_DeleteAllFromDate date a' = (Ok 0, a') /\
    (List.length (collection a') + List.length (Iter (MongoDB_FindAllFromDate date a).1)
     = List.length (collection a))%nat.
Proof.
  intros Hup. unfold MongoDB_DeleteAllFromDate, MongoDB_FindAllFromDate. rewrite Hup.
  cbn [fst Iter]. eexists. split; [rewrite length_map; reflexivity|].
  cbn [unavailable collection]. split; [reflexivity|].
  rewrite !filter_filter_negb. split; [reflexivity|]. split.
  - cbn. f_equal. f_equal. clear. induction (collection a) as [|doc l IH]; [reflexivity|].
    cbn. destruct (createdOn _ doc) eqn:Hc; cbn; [exact IH|].
    rewrite Hc. cbn. f_equal. exact IH.
  - rewrite length_map. clear. induction (collection a) as [|doc l IH]; [reflexivity|].
    cbn. destruct (createdOn _ doc); cbn; lia.
Qed.

Lemma DeleteAllFromDate_collection date (a : MongoDB) :
  unavailable a = None ->
  collection (MongoDB_DeleteAllFromDate date a).2
    = List.filter (fun doc => negb (sameDay date doc)) (collection a) /\
  unavailable (MongoDB_DeleteAllFromDate date a).2 = None.
Proof.
  intros Hup. unfold MongoDB_DeleteAllFromDate. rewrite Hup. cbn. split; [|reflexivity].
  apply filter_ext. intros doc. rewrite createdOn_sameDay. reflexivity.
Qed.

(** X3. [DeleteAllFromDate] leaves every other day as it was: what
    [FindAllFromDate] yields for a date on another UTC day is the same
    before and after, the documents kept are kept in their order, and
    documents without a [createdAt] all stay. *)
Theorem DeleteAllFromDate_keeps_other_days date date' (a : MongoDB) :
  unavailable a = None ->
  dayOf date' <> dayOf date ->
  let a' := (MongoDB_DeleteAllFromDate date a).2 in
  (MongoDB_FindAllFromDate date' a').1 = (MongoDB_FindAllFromDate date' a).1 /\
  collection a' = List.filter (fun doc => negb (sameDay date doc)) (collection a) /\
  (forall doc, In doc (collection a) -> createdAt doc = None -> In doc (collection a')).
Proof.
  intros Hup Hother a'.
  destruct (DeleteAllFromDate_collection date a Hup) as [Hcoll Hup']. fold a' in Hcoll, Hup'.
  split; [|split].
  - rewrite (FindAllFromDate_available date' a Hup).
    rewrite (FindAllFromDate_available date' a' Hup').
    cbn [fst]. rewrite Hcoll. f_equal. f_equal. apply filter_other.
    intros doc. unfold sameDay. destruct (createdAt doc) as [c|]; [|discriminate].
    rewrite !Z.eqb_eq. intros Hc. apply Z.eqb_neq. congruence.
  - exact Hcoll.
  - intros doc Hin Hnone. rewrite Hcoll. apply filter_In. split; [exact Hin|].
    unfold sameDay. rewrite Hnone. reflexivity.
Qed.

Lemma minCreatedAt_spec docs :
  match minCreatedAt docs with
  | Some t =>
      (exists doc, In doc docs /\ createdAt doc = Some t) /\
      (forall doc c, In doc docs -> createdAt doc = Some c -> t <= c)
  | None => forall doc, In doc docs -> createdAt doc = None
  end.
Proof.
  induction docs as [|d docs IH]; [intros doc []|].
  cbn [minCreatedAt]. destruct (createdAt d) as [c|] eqn:Hd;
    destruct (minCreatedAt docs) as [m|].
  - destruct IH as ((doc & Hin & Hdoc) & Hmin). split.
    + destruct (Z.min_spec c m) as [[_ ->]|[_ ->]].
      * exists d. split; [left; reflexivity | exact Hd].
      * exists doc. split; [right; exact Hin | exact Hdoc].
    + intros doc' c' [<-|Hin'] Hc'.
      * rewrite Hd in Hc'. injection Hc' as <-. lia.
      * specialize (Hmin doc' c' Hin' Hc'). lia.
  - split.
    + exists d. split; [left; reflexivity | exact Hd].
    + intros doc' c' [<-|Hin'] Hc'.
      * rewrite Hd in Hc'. injection Hc' as <-. lia.
      * rewrite (IH doc' Hin') in Hc'. discriminate.
  - destruct IH as ((doc & Hin & Hdoc) & Hmin). split.
    + exists doc. split; [right; exact Hin | exact Hdoc].
    + intros doc' c' [<-|Hin'] Hc'; [congruence | eauto].
  - intros doc' [<-|Hin']; [exact Hd | eauto].
Qed.

(** X4. On a reachable server [EarliestCreatedAt] returns the least
    [createdAt] of the collection: the date of one of its documents,
    at or before the date of every other; it fails, with
    [ErrNoDocuments], exactly when no document has a [createdAt]. *)
Theorem EarliestCreatedAt_is_the_least (a : MongoDB) :
  unavailable a = None ->
  (forall t, MongoDB_EarliestCreatedAt a = (Ok t, a) <->
     (exists doc, In doc (collection a) /\ createdAt doc = Some t) /\
     (forall doc c, In doc (collection a) -> createdAt doc = Some c -> t <= c)) /\
  (MongoDB_EarliestCreatedAt a = (Err ErrNoDocuments, a) <->
     forall doc, In doc (collection a) -> createdAt doc = None).
Proof.
  intros Hup. unfold MongoDB_EarliestCreatedAt. rewrite Hup.
  pose proof (minCreatedAt_spec (collection a)) as Hspec.
  destruct (minCreatedAt (collection a)) as [m|].
  - destruct Hspec as ((doc & Hin & Hdoc) & Hmin). split.
    + intros t. split.
      * intros [= <-]. eauto.
      * intros ((doc' & Hin' & Hdoc') & Hmin').
        specialize (Hmin doc' t Hin' Hdoc'). specialize (Hmin' doc m Hin Hdoc).
        do 2 f_equal. lia.
    + split; [discriminate|]. intros Hnone. rewrite (Hnone doc Hin) in Hdoc.
      discriminate.
  - split.
    + intros t. split; [discriminate|].
      intros ((doc & Hin & Hdoc) & _). rewrite (Hspec doc Hin) in Hdoc. discriminate.
    + split; auto.
Qed.

(** X5. Deleting the day of the earliest record makes progress: at
    least one record goes, and the collection then either has no dated
    record left or its earliest is on a later UTC day. *)
Theorem deleting_the_earliest_day_advances (a : MongoDB) earliest :
  MongoDB_EarliestCreatedAt a = (Ok earliest, a) ->
  exists n a',
    MongoDB_DeleteAllFromDate earliest a = (Ok n, a') /\
    1 <= n /\
    (MongoDB_EarliestCreatedAt a' = (Err ErrNoDocuments, a') \/
     exists next, MongoDB_EarliestCreatedAt a' = (Ok next, a') /\
                  dayOf earliest + 24 * Hour <= dayOf next).
Proof.
  intros HE. unfold MongoDB_EarliestCreatedAt in HE.
  destruct (unavailable a) eqn:Hup; [discriminate|].
  pose proof (minCreatedAt_spec (collection a)) as Hspec.
  destruct (minCreatedAt (collection a)) as [m|]; [|discriminate].
  injection HE as ->. destruct Hspec as ((doc & Hin & Hdoc) & Hmin).
  destruct (DeleteAllFromDate_collection earliest a Hup) as [Hcoll Hup'].
  unfold MongoDB_DeleteAllFromDate in *. rewrite Hup in *.
  cbn [snd collection unavailable] in Hcoll, Hup'.
  eexists. eexists. split; [reflexivity|]. split.
  - rewrite filter_createdOn.
    assert (Hd : In doc (List.filter (sameDay earliest) (collection a))).
    { apply filter_In. split; [exact Hin|]. unfold sameDay. rewrite Hdoc.
      apply Z.eqb_refl. }
    destruct (List.filter (sameDay earliest) (collection a)); [destruct Hd|].
    cbn [List.length]. lia.
  - unfold MongoDB_EarliestCreatedAt. cbn [unavailable collection]. rewrite Hcoll.
    pose proof (minCreatedAt_spec
                  (List.filter (fun doc => negb (sameDay earliest doc)) (collection a)))
      as Hspec'.
    destruct (minCreatedAt _) as [next|]; [right | left; reflexivity].
    exists next. split; [reflexivity|].
    destruct Hspec' as ((doc' & Hin' & Hdoc') & _).
    apply filter_In in Hin' as [Hin' Hnot].
    specialize (Hmin doc' next Hin' Hdoc').
    unfold sameDay in Hnot. rewrite Hdoc' in Hnot.
    apply negb_true_iff, Z.eqb_neq in Hnot. unfold dayOf in *.
    rewrite !Truncate_day in *. change nsPerDay with 86400000000000 in *.
    change (24 * Hour) with 86400000000000.
    Z.div_mod_to_equations. lia.
Qed.

End MongoFacts.

(* ===================================================================== *)
(** * The cursor behind a streaming result *)
(* ===================================================================== *)

Section CursorFacts.
Import MongoCursor.

Lemma loop_collect items : forall seen,
  exists rest,
    loop collect items seen
    = (first_failure items, bool_decide (first_failure items = None), rest,
       seen ++ docs_before_failure items).
Proof.
  induction items as [|[json|e|e] items IH]; intros seen; cbn.
  - exists []. rewrite app_nil_r. reflexivity.
  - destruct (IH (seen ++ [json])) as [rest ->]. exists rest.
    rewrite <- app_assoc. reflexivity.
  - exists items. rewrite app_nil_r. reflexivity.
  - exists items. rewrite app_nil_r. reflexivity.
Qed.

Lemma loop_collect_until stop jsons : forall json rest seen,
  Forall (fun x => stop x = false) jsons ->
  stop json = true ->
  loop (collect_until stop) (List.map Doc jsons ++ Doc json :: rest) seen
  = (None, false, rest, seen ++ jsons ++ [json]).
Proof.
  induction jsons as [|x jsons IH]; intros json rest seen Hgo Hstop; cbn.
  - rewrite Hstop. reflexivity.
  - inversion Hgo as [|? ? Hx Hrest]; subst. rewrite Hx. cbn.
    rewrite IH by assumption. rewrite <- app_assoc. reflexivity.
Qed.

Lemma docs_before_failure_Docs jsons :
  docs_before_failure (List.map Doc jsons) = jsons.
Proof. induction jsons as [|x l IH]; cbn; [|rewrite IH]; reflexivity. Qed.

Lemma first_failure_Docs jsons : first_failure (List.map Doc jsons) = None.
Proof. induction jsons as [|x l IH]; cbn; [reflexivity | exact IH]. Qed.

Lemma map_Doc (docs : list Document) :
  List.map (fun doc => Doc (extJSON doc)) docs = List.map Doc (List.map extJSON docs).
Proof. rewrite List.map_map. reflexivity. Qed.

Lemma Iter_open_collect items nextErr closeErr seen :
  exists sr',
    Iter (found (Ok (fresh_cursor items nextErr closeErr))) collect seen
    = Some (sr', seen ++ docs_before_failure items) /\
    Err sr' = match first_failure items with
              | Some e =>
                  match closeErr with
                  | Some c => Join [Some e; Some c]
                  | None => Some e
                  end
              | None =>
                  let e := match nextErr with
                           | Some n => Join [None; Some n]
                           | None => None
                           end in
                  match closeErr with
                  | Some c => Join [e; Some c]
                  | None => e
                  end
              end.
Proof.
  unfold Iter, found, fresh_cursor, Err.
  cbn [err cursor pending MongoCursor.nextErr MongoCursor.closeErr].
  destruct (loop_collect items seen) as [rest ->].
  eexists. split; [reflexivity|]. cbn [err]. unfold Cursor_Err.
  cbn [MongoCursor.nextErr].
  destruct (first_failure items), nextErr, closeErr; reflexivity.
Qed.

(** X6. Draining a streaming result whose [Find] succeeded: the consumer
    receives the documents that come before the first one that fails to
    decode or to marshal, and no other; the cursor is closed whatever
    happened; and [Err()] afterwards is nil exactly when no document
    failed, the cursor ended without an error and [Close] succeeded.
    Each of these errors, when there is one, is found in [Err()] by
    [errors.Is]. *)
Theorem Iter_drains_to_the_first_failure items nextErr closeErr seen :
  exists sr',
    Iter (found (Ok (fresh_cursor items nextErr closeErr))) collect seen
    = Some (sr', seen ++ docs_before_failure items) /\
    (closed <$> cursor sr') = Some true /\
    (Err sr' = None <->
       first_failure items = None /\ nextErr = None /\ closeErr = None) /\
    (forall e, first_failure items = Some e ->
       exists r, Err sr' = Some r /\ Is r e) /\
    (forall e, first_failure items = None -> nextErr = Some e ->
       exists r, Err sr' = Some r /\ Is r e) /\
    (forall e, closeErr = Some e -> exists r, Err sr' = Some r /\ Is r e).
Proof.
  unfold Iter, found, fresh_cursor, Err. cbn [err cursor pending MongoCursor.nextErr
    MongoCursor.closeErr].
  destruct (loop_collect items seen) as [rest ->].
  eexists. split; [reflexivity|]. cbn [err cursor closed fmap option_fmap option_map].
  split; [reflexivity|].
  unfold Cursor_Err. cbn [MongoCursor.nextErr].
  destruct (first_failure items) as [f|], nextErr as [n|], closeErr as [c|];
    cbn; (split; [split; [try discriminate; auto | try reflexivity;
                          intros (? & ? & ?); congruence] |]);
    (split; [|split]); intros e; intros; simplify_eq;
    (eexists; split; [reflexivity|]); pose proof (Is_refl e); cbn; tauto.
Qed.

(** X7. A consumer that leaves its range loop stops the iteration at
    once: it has received the documents up to the one it stopped at,
    the documents after it are not read, so that neither a failure
    among them nor the error the cursor would have ended with is
    reported; the cursor is closed all the same, and [Err()] is nil
    exactly when [Close] succeeded. *)
Theorem Iter_stops_when_told stop jsons json rest nextErr closeErr seen :
  Forall (fun x => stop x = false) jsons ->
  stop json = true ->
  exists sr',
    Iter (found (Ok (fresh_cursor (List.map Doc jsons ++ Doc json :: rest)
                       nextErr closeErr)))
      (collect_until stop) seen
    = Some (sr', seen ++ jsons ++ [json]) /\
    (pending <$> cursor sr') = Some rest /\
    (closed <$> cursor sr') = Some true /\
    Err sr' = (fun c => joinError [c]) <$> closeErr.
Proof.
  intros Hgo Hstop. unfold Iter, found, fresh_cursor, Err.
  cbn [err cursor pending MongoCursor.nextErr MongoCursor.closeErr].
  rewrite (loop_collect_until stop jsons json rest seen Hgo Hstop).
  eexists. split; [reflexivity|]. cbn [err cursor closed pending].
  split; [reflexivity|]. split; [reflexivity|].
  destruct closeErr; reflexivity.
Qed.

(** X8. The streaming result of [FindAllFromDate], drained through its
    cursor, gives the consumer the Extended JSON of the documents of
    the day, in order, and leaves nil in [Err()]; when [Find] fails it
    gives nothing, leaves the error of [Find] in [Err()], and the nil
    cursor is never used. This is the result the archiver is verified
    against. *)
Theorem FindAllFromDate_drained date (a : MongoDB) :
  exists sr',
    Iter (found (Find date a)) collect []
    = Some (sr', Source.Iter (MongoDB_FindAllFromDate date a).1) /\
    Err sr' = sr_Err (MongoDB_FindAllFromDate date a).1.
Proof.
  unfold Find, MongoDB_FindAllFromDate.
  destruct (unavailable a) as [e|].
  - eexists. split; reflexivity.
  - destruct (Iter_open_collect
                (List.map (fun doc => Doc (extJSON doc))
                   (List.filter (createdOn (Truncate date (Hour * 24))) (collection a)))
                None None []) as (sr' & -> & Herr).
    exists sr'. rewrite map_Doc, docs_before_failure_Docs, first_failure_Docs in *.
    split; [reflexivity | exact Herr].
Qed.

End CursorFacts.

(* ===================================================================== *)
(** * Deletion and the archive step *)
(* ===================================================================== *)

Section DeletionFacts.
Context {S T : Type} {Src : documentSource S} {Sto : store T} {Cod : Codec}.

Lemma event_in_app {A} (l1 l2 pre : list A) e post :
  l1 ++ l2 = pre ++ e :: post ->
  (exists m, l1 = pre ++ e :: m /\ post = m ++ l2) \/
  (exists m, pre = l1 ++ m /\ l2 = m ++ e :: post).
Proof.
  revert pre. induction l1 as [|a l1 IH]; intros pre Heq.
  - right. exists pre. auto.
  - destruct pre as [|b pre].
    + injection Heq as -> <-. left. exists l1. auto.
    + injection Heq as -> Heq. destruct (IH pre Heq) as [(m & -> & ->)|(m & -> & ->)].
      * left. exists m. auto.
      * right. exists m. auto.
Qed.

Lemma no_deletion_inside l pre d x post :
  Forall (fun e => deletion e = None) l ->
  l = pre ++ EvDeleteAllFromDate d x :: post -> False.
Proof.
  intros Hl ->. apply Forall_app in Hl as [_ Hl].
  inversion Hl as [|? ? Hd _]. discriminate.
Qed.

Lemma omap_none {A B} (f : A -> option B) l :
  Forall (fun e => f e = None) l -> omap f l = [].
Proof.
  induction 1 as [|e l He _ IH]; [reflexivity|]. cbn. rewrite He. exact IH.
Qed.

Lemma archive_events_no_deletion evs :
  Forall archive_event evs -> Forall (fun e => deletion e = None) evs.
Proof. intros Hev. eapply Forall_impl; [exact Hev | apply archive_event_no_deletion]. Qed.

Lemma archive_events_no_archiving evs :
  Forall archive_event evs -> Forall (fun e => archiving_date e = None) evs.
Proof. intros Hev. eapply Forall_impl; [exact Hev | apply archive_event_no_archiving]. Qed.

(** One Day: the archive step with its own events, then the deletion
    if the step returned nil and deletion is not skipped. *)
Lemma archiveDocumentsAndDelete_day a date (s : World S T) :
  let '(r, s1) := archiveDocumentsAndDelete a date s in
  exists rA sA evsA D,
    archiveDocuments a date s = (rA, sA) /\
    trace sA = trace s ++ evsA /\
    Forall archive_event evsA /\
    trace s1 = trace sA ++ D /\
    sto s1 = sto sA /\
    day_tail a date rA r D.
Proof.
  unfold archiveDocumentsAndDelete.
  pose proof (archiveDocuments_events a date s) as Ha.
  destruct (archiveDocuments a date s) as [rA sA].
  destruct Ha as (_ & evsA & Ht & Hev).
  destruct rA as [e|].
  - exists (Some e), sA, evsA, []. rewrite app_nil_r. cbn. auto 10.
  - unfold day_tail. destruct (skipDelete a); cbn [negb].
    + exists None, sA, evsA, []. rewrite app_nil_r. auto 10.
    + unfold source_DeleteAllFromDate, slog.
      destruct (DeleteAllFromDate date (src sA)) as [[n|e] x]; cbn [src sto trace emit].
      * exists None, sA, evsA. eexists. rewrite <- app_assoc.
        split; [reflexivity|]. split; [exact Ht|]. split; [exact Hev|].
        split; [reflexivity|]. split; [reflexivity|]. left. exists n. auto.
      * exists None, sA, evsA. eexists.
        split; [reflexivity|]. split; [exact Ht|]. split; [exact Hev|].
        split; [reflexivity|]. split; [reflexivity|]. right. exists e. auto.
Qed.

Lemma justified_app a tr l :
  justified (S:=S) (T:=T) a tr -> Forall (fun e => deletion e = None) l ->
  justified (S:=S) (T:=T) a (tr ++ l).
Proof.
  intros Htr Hl pre d x post Heq.
  apply event_in_app in Heq as [(m & Hm & _)|(m & _ & Hm)].
  - apply (Htr _ _ _ _ Hm).
  - exfalso. apply (no_deletion_inside _ _ _ _ _ Hl Hm).
Qed.

Lemma justified_deletion a d x (s1 s2 : World S T) pre1 :
  justified (S:=S) (T:=T) a (trace s2) ->
  skipDelete a = false ->
  archiveDocuments a d s1 = (None, s2) ->
  trace s1 = pre1 ++ [EvLog LevelInfo "archiving" [("date", Time_ d)]] ->
  justified (S:=S) (T:=T) a (trace s2 ++ [EvDeleteAllFromDate d x]).
Proof.
  intros Htr Hdel HA Hs1 pre d' x' post Heq.
  apply event_in_app in Heq as [(m & Hm & _)|(m & -> & Hm)].
  - apply (Htr _ _ _ _ Hm).
  - destruct m as [|e m].
    + injection Hm as <- <- _. rewrite app_nil_r. split; [exact Hdel|].
      exists s1, s2. split; [exact HA|]. split; [exists pre1; exact Hs1 | reflexivity].
    + injection Hm as _ Hm. destruct m; discriminate.
Qed.

Lemma Run_loop_justified fuel : forall a ctx target date total (s : World S T) r s',
  Run_loop fuel a ctx target date total s = Some (r, s') ->
  justified (S:=S) (T:=T) a (trace s) ->
  justified (S:=S) (T:=T) a (trace s').
Proof.
  induction fuel as [|fuel IH]; intros a ctx target date total s r s' Hrun Hj;
    [discriminate|].
  cbn [Run_loop] in Hrun. destruct (Before date target).
  - unfold slog in Hrun.
    set (s0 := emit (EvLog LevelInfo "archiving" [("date", Time_ date)]) s) in *.
    pose proof (archiveDocumentsAndDelete_day a date s0) as Hday.
    destruct (archiveDocumentsAndDelete a date s0) as [r1 s1].
    destruct Hday as (rA & sA & evsA & D & HA & HtA & Hev & Ht1 & _ & Htail).
    apply archive_events_no_deletion in Hev.
    assert (HjA : justified (S:=S) (T:=T) a (trace sA)).
    { rewrite HtA. apply justified_app; [|exact Hev].
      apply justified_app; [exact Hj | repeat constructor]. }
    assert (Hj1 : justified (S:=S) (T:=T) a (trace s1)).
    { rewrite Ht1. unfold day_tail in Htail. destruct rA as [e|].
      - destruct Htail as [_ ->]. rewrite app_nil_r. exact HjA.
      - destruct (skipDelete a) eqn:Hskip.
        + destruct Htail as [_ ->]. rewrite app_nil_r. exact HjA.
        + destruct Htail as [(n & _ & ->)|(e & _ & ->)].
          * change [EvDeleteAllFromDate date (Ok n);
                    EvLog LevelInfo "documents deleted" [("total", Int_ n)]]
              with ([EvDeleteAllFromDate date (Ok n)] ++
                    [EvLog LevelInfo "documents deleted" [("total", Int_ n)]]).
            rewrite app_assoc. apply justified_app; [|repeat constructor].
            apply (justified_deletion a date (Ok n) s0 sA (trace s)); auto.
          * apply (justified_deletion a date (Err e) s0 sA (trace s)); auto. }
    destruct r1 as [e|]; [injection Hrun as <- <-; exact Hj1|].
    destruct (Done ctx date).
    + injection Hrun as <- <-. cbn [trace emit].
      apply justified_app; [exact Hj1 | repeat constructor].
    + apply IH in Hrun; [exact Hrun|]. cbn [trace emit].
      apply justified_app; [exact Hj1 | repeat constructor].
  - injection Hrun as <- <-. unfold slog. cbn [trace emit].
    apply justified_app; [exact Hj | repeat constructor].
Qed.

Lemma justified_no_deletions a tr :
  deletions tr = [] -> justified (S:=S) (T:=T) a tr.
Proof.
  intros Hd pre d x post ->. unfold deletions in Hd. rewrite omap_app in Hd.
  cbn in Hd. destruct (omap deletion pre); discriminate.
Qed.

(** X9. No deletion without an archive: in the trace of a run, every
    deletion asked of the source comes right after an archive step of
    the same Day that returned nil, in a run that does not skip
    deletion; nothing happens between the return of that step and the
    deletion. Under the default conflict policy, in a store that keeps
    what it creates, the Day's archive path is in the store at that
    moment. *)
Theorem deletion_follows_the_archive fuel a ctx target (s : World S T) r s'
    pre d x post :
  deletions (trace s) = [] ->
  Run fuel a ctx target s = Some (r, s') ->
  trace s' = pre ++ EvDeleteAllFromDate d x :: post ->
  skipDelete a = false /\
  exists s1 s2 : World S T,
    archiveDocuments a d s1 = (None, s2) /\
    (exists pre1,
       trace s1 = pre1 ++ [EvLog LevelInfo "archiving" [("date", Time_ d)]]) /\
    trace s2 = pre /\
    (forall present : string -> T -> Prop,
       Persistent present -> ignoreFileExistsError a = false ->
       present (fileNameOf d) (sto s2)).
Proof.
  intros Hnone Hrun Ht.
  assert (Hj : justified (S:=S) (T:=T) a (trace s')).
  { unfold Run, source_EarliestCreatedAt in Hrun.
    destruct (EarliestCreatedAt (src s)) as [[earliest|e] x0].
    - apply Run_loop_justified in Hrun; [exact Hrun|]. unfold slog. cbn [trace emit].
      apply justified_app; [|repeat constructor].
      apply justified_app; [|repeat constructor].
      apply justified_no_deletions. exact Hnone.
    - injection Hrun as <- <-. cbn [trace emit].
      apply justified_app; [|repeat constructor].
      apply justified_no_deletions. exact Hnone. }
  destruct (Hj _ _ _ _ Ht) as (Hdel & s1 & s2 & HA & Hs1 & Hs2).
  split; [exact Hdel|]. exists s1, s2. split; [exact HA|].
  split; [exact Hs1|]. split; [exact Hs2|].
  intros present Hpers Hdefault.
  apply (archived_present present a d s1 s2 Hdefault HA).
Qed.

End DeletionFacts.

Section DeletedDays.
Context {S T : Type} {Src : documentSource S} {Sto : store T} {Cod : Codec}.

(** The deletions of the loop follow its Days. *)
Lemma Run_loop_deleted fuel : forall a ctx target date total (s : World S T) r s',
  Run_loop fuel a ctx target date total s = Some (r, s') ->
  exists l ds,
    days_archived (trace s') = days_archived (trace s) ++ l /\
    deletions (trace s') = deletions (trace s) ++ ds /\
    ds.*1 `prefix_of` l /\
    (skipDelete a = false -> r = None ->
     ds.*1 = l /\ Forall (fun dr => exists n, dr.2 = Ok n) ds) /\
    (forall d e, In (d, Err e) ds ->
       r = Some (Errorf "archival failed" (Errorf "failed to delete documents" e)) /\
       exists ds0, ds = ds0 ++ [(d, Err e)]).
Proof.
  induction fuel as [|fuel IH]; intros a ctx target date total s r s' Hrun;
    [discriminate|].
  cbn [Run_loop] in Hrun. destruct (Before date target).
  - unfold slog in Hrun.
    set (s0 := emit (EvLog LevelInfo "archiving" [("date", Time_ date)]) s) in *.
    pose proof (archiveDocumentsAndDelete_day a date s0) as Hday.
    destruct (archiveDocumentsAndDelete a date s0) as [r1 s1].
    destruct Hday as (rA & sA & evsA & D & _ & HtA & Hev & Ht1 & _ & Htail).
    pose proof (omap_none _ _ (archive_events_no_deletion _ Hev)) as HdA.
    pose proof (omap_none _ _ (archive_events_no_archiving _ Hev)) as HaA.
    assert (Hdays : days_archived (trace s1) = days_archived (trace s) ++ [date]
                    /\ deletions (trace s1) = deletions (trace s) ++ deletions D).
    { rewrite Ht1, HtA. subst s0. cbn [trace emit]. unfold days_archived, deletions.
      rewrite !omap_app, HdA, HaA. cbn. rewrite !app_nil_r.
      split; [|reflexivity].
      replace (omap archiving_date D) with (@nil Time); [rewrite app_nil_r; reflexivity|].
      unfold day_tail in Htail. destruct rA; [destruct Htail as [_ ->]; reflexivity|].
      destruct (skipDelete a); [destruct Htail as [_ ->]; reflexivity|].
      destruct Htail as [(n & _ & ->)|(e & _ & ->)]; reflexivity. }
    destruct Hdays as [Hdays Hdels].
    assert (Hsel : forall b, days_archived (trace (emit (EvSelect date b) s1))
                             = days_archived (trace s) ++ [date]
                             /\ deletions (trace (emit (EvSelect date b) s1))
                                = deletions (trace s) ++ deletions D).
    { intros b. cbn [trace emit]. unfold days_archived, deletions in *.
      rewrite !omap_app, Hdays, Hdels. cbn. rewrite !app_nil_r. auto. }
    unfold day_tail in Htail.
    destruct r1 as [e1|].
    + (* the Day failed *)
      injection Hrun as <- <-. exists [date], (deletions D).
      split; [exact Hdays|]. split; [exact Hdels|].
      destruct rA as [e|]; [destruct Htail as [_ ->]|].
      { cbn. split; [apply prefix_nil|]. split; [discriminate|]. intros ? ? []. }
      destruct (skipDelete a); [destruct Htail as [[=] _]|].
      destruct Htail as [(n & [=] & _)|(e & [= ->] & ->)]. cbn.
      split; [reflexivity|]. split; [discriminate|].
      intros d e' [[= <- <-]|[]]. split; [reflexivity|]. exists []. reflexivity.
    + assert (HD : deletions D = [] /\ skipDelete a = true \/
                   exists n, deletions D = [(date, Ok n)] /\ skipDelete a = false).
      { destruct rA as [e|]; [destruct Htail as [[=] _]|].
        destruct (skipDelete a); [destruct Htail as [_ ->]; left; auto|].
        destruct Htail as [(n & _ & ->)|(e & [=] & _)]. right. exists n. auto. }
      destruct (Done ctx date).
      * (* cancelled after the Day *)
        injection Hrun as <- <-. destruct (Hsel true) as [-> ->].
        exists [date], (deletions D). split; [reflexivity|]. split; [reflexivity|].
        destruct HD as [[-> _]|(n & -> & _)]; cbn.
        -- split; [apply prefix_nil|]. split; [discriminate|]. intros ? ? [].
        -- split; [reflexivity|]. split; [discriminate|].
           intros d e [[=]|[]].
      * pose proof (IH _ _ _ _ _ _ _ _ Hrun) as (l & ds & Hl & Hds & Hpre & Hall & Hfail).
        destruct (Hsel false) as [Ha Hd]. rewrite Ha in Hl. rewrite Hd in Hds.
        exists (date :: l), (deletions D ++ ds).
        rewrite Hl, Hds, <- !app_assoc. split; [reflexivity|]. split; [reflexivity|].
        destruct HD as [[-> Hskip]|(n & -> & Hskip)]; cbn.
        -- assert (Hno : ds = []).
           { destruct (Run_loop_skipDelete _ _ _ _ _ _ _ _ _ Hskip Hrun) as [Hsame _].
             rewrite Hds, Hd in Hsame.
             apply (f_equal (@List.length _)) in Hsame.
             rewrite !length_app in Hsame. destruct ds; [reflexivity|].
             cbn in Hsame. lia. }
           subst ds. cbn. split; [apply prefix_nil|]. split; [congruence|].
           intros ? ? [].
        -- split; [apply prefix_cons; exact Hpre|]. split.
           ++ intros Hdel Hr. destruct (Hall Hdel Hr) as [-> Hok].
              split; [reflexivity|]. constructor; [exists n; reflexivity | exact Hok].
           ++ intros d e [[=]|Hin]. destruct (Hfail d e Hin) as [-> (ds0 & ->)].
              split; [reflexivity|]. exists ((date, Ok n) :: ds0). reflexivity.
  - injection Hrun as <- <-. exists [], []. unfold slog. cbn [trace emit].
    unfold days_archived, deletions. rewrite !omap_app. cbn. rewrite !app_nil_r.
    split; [reflexivity|]. split; [reflexivity|]. split; [reflexivity|].
    split; [auto|]. intros ? ? [].
Qed.

(** X10. The Days deleted in a run are Days the run archived, in the
    same order, with none left out in between; a run that does not
    skip deletion and succeeds has deleted every Day it archived, each
    deletion having succeeded; and a deletion that fails is the last
    one: the run stops there with that error, wrapped as the failure
    of the deletion. *)
Theorem deleted_days_follow_archived_days fuel a ctx target (s : World S T) r s' :
  Run fuel a ctx target s = Some (r, s') ->
  exists l ds,
    days_archived (trace s') = days_archived (trace s) ++ l /\
    deletions (trace s') = deletions (trace s) ++ ds /\
    ds.*1 `prefix_of` l /\
    (skipDelete a = false -> r = None ->
     ds.*1 = l /\ Forall (fun dr => exists n, dr.2 = Ok n) ds) /\
    (forall d e, In (d, Err e) ds ->
       r = Some (Errorf "archival failed" (Errorf "failed to delete documents" e)) /\
       exists ds0, ds = ds0 ++ [(d, Err e)]).
Proof.
  intros Hrun. unfold Run, source_EarliestCreatedAt in Hrun.
  destruct (EarliestCreatedAt (src s)) as [[earliest|e] x].
  - apply Run_loop_deleted in Hrun as (l & ds & Hl & Hds & Hrest).
    exists l, ds. unfold slog in Hl, Hds. cbn [trace emit] in Hl, Hds.
    unfold days_archived, deletions in *.
    rewrite !omap_app in Hl. rewrite !omap_app in Hds.
    cbn in Hl, Hds. rewrite !app_nil_r in Hl, Hds. auto.
  - injection Hrun as <- <-. exists [], []. cbn [trace emit].
    unfold days_archived, deletions. rewrite !omap_app. cbn. rewrite !app_nil_r.
    split; [reflexivity|]. split; [reflexivity|]. split; [reflexivity|].
    split; [auto|]. intros ? ? [].
Qed.

Lemma int_incr_wrap z : int_incr (int_wrap z) = int_wrap (z + 1).
Proof.
  unfold int_incr, int_wrap. f_equal.
  replace ((z + 2 ^ 63) mod 2 ^ 64 - 2 ^ 63 + 1 + 2 ^ 63)
    with ((z + 2 ^ 63) mod 2 ^ 64 + 1) by lia.
  rewrite Zplus_mod_idemp_l. f_equal. lia.
Qed.

Lemma counted_wrap n : forall i, counted n (int_wrap i) = int_wrap (i + Z.of_nat n).
Proof.
  induction n as [|n IH]; intros i.
  - cbn. f_equal. lia.
  - cbn [counted]. rewrite int_incr_wrap, IH. f_equal. lia.
Qed.

Lemma int_wrap_small z : - 2 ^ 63 <= z < 2 ^ 63 -> int_wrap z = z.
Proof. intros Hz. unfold int_wrap. rewrite Z.mod_small; lia. Qed.

Lemma counted_small n : Z.of_nat n < 2 ^ 63 -> counted n 0 = Z.of_nat n.
Proof.
  intros Hn. rewrite <- (int_wrap_small 0) at 1 by lia.
  rewrite counted_wrap. apply int_wrap_small. lia.
Qed.

(** The loop, when it succeeds, ends with the count of its Days. *)
Lemma Run_loop_target_reached fuel : forall a ctx target date total (s : World S T) s',
  Run_loop fuel a ctx target date total s = Some (None, s') ->
  exists evs,
    trace s' = trace s ++ evs ++
      [target_reached (counted (List.length (days_archived evs)) total)].
Proof.
  induction fuel as [|fuel IH]; intros a ctx target date total s s' Hrun;
    [discriminate|].
  cbn [Run_loop] in Hrun. destruct (Before date target).
  - unfold slog in Hrun.
    set (s0 := emit (EvLog LevelInfo "archiving" [("date", Time_ date)]) s) in *.
    pose proof (archiveDocumentsAndDelete_events a date s0) as Hstep.
    destruct (archiveDocumentsAndDelete a date s0) as [[e|] s1]; [discriminate|].
    destruct Hstep as (evs1 & Ht1 & Hna & _).
    destruct (Done ctx date); [discriminate|].
    apply IH in Hrun as (evs & Hevs). cbn [trace emit] in Hevs.
    exists ([EvLog LevelInfo "archiving" [("date", Time_ date)]] ++ evs1
            ++ [EvSelect date false] ++ evs).
    rewrite Hevs, Ht1. subst s0. cbn [trace emit]. rewrite <- !app_assoc.
    do 4 f_equal. unfold days_archived. rewrite !omap_app, (omap_none _ _ Hna).
    reflexivity.
  - injection Hrun as <-. exists []. reflexivity.
Qed.

(** X11. A run that succeeds ends by reporting, as [datesArchived],
    the number of Days it archived: the last event of its trace is the
    ["target reached"] record, and its count is the number of
    ["archiving"] records of the run (as a Go [int], so below 2^63
    the number itself). *)
Theorem success_reports_the_days_archived fuel a ctx target (s : World S T) s' :
  Run fuel a ctx target s = Some (None, s') ->
  exists evs,
    trace s' = trace s ++ evs ++
      [target_reached (counted (List.length (days_archived evs)) 0)] /\
    (Z.of_nat (List.length (days_archived evs)) < 2 ^ 63 ->
     counted (List.length (days_archived evs)) 0
     = Z.of_nat (List.length (days_archived evs))).
Proof.
  intros Hrun. unfold Run, source_EarliestCreatedAt in Hrun.
  destruct (EarliestCreatedAt (src s)) as [[earliest|e] x]; [|discriminate].
  apply Run_loop_target_reached in Hrun as (evs & Hevs).
  unfold slog in Hevs. cbn [trace emit] in Hevs.
  exists ([EvEarliestCreatedAt (Ok earliest);
           EvLog LevelInfo "archiver running"
             [("target", Time_ target); ("earliest", Time_ earliest)]] ++ evs).
  split; [|apply counted_small].
  rewrite Hevs, <- !app_assoc. reflexivity.
Qed.

End DeletedDays.

(* ===================================================================== *)
(** * Failures of the store; the collection after a run *)
(* ===================================================================== *)

Section StoreFailure.
Context {S T : Type} {Src : documentSource S} {Sto : store T} {Cod : Codec}.

(** X12. When the existence check of a Day fails, or when it answers
    that the path is free and [Create] then fails, the run stops at
    that Day with the error of the store inside its own (the failed
    check is named, the failed [Create] is passed on as it is). The
    source has not been asked for the Day's records, nothing was
    written or closed, and nothing is deleted. *)
Theorem store_failure_stops_the_run fuel a ctx target date total (s : World S T) e t1 :
  Before date target = true ->
  Exists (fileNameOf date) (sto s) = (Err e, t1) \/
  (exists t0, Exists (fileNameOf date) (sto s) = (Ok false, t0) /\
              Create (fileNameOf date) t0 = (Err e, t1)) ->
  exists r s' evs,
    Run_loop (Datatypes.S fuel) a ctx target date total s = Some (Some r, s') /\
    r = Errorf "archival failed"
          (Errorf "failed to archive documents"
             match Exists (fileNameOf date) (sto s) with
             | (Err _, _) => Errorf "failed to check if file exists" e
             | _ => e
             end) /\
    Is r e /\
    src s' = src s /\ sto s' = t1 /\
    trace s' = trace s ++ evs /\
    Forall (fun ev => ~ stream_event ev /\ ~ is_close ev /\ deletion ev = None) evs.
Proof.
  intros Hb [HE|(t0 & HE & HC)]; cbn [Run_loop]; rewrite Hb;
    unfold archiveDocumentsAndDelete, archiveDocuments, store_Exists, slog;
    cbn [src sto trace emit]; rewrite HE; cbv beta iota zeta.
  - do 3 eexists. split; [reflexivity|]. cbn [src sto trace emit].
    split; [reflexivity|]. split; [pose proof (Is_refl e); cbn; tauto|].
    split; [reflexivity|]. split; [reflexivity|].
    rewrite <- !app_assoc. split; [reflexivity|].
    repeat constructor; cbn; try tauto; discriminate.
  - unfold store_Create. cbn [src sto trace emit]. rewrite HC.
    do 3 eexists. split; [reflexivity|]. cbn [src sto trace emit].
    split; [reflexivity|]. split; [pose proof (Is_refl e); cbn; tauto|].
    split; [reflexivity|]. split; [reflexivity|].
    rewrite <- !app_assoc. split; [reflexivity|].
    repeat constructor; cbn; try tauto; discriminate.
Qed.

End StoreFailure.

Section MongoRun.
Context {T : Type} {Sto : store T} {Cod : Codec}.

Lemma filter_all {A} (f : A -> bool) l :
  (forall x, In x l -> f x = true) -> List.filter f l = l.
Proof.
  induction l as [|x l IH]; intros Hall; [reflexivity|]. cbn.
  rewrite (Hall x (or_introl eq_refl)), IH; [reflexivity|].
  intros y Hy. apply Hall. now right.
Qed.

Lemma filter_filter {A} (f g : A -> bool) l :
  List.filter f (List.filter g l) = List.filter (fun x => g x && f x) l.
Proof.
  induction l as [|x l IH]; [reflexivity|]. cbn.
  destruct (g x); cbn; [destruct (f x)|]; rewrite IH; reflexivity.
Qed.

(** A Day that succeeds with deletion: the server was reachable and the
    documents of the Day are gone. *)
Lemma archiveDocumentsAndDelete_mongo a date (s s1 : World MongoDB T) :
  skipDelete a = false ->
  archiveDocumentsAndDelete a date s = (None, s1) ->
  unavailable (src s) = None /\
  unavailable (src s1) = None /\
  collection (src s1)
  = List.filter (fun doc => negb (sameDay date doc)) (collection (src s)).
Proof.
  intros Hdel Hrun. unfold archiveDocumentsAndDelete in Hrun.
  pose proof (archiveDocuments_events a date s) as Ha.
  destruct (archiveDocuments a date s) as [[e|] sA]; [discriminate|].
  destruct Ha as (Hsrc & _). rewrite Hdel in Hrun. cbn [negb] in Hrun.
  assert (HsA : src sA = src s).
  { destruct Hsrc as [->| ->]; [reflexivity|].
    apply MongoDB_FindAllFromDate_state. }
  unfold source_DeleteAllFromDate in Hrun. rewrite HsA in Hrun.
  cbn [DeleteAllFromDate MongoDB_documentSource] in Hrun.
  destruct (unavailable (src s)) as [e|] eqn:Hup.
  { unfold MongoDB_DeleteAllFromDate in Hrun. rewrite Hup in Hrun. discriminate. }
  destruct (DeleteAllFromDate_collection date (src s) Hup) as [Hcol Hup'].
  destruct (MongoDB_DeleteAllFromDate date (src s)) as [[n|e] x]; [|discriminate].
  injection Hrun as <-. cbn [src emit slog] in *. auto.
Qed.

Lemma Run_loop_mongo fuel : forall a ctx target date total (s s' : World MongoDB T),
  skipDelete a = false ->
  date mod nsPerDay = 0 ->
  Run_loop fuel a ctx target date total s = Some (None, s') ->
  collection (src s')
  = List.filter (fun doc => negb (between date target doc)) (collection (src s)).
Proof.
  induction fuel as [|fuel IH]; intros a ctx target date total s s' Hdel Hmid Hrun;
    [discriminate|].
  cbn [Run_loop] in Hrun. destruct (Before date target) eqn:Hb.
  - unfold slog in Hrun.
    set (s0 := emit (EvLog LevelInfo "archiving" [("date", Time_ date)]) s) in *.
    destruct (archiveDocumentsAndDelete a date s0) as [[e|] s1] eqn:Hstep;
      [discriminate|].
    destruct (archiveDocumentsAndDelete_mongo a date s0 s1 Hdel Hstep) as (_ & _ & Hcol).
    destruct (Done ctx date); [discriminate|].
    apply IH in Hrun; [|exact Hdel|].
    + cbn [src emit] in Hrun. rewrite Hrun, Hcol. subst s0. cbn [src emit].
      rewrite filter_filter. apply filter_ext. intros doc.
      unfold between, sameDay, dayOf. destruct (createdAt doc) as [c|]; [|reflexivity].
      rewrite AddDate_next, !Truncate_day. unfold Before in Hb.
      apply Z.ltb_lt in Hb. revert Hmid Hb. change nsPerDay with 86400000000000.
      intros Hmid Hb. apply eq_true_iff_eq.
      rewrite andb_true_iff, !negb_true_iff, !andb_false_iff, Z.eqb_neq,
        !Z.leb_gt, !Z.ltb_ge.
      split; intros Hc; Z.div_mod_to_equations; lia.
    + rewrite AddDate_next. revert Hmid. change nsPerDay with 86400000000000.
      intros Hmid. Z.div_mod_to_equations. lia.
  - injection Hrun as <-. unfold slog. cbn [src emit]. symmetry.
    apply filter_all. intros doc _. unfold between, dayOf.
    destruct (createdAt doc) as [c|]; [|reflexivity].
    rewrite Truncate_day. unfold Before in Hb. apply Z.ltb_ge in Hb.
    revert Hmid Hb. change nsPerDay with 86400000000000. intros Hmid Hb.
    rewrite negb_true_iff, andb_false_iff, Z.leb_gt, Z.ltb_ge.
    Z.div_mod_to_equations. lia.
Qed.

(** The collection after a run that deleted and succeeded. *)
Lemma Run_mongo_collection fuel a ctx target (s s' : World MongoDB T) :
  skipDelete a = false ->
  Run fuel a ctx target s = Some (None, s') ->
  collection (src s')
  = List.filter (fun doc => negb (due target doc)) (collection (src s)).
Proof.
  intros Hdel Hrun.
  unfold Run, source_EarliestCreatedAt in Hrun.
  cbn [EarliestCreatedAt MongoDB_documentSource] in Hrun.
  pose proof (MongoDB_EarliestCreatedAt_state (src s)) as Hst.
  destruct (MongoDB_EarliestCreatedAt (src s)) as [[earliest|e] x] eqn:HE;
    [|discriminate].
  cbn in Hst. subst x.
  apply Run_loop_mongo in Hrun; [|exact Hdel | apply Truncate_day_midnight].
  unfold slog in Hrun. cbn [src emit] in Hrun. rewrite Hrun.
  apply filter_ext_in. intros doc Hin. unfold between, due.
  destruct (createdAt doc) as [c|] eqn:Hc; [|reflexivity].
  assert (Hle : earliest <= c).
  { unfold MongoDB_EarliestCreatedAt in HE.
    destruct (unavailable (src s)); [discriminate|].
    pose proof (minCreatedAt_spec (collection (src s))) as Hmin.
    destruct (minCreatedAt (collection (src s))) as [m|]; [|discriminate].
    injection HE as ->. destruct Hmin as [_ Hmin]. apply (Hmin doc c Hin Hc). }
  pose proof (Truncate_day_le earliest) as Htr.
  replace (Truncate earliest (Hour * 24) <=? c) with true
    by (symmetry; apply Z.leb_le; lia).
  reflexivity.
Qed.

(** X13. A run over the MongoDB source that does not skip deletion and
    succeeds has removed from the collection exactly the documents
    whose [createdAt] lies on a UTC day that starts before the cutoff.
    The other documents, those of later days and those without a
    [createdAt], are kept in their order; whatever the store is. *)
Theorem successful_run_deletes_the_days_before_the_cutoff fuel a ctx target
    (s s' : World MongoDB T) :
  skipDelete a = false ->
  Run fuel a ctx target s = Some (None, s') ->
  collection (src s')
  = List.filter (fun doc => negb (due target doc)) (collection (src s)) /\
  (forall doc, In doc (collection (src s')) <->
     In doc (collection (src s)) /\
     forall c, createdAt doc = Some c -> target <= dayOf c).
Proof.
  intros Hdel Hrun.
  pose proof (Run_mongo_collection fuel a ctx target s s' Hdel Hrun) as Hcol.
  split; [exact Hcol|]. intros doc. rewrite Hcol, filter_In. unfold due.
  split.
  - intros [Hin Hdue]. split; [exact Hin|]. intros c Hc. rewrite Hc in Hdue.
    apply negb_true_iff, Z.ltb_ge in Hdue. exact Hdue.
  - intros [Hin Hdue]. split; [exact Hin|]. destruct (createdAt doc) as [c|];
      [|reflexivity]. apply negb_true_iff, Z.ltb_ge. apply Hdue. reflexivity.
Qed.

End MongoRun.

(* ===================================================================== *)
(** * The stream's terminal error; the store that discards *)
(* ===================================================================== *)

Section Reliable.
Context {S T : Type} {Src : documentSource S} {Sto : store T} {Cod : Codec}.

Lemma writeChunks_reliable (w : WriteCloser T) chunks :
  reliable w -> forall s : World S T, (writeChunks (sink w) chunks s).1 = None.
Proof.
  intros [Hw _]. induction chunks as [|c rest IH]; intros s; [reflexivity|].
  cbn [writeChunks]. cbn [Write sink]. specialize (Hw c (sto s)).
  destruct (Write w c (sto s)) as [e t]. cbn in Hw. subst e. apply IH.
Qed.

Lemma is_write_not_written evs :
  Forall is_write evs -> omap written evs = [].
Proof.
  intros Hw. apply omap_none. eapply Forall_impl; [exact Hw|].
  intros [] Hev; cbn in Hev; try contradiction; reflexivity.
Qed.

Lemma writeDocuments_reliable (w : WriteCloser T) docs :
  reliable w -> forall i gw (s : World S T),
  fresh w gw ->
  exists gw' s',
    writeDocuments docs i gw s = (None, counted (List.length docs) i, gw', s') /\
    wrote w None s s' /\ fresh w gw'.
Proof.
  intros Hrel. induction docs as [|doc rest IH]; intros i gw s Hfresh.
  - exists gw, s. split; [reflexivity|]. split; [apply wrote_nothing | exact Hfresh].
  - cbn [writeDocuments List.length counted]. unfold io_Copy.
    pose proof (Writer_Write_sink w gw (doc ++ [newline]) s Hfresh) as Hstep.
    assert (Hnone : (Writer_Write gw (doc ++ [newline]) s).1.1 = None).
    { destruct Hfresh as (Hw & Herr & _). unfold Writer_Write. rewrite Herr, Hw.
      destruct (enc_write (gw_z gw) (doc ++ [newline])) as [z chunks].
      pose proof (writeChunks_reliable w chunks Hrel s) as Hc.
      destruct (writeChunks (sink w) chunks s) as [e s1]. exact Hc. }
    destruct (Writer_Write gw (doc ++ [newline]) s) as [[r gw1] s1].
    cbn in Hnone. subst r. destruct Hstep as (Hwrote & Hw1 & Herr1 & Hcl1).
    destruct (IH (int_incr i) gw1 s1 (conj Hw1 (conj Herr1 Hcl1)))
      as (gw' & s' & -> & Hwrote' & Hfresh').
    exists gw', s'. split; [reflexivity|]. split; [|exact Hfresh'].
    eapply wrote_then; eassumption.
Qed.

(** The archive step on a free path of a store whose sink does not
    fail. *)
Lemma archiveDocuments_reliable a date (s : World S T) t1 w t2 res x :
  Exists (fileNameOf date) (sto s) = (Ok false, t1) ->
  Create (fileNameOf date) t1 = (Ok w, t2) ->
  reliable w ->
  FindAllFromDate date (src s) = (res, x) ->
  exists (s' : World S T) evs,
    archiveDocuments a date s = (sr_Err res, s') /\
    src s' = x /\
    trace s' = trace s ++ evs /\
    creations evs = [fileNameOf date] /\
    documents_written evs
    = match sr_Err res with
      | None => [counted (List.length (Iter res)) 0]
      | Some _ => []
      end.
Proof.
  intros HE HC Hrel HF. unfold archiveDocuments, store_Exists. rewrite HE.
  cbv beta iota zeta. unfold store_Create, slog. cbn [sto src trace emit].
  rewrite HC. cbv beta iota zeta.
  destruct (NewWriterLevel_default (S:=S) w) as (gw & -> & Hfresh).
  set (s0 := emit (EvCreate _ None) _).
  unfold archiveDocuments_body, source_FindAllFromDate.
  assert (HF0 : FindAllFromDate date (src s0) = (res, x)) by exact HF.
  rewrite HF0. cbv beta iota zeta.
  set (s1 := emit (EvFindAllFromDate date) _).
  destruct (writeDocuments_reliable w (Iter res) Hrel 0 gw s1 Hfresh)
    as (gw1 & s2 & -> & [Hsrc2 _ (evs2 & Ht2 & Hw2 & _)] & Hfresh1).
  cbv beta iota zeta.
  set (s3 := emit (EvErr (sr_Err res)) s2).
  assert (Hclose : forall (s4 : World S T) r,
    src s4 = x ->
    exists (s5 : World S T) evs5,
      (let '(err, s) := defer_gzip_Close gw1 r s4 in defer_file_Close (sink w) err s)
      = (r, s5) /\
      src s5 = x /\ trace s5 = trace s4 ++ evs5 ++ closes None None /\
      Forall is_write evs5).
  { intros s4 r Hs4. unfold defer_gzip_Close, gzip_Close, Writer_Close.
    destruct Hfresh1 as (Hw1 & Herr1 & Hcl1). rewrite Herr1, Hcl1, Hw1.
    pose proof (writeChunks_reliable w (enc_close (gw_z gw1)) Hrel s4) as Hnone.
    pose proof (writeChunks_sink w (enc_close (gw_z gw1)) s4) as Hc.
    destruct (writeChunks (sink w) (enc_close (gw_z gw1)) s4) as [e s5].
    cbn in Hnone. subst e. destruct Hc as [Hsrc5 _ (evs5 & Ht5 & Hw5 & _)].
    cbv beta iota zeta. unfold defer_file_Close. cbn [Close sink].
    cbn [src sto trace emit].
    destruct Hrel as [_ Hcl]. specialize (Hcl (sto s5)).
    destruct (Close w (sto s5)) as [e t]. cbn in Hcl. subst e.
    eexists. exists evs5. split; [reflexivity|]. cbn [src sto trace emit].
    split; [congruence|]. split; [|exact Hw5].
    rewrite Ht5, <- !app_assoc. reflexivity. }
  assert (Hs3 : src s3 = x) by (subst s3 s1; cbn [src emit] in *; congruence).
  assert (Ht3 : trace s3 = trace s ++
            [EvExists (fileNameOf date) (Ok false);
             EvLog LevelInfo "writing to file" [("fileName", String_ (fileNameOf date))];
             EvCreate (fileNameOf date) None; EvFindAllFromDate date]
            ++ evs2 ++ [EvErr (sr_Err res)]).
  { subst s3. cbn [trace emit]. rewrite Ht2. subst s1 s0. cbn [trace emit].
    rewrite <- !app_assoc. reflexivity. }
  destruct (sr_Err res) as [e|] eqn:Herr.
  - destruct (Hclose s3 (Some e) Hs3) as (s5 & evs5 & -> & Hs5 & Ht5 & Hw5).
    exists s5. eexists. split; [reflexivity|]. split; [exact Hs5|].
    rewrite Ht5, Ht3, <- !app_assoc. split; [reflexivity|].
    unfold creations, documents_written. rewrite !omap_app.
    rewrite (is_write_not_written _ Hw2), (is_write_not_written _ Hw5).
    rewrite (omap_none creation evs2), (omap_none creation evs5);
      [auto | |];
      (eapply Forall_impl; [eassumption|]);
      intros [] Hev; cbn in Hev; try contradiction; reflexivity.
  - unfold slog.
    destruct (Hclose (emit (EvLog LevelInfo "documents written"
                              [("total", Int_ (counted (List.length (Iter res)) 0))]) s3)
                None Hs3) as (s5 & evs5 & -> & Hs5 & Ht5 & Hw5).
    exists s5. eexists. split; [reflexivity|]. split; [exact Hs5|].
    rewrite Ht5. cbn [trace emit]. rewrite Ht3, <- !app_assoc.
    split; [reflexivity|].
    unfold creations, documents_written. rewrite !omap_app.
    rewrite (is_write_not_written _ Hw2), (is_write_not_written _ Hw5).
    rewrite (omap_none creation evs2), (omap_none creation evs5);
      [auto | |];
      (eapply Forall_impl; [eassumption|]);
      intros [] Hev; cbn in Hev; try contradiction; reflexivity.
Qed.

(** X14. On a free path of a store whose sink does not fail, the
    archive step of a Day returns exactly what the stream of the Day
    ends with: nil when [Err()] is nil, and then one
    ["documents written"] record counts the documents streamed; the
    terminal error of the stream otherwise, unwrapped, and then no
    count is reported although the file was created. With deletion
    enabled the Day then fails before any deletion. *)
Theorem stream_error_is_returned a date (s : World S T) t1 w t2 res x :
  Exists (fileNameOf date) (sto s) = (Ok false, t1) ->
  Create (fileNameOf date) t1 = (Ok w, t2) ->
  reliable w ->
  FindAllFromDate date (src s) = (res, x) ->
  exists (s' : World S T) evs,
    archiveDocuments a date s = (sr_Err res, s') /\
    src s' = x /\
    trace s' = trace s ++ evs /\
    creations evs = [fileNameOf date] /\
    documents_written evs
    = match sr_Err res with
      | None => [counted (List.length (Iter res)) 0]
      | Some _ => []
      end /\
    (forall e, sr_Err res = Some e ->
       archiveDocumentsAndDelete a date s
       = (Some (Errorf "failed to archive documents" e), s')).
Proof.
  intros HE HC Hrel HF.
  destruct (archiveDocuments_reliable a date s t1 w t2 res x HE HC Hrel HF)
    as (s' & evs & Hrun & Hsrc & Ht & Hcr & Hdw).
  exists s', evs. repeat (split; [assumption|]).
  intros e He. unfold archiveDocumentsAndDelete. rewrite Hrun, He. reflexivity.
Qed.

End Reliable.

Section NoopRun.
Context {Cod : Codec}.

Lemma nopCloser_reliable : reliable nopCloser.
Proof. split; reflexivity. Qed.

(** A Day over a reachable server and the store that discards. *)
Lemma Noop_day a date (s : World MongoDB Noop) :
  unavailable (src s) = None ->
  exists s1 : World MongoDB Noop,
    archiveDocumentsAndDelete a date s = (None, s1) /\
    unavailable (src s1) = None /\
    (skipDelete a = true -> src s1 = src s).
Proof.
  intros Hup.
  destruct (archiveDocuments_reliable (Src := MongoDB_documentSource)
              (Sto := Noop_store) a date s (sto s) nopCloser (sto s)
              _ (src s) eq_refl eq_refl nopCloser_reliable
              (FindAllFromDate_available date (src s) Hup))
    as (sA & evs & HA & HsA & _).
  unfold archiveDocumentsAndDelete. rewrite HA. cbn [sr_Err].
  destruct (skipDelete a); cbn [negb].
  - exists sA. rewrite HsA. auto.
  - unfold source_DeleteAllFromDate. rewrite HsA.
    cbn [DeleteAllFromDate MongoDB_documentSource].
    destruct (DeleteAllFromDate_collection date (src s) Hup) as [_ Hup'].
    unfold MongoDB_DeleteAllFromDate in *. rewrite Hup in *.
    eexists. split; [reflexivity|]. split; [reflexivity | discriminate].
Qed.

Lemma Run_loop_Noop fuel : forall a target date total (s : World MongoDB Noop) r s',
  unavailable (src s) = None ->
  Run_loop fuel a Background target date total s = Some (r, s') ->
  r = None /\ (skipDelete a = true -> src s' = src s).
Proof.
  induction fuel as [|fuel IH]; intros a target date total s r s' Hup Hrun;
    [discriminate|].
  cbn [Run_loop] in Hrun. destruct (Before date target).
  - unfold slog in Hrun.
    destruct (Noop_day a date
                (emit (EvLog LevelInfo "archiving" [("date", Time_ date)]) s) Hup)
      as (s1 & Hday & Hup1 & Hsrc1).
    rewrite Hday in Hrun. cbn [Done Background] in Hrun.
    apply IH in Hrun as [Hr Hsrc]; [|exact Hup1]. split; [exact Hr|].
    intros Hskip. rewrite (Hsrc Hskip). cbn [src emit]. rewrite (Hsrc1 Hskip).
    reflexivity.
  - injection Hrun as <- <-. split; [reflexivity|]. reflexivity.
Qed.

(** X15. Over the store that discards everything, a run on a reachable
    server that is not cancelled always succeeds: no Day is ever found
    archived and no write fails. With deletion enabled it has then
    removed every document of a day before the cutoff, though nothing
    was stored; with deletion skipped it leaves the collection as it
    was. *)
Theorem discarding_run_succeeds a target (s : World MongoDB Noop) earliest :
  MongoDB_EarliestCreatedAt (src s) = (Ok earliest, src s) ->
  exists s' : World MongoDB Noop,
    Run (Run_fuel earliest target) a Background target s = Some (None, s') /\
    (skipDelete a = false ->
     collection (src s')
     = List.filter (fun doc => negb (due target doc)) (collection (src s))) /\
    (skipDelete a = true -> src s' = src s).
Proof.
  intros HE.
  assert (Hup : unavailable (src s) = None).
  { unfold MongoDB_EarliestCreatedAt in HE.
    destruct (unavailable (src s)); [discriminate | reflexivity]. }
  assert (Hrun : exists r s', Run (Run_fuel earliest target) a Background target s
                              = Some (r, s')).
  { unfold Run, source_EarliestCreatedAt.
    cbn [EarliestCreatedAt MongoDB_documentSource]. rewrite HE.
    apply Run_loop_returns. pose proof (Run_fuel_enough earliest target). lia. }
  destruct Hrun as (r & s' & Hrun).
  assert (Hr : r = None /\ (skipDelete a = true -> src s' = src s)).
  { unfold Run, source_EarliestCreatedAt in Hrun.
    cbn [EarliestCreatedAt MongoDB_documentSource] in Hrun. rewrite HE in Hrun.
    apply Run_loop_Noop in Hrun; [exact Hrun | exact Hup]. }
  destruct Hr as [-> Hsrc]. exists s'. split; [exact Hrun|].
  split; [|exact Hsrc]. intros Hdel.
  apply (Run_mongo_collection _ _ _ _ _ _ Hdel Hrun).
Qed.

End NoopRun.

(* ===================================================================== *)
(** * The test doubles *)
(* ===================================================================== *)

Section MockFacts.

Lemma fold_earlier_from l : forall acc,
  acc <> zeroTime ->
  Forall (fun k => k <> zeroTime) l ->
  let r := fold_left earlier l acc in
  (r = acc \/ In r l) /\ r <= acc /\
  (forall k, In k l -> r <= k) /\ r <> zeroTime.
Proof.
  induction l as [|k l IH]; intros acc Hacc Hl; cbn zeta.
  - cbn. split; [auto|]. split; [lia|]. split; [intros ? []|exact Hacc].
  - cbn [fold_left]. inversion Hl as [|? ? Hk Hl']; subst.
    assert (Hstep : earlier acc k = Z.min acc k).
    { unfold earlier, Before.
      destruct (Z.eqb_spec acc zeroTime) as [->|_]; [contradiction|].
      rewrite orb_false_r. destruct (Z.ltb_spec k acc); lia. }
    rewrite Hstep.
    destruct (IH (Z.min acc k)) as (Hin & Hle & Hall & Hnz); [lia | exact Hl'|].
    split; [|split; [lia|split; [|exact Hnz]]].
    + destruct Hin as [Hin|Hin]; [|right; right; exact Hin].
      rewrite Hin.
      destruct (Z.min_spec acc k) as [[_ ->]|[_ ->]];
        [left; reflexivity | right; left; reflexivity].
    + intros k' [<-|Hk']; [lia | apply Hall; exact Hk'].
Qed.

(** The loop over keys none of which is the zero time ends with the
    least of them, in whatever order they come. *)
Lemma fold_earlier l :
  l <> [] ->
  Forall (fun k => k <> zeroTime) l ->
  let r := fold_left earlier l zeroTime in
  In r l /\ (forall k, In k l -> r <= k).
Proof.
  destruct l as [|k l]; [contradiction|]. intros _ Hl. cbn zeta.
  inversion Hl as [|? ? Hk Hl']; subst.
  cbn [fold_left].
  assert (Hstep : earlier zeroTime k = k).
  { unfold earlier. rewrite Z.eqb_refl, orb_true_r. reflexivity. }
  rewrite Hstep.
  destruct (fold_earlier_from l k Hk Hl') as (Hin & Hle & Hall & _).
  split.
  - destruct Hin as [->|Hin]; [left; reflexivity | right; exact Hin].
  - intros k' [<-|Hk']; [exact Hle | apply Hall; exact Hk'].
Qed.

Lemma In_keys (m : gmap Z (list bytes)) k : In k (keys m) <-> is_Some (m !! k).
Proof.
  unfold keys. rewrite <- list_elem_of_In, list_elem_of_fmap. split.
  - intros ([k' v] & -> & Hin). apply elem_of_map_to_list in Hin. eauto.
  - intros [v Hv]. exists (k, v). split; [reflexivity|].
    apply elem_of_map_to_list. exact Hv.
Qed.

(** With a document under the zero time the order does matter: the
    loop ends with the key visited last of the two. *)
Lemma earlier_depends_on_the_order (t : Time) :
  zeroTime < t ->
  fold_left earlier [zeroTime; t] zeroTime = t /\
  fold_left earlier [t; zeroTime] zeroTime = zeroTime.
Proof.
  intros Ht. cbn [fold_left]. unfold earlier, Before.
  rewrite Z.eqb_refl, !orb_true_r.
  rewrite (proj2 (Z.ltb_lt zeroTime t) Ht). split; reflexivity.
Qed.

(** X16. [EarliestCreatedAt] of the test double returns the least of
    the instants documents were added under, in whatever order the
    range loop visits the keys of the map, provided no document was
    added under Go's zero time. Without documents it fails. *)
Theorem mock_EarliestCreatedAt_is_the_least (m : mockDocumentSource) :
  visitsEachKeyOnce m ->
  docs m !! zeroTime = None ->
  match mock_EarliestCreatedAt m with
  | (Ok t, m') =>
      m' = m /\ is_Some (docs m !! t) /\
      forall k, is_Some (docs m !! k) -> t <= k
  | (Err e, m') => m' = m /\ e = New "no documents found" /\ docs m = ∅
  end.
Proof.
  intros Hvisit Hzero. unfold mock_EarliestCreatedAt, visitsEachKeyOnce in *.
  destruct (decide (size (docs m) = 0%nat)) as [Hsize|Hsize].
  - split; [reflexivity|]. split; [reflexivity|]. apply map_size_empty_iff. exact Hsize.
  - split; [reflexivity|].
    assert (Hmem : forall k, In k (rangeOrder m (docs m)) <-> is_Some (docs m !! k)).
    { intros k. rewrite <- In_keys. split; apply Permutation_in;
        [exact Hvisit | symmetry; exact Hvisit]. }
    assert (Hne : rangeOrder m (docs m) <> []).
    { intros Hnil. rewrite Hnil in Hvisit. apply Permutation_nil in Hvisit.
      apply Hsize. apply map_size_empty_iff, map_to_list_empty_iff.
      unfold keys in Hvisit. destruct (map_to_list (docs m)); [reflexivity|discriminate]. }
    assert (Hnz : Forall (fun k => k <> zeroTime) (rangeOrder m (docs m))).
    { apply List.Forall_forall. intros k Hin ->. apply Hmem in Hin as [v Hv].
      pose proof (eq_trans (eq_sym Hzero) Hv) as Hno. discriminate Hno. }
    destruct (fold_earlier _ Hne Hnz) as [Hin Hall].
    split; [apply Hmem; exact Hin|].
    intros k Hk. apply Hall, Hmem. exact Hk.
Qed.

(** X17. [Create] of the in-memory store starts the file at the path
    empty, whatever it held before, and leaves the other files alone;
    the writes on the sink it returns never fail and append to that
    file only; [Close] returns the error the store was set to force
    when the sink was created and changes nothing; and [Exists] then
    reports the path. *)
Theorem mockStorage_Create_then_write path (m : mockStorage) chunks :
  exists w m1,
    mockStorage_Create path m = (Ok w, m1) /\
    files m1 !! path = Some [] /\
    (forall c t, (Write w c t).1 = None) /\
    let m2 := fold_left (fun t c => (Write w c t).2) chunks m1 in
    files m2 !! path = Some (concat chunks) /\
    (forall p, p <> path -> files m2 !! p = files m !! p) /\
    Close w m2 = (forceCloseError m, m2) /\
    mockStorage_Exists path m2 = (Ok true, m2).
Proof.
  unfold mockStorage_Create. do 2 eexists. split; [reflexivity|].
  cbn [files]. split; [apply lookup_insert_eq|]. split; [reflexivity|].
  cbn zeta.
  set (m1 := {| files := <[path := []]> (files m);
                forceCloseError := forceCloseError m |}).
  assert (Hgen : forall chunks (t : mockStorage) buf,
    files t !! path = Some buf ->
    let t2 := fold_left (fun t c => (Write (errCloser path (forceCloseError m)) c t).2)
                chunks t in
    files t2 !! path = Some (buf ++ concat chunks) /\
    (forall p, p <> path -> files t2 !! p = files t !! p) /\
    forceCloseError t2 = forceCloseError t).
  { clear. induction chunks as [|c chunks IH]; intros t buf Hbuf; cbn zeta.
    - cbn. rewrite app_nil_r. auto.
    - cbn [fold_left].
      destruct (IH (Write (errCloser path (forceCloseError m)) c t).2 (buf ++ c))
        as (Hp & Hother & Hfce).
      { cbn. rewrite (alter_present _ _ _ _ Hbuf). apply lookup_insert_eq. }
      cbn zeta in *. split; [|split].
      + rewrite Hp. cbn. rewrite <- app_assoc. reflexivity.
      + intros p Hne. rewrite (Hother p Hne). cbn. apply lookup_alter_ne. congruence.
      + rewrite Hfce. reflexivity. }
  destruct (Hgen chunks m1 [] (lookup_insert_eq _ _ _)) as (Hp & Hother & Hfce).
  cbn zeta in *. split; [exact Hp|]. split.
  - intros p Hne. rewrite (Hother p Hne). cbn. apply lookup_insert_ne. congruence.
  - split; [reflexivity|]. unfold mockStorage_Exists. rewrite Hp.
    rewrite bool_decide_eq_true_2 by eauto. reflexivity.
Qed.

End MockFacts.

(* ===================================================================== *)
(** * The archive path of a Day *)
(* ===================================================================== *)

Section PathFacts.
Import Calendar.

Lemma length_append (s t : string) :
  String.length (s +:+ t) = (String.length s + String.length t)%nat.
Proof.
  induction s as [|a s IH]; [reflexivity|].
  change (String a s +:+ t) with (String a (s +:+ t)).
  cbn [String.length]. rewrite IH. reflexivity.
Qed.

Lemma append_inj_length (s1 s2 t1 t2 : string) :
  s1 +:+ t1 = s2 +:+ t2 -> String.length t1 = String.length t2 ->
  s1 = s2 /\ t1 = t2.
Proof.
  revert s2. induction s1 as [|a s1 IH]; intros [|b s2] Heq Hlen.
  - auto.
  - exfalso. apply (f_equal String.length) in Heq.
    rewrite !length_append in Heq. cbn [String.length] in Heq. lia.
  - exfalso. apply (f_equal String.length) in Heq.
    rewrite !length_append in Heq. cbn [String.length] in Heq. lia.
  - change (String a (s1 +:+ t1) = String b (s2 +:+ t2)) in Heq.
    injection Heq as -> Heq. destruct (IH s2 Heq Hlen) as [-> ->]. auto.
Qed.

Lemma utod_digits u :
  exists d, utod u = NilEmpty.string_of_uint d /\ N.of_uint d = Z.to_N u /\
            d <> Decimal.Nil.
Proof.
  unfold utod. pose proof (DecimalN.Unsigned.of_to (Z.to_N u)) as Hof.
  destruct (N.to_uint (Z.to_N u)) as [|d|d|d|d|d|d|d|d|d|d] eqn:Hd;
    [exists (Decimal.D0 Decimal.Nil) | eexists ..];
    (split; [reflexivity|]); (split; [exact Hof | discriminate]).
Qed.

Lemma zeros_digits k d :
  zeros k +:+ NilEmpty.string_of_uint d
  = NilEmpty.string_of_uint (Nat.iter k Decimal.D0 d) /\
  N.of_uint (Nat.iter k Decimal.D0 d) = N.of_uint d.
Proof.
  induction k as [|k [IH1 IH2]]; [split; reflexivity|].
  change (zeros (Datatypes.S k) +:+ NilEmpty.string_of_uint d)
    with (String "0" (zeros k +:+ NilEmpty.string_of_uint d)).
  rewrite IH1. split; [reflexivity | exact IH2].
Qed.

(** The text of a number: an optional sign, then digits that read back
    as its absolute value. *)
Lemma appendInt_digits x w :
  exists d,
    appendInt x w
    = (if x <? 0 then "-" else "") +:+ NilEmpty.string_of_uint d /\
    N.of_uint d = Z.to_N (Z.abs x) /\ d <> Decimal.Nil.
Proof.
  unfold appendInt. destruct (utod_digits (Z.abs x)) as (d & -> & Hd & Hne).
  destruct (zeros_digits (w - String.length (NilEmpty.string_of_uint d)) d)
    as [-> Hz].
  eexists. split; [reflexivity|]. split; [congruence|].
  destruct (w - String.length (NilEmpty.string_of_uint d))%nat; cbn;
    [exact Hne | discriminate].
Qed.

Lemma digits_not_signed d r : NilEmpty.string_of_uint d <> String "-" r.
Proof.
  intros Heq. pose proof (NilEmpty.usu d) as Hu. rewrite Heq in Hu. cbn in Hu.
  destruct (NilEmpty.uint_of_string r); discriminate.
Qed.

Lemma digits_inj d1 d2 :
  NilEmpty.string_of_uint d1 = NilEmpty.string_of_uint d2 -> d1 = d2.
Proof.
  intros Heq. pose proof (NilEmpty.usu d1) as H1. rewrite Heq, NilEmpty.usu in H1.
  congruence.
Qed.

Lemma appendInt_inj w x1 x2 : appendInt x1 w = appendInt x2 w -> x1 = x2.
Proof.
  destruct (appendInt_digits x1 w) as (d1 & -> & H1 & _).
  destruct (appendInt_digits x2 w) as (d2 & -> & H2 & _).
  destruct (Z.ltb_spec x1 0), (Z.ltb_spec x2 0); cbn; intros Heq.
  - injection Heq as Heq. apply digits_inj in Heq. subst d2. lia.
  - exfalso. symmetry in Heq. apply (digits_not_signed _ _ Heq).
  - exfalso. apply (digits_not_signed _ _ Heq).
  - apply digits_inj in Heq. subst d2. lia.
Qed.

Lemma appendInt_nonempty x w : appendInt x w <> "".
Proof.
  destruct (appendInt_digits x w) as (d & -> & _ & Hne).
  destruct (x <? 0); cbn; [discriminate|].
  destruct d; cbn; [contradiction | discriminate ..].
Qed.

Lemma appendInt_two x :
  0 <= x < 100 -> String.length (appendInt x 2) = 2%nat.
Proof.
  intros Hx.
  pose proof (all_from_spec 100 0
                (fun x => Nat.eqb (String.length (appendInt x 2)) 2)) as Hall.
  apply Nat.eqb_eq. apply Hall; [vm_compute; reflexivity | lia].
Qed.

Lemma path_Join_three a b c :
  a <> "" -> b <> "" -> c <> "" ->
  path_Join [a; b; c] = a +:+ "/" +:+ b +:+ "/" +:+ c.
Proof.
  intros Ha Hb Hc. cbn [path_Join].
  destruct (decide (a = "")); [contradiction|].
  destruct (decide (b = "")); [contradiction|].
  destruct (decide (c = "")); [contradiction|].
  destruct c as [|c0 c]; [contradiction|].
  destruct b as [|b0 b]; [contradiction|]. reflexivity.
Qed.

Lemma fileNameOf_text date :
  fileNameOf date
  = Format2006 date +:+ "/" +:+ Format01 date +:+ "/" +:+ Format02 date
    +:+ ".json.gz".
Proof.
  unfold fileNameOf. apply path_Join_three.
  - apply appendInt_nonempty.
  - apply appendInt_nonempty.
  - pose proof (appendInt_nonempty (Date date).2 2) as Hne.
    unfold Format02. destruct (appendInt (Date date).2 2); [contradiction | discriminate].
Qed.

Lemma Date_dayOf t : Date (dayOf t) = Date t.
Proof.
  unfold Date, absDay, dayOf. rewrite Truncate_day. f_equal. f_equal.
  change nsPerDay with 86400000000000. Z.div_mod_to_equations. lia.
Qed.

Lemma Date_inj t1 t2 : Date t1 = Date t2 -> dayOf t1 = dayOf t2.
Proof.
  unfold Date. intros Heq.
  pose proof (absDate_spec (absDay t1)) as H1.
  pose proof (absDate_spec (absDay t2)) as H2.
  rewrite Heq in H1. destruct (absDate (absDay t2)) as [[y m] dd].
  destruct H1 as (_ & _ & H1). destruct H2 as (_ & _ & H2).
  assert (Hday : absDay t1 = absDay t2) by congruence.
  unfold absDay in Hday. unfold dayOf. rewrite !Truncate_day. f_equal. lia.
Qed.

Lemma fileNameOf_Date a b : Date a = Date b -> fileNameOf a = fileNameOf b.
Proof.
  intros Heq. unfold fileNameOf, Format2006, Format01, Format02.
  rewrite Heq. reflexivity.
Qed.

(** Two instants have the same archive path exactly when they lie on
    the same UTC day. *)
Lemma fileNameOf_same_day (t1 t2 : Time) :
  fileNameOf t1 = fileNameOf t2 <-> dayOf t1 = dayOf t2.
Proof.
  split.
  - rewrite !fileNameOf_text. unfold Format2006, Format01, Format02.
    pose proof (absDate_spec (absDay t1)) as H1.
    pose proof (absDate_spec (absDay t2)) as H2.
    intros Heq. apply Date_inj. unfold Date in *.
    destruct (absDate (absDay t1)) as [[y1 m1] dd1].
    destruct (absDate (absDay t2)) as [[y2 m2] dd2].
    destruct H1 as (Hm1 & Hd1 & _). destruct H2 as (Hm2 & Hd2 & _).
    cbn [fst snd] in Heq.
    assert (Hlen : forall m dd, 1 <= m <= 12 -> 1 <= dd <= 31 ->
              String.length ("/" +:+ appendInt m 2 +:+ "/" +:+ appendInt dd 2
                             +:+ ".json.gz") = 14%nat).
    { intros m dd Hm Hdd. rewrite !length_append, !appendInt_two by lia.
      reflexivity. }
    apply append_inj_length in Heq as [Hy Heq];
      [|rewrite !Hlen by assumption; reflexivity].
    apply (append_inj_length "/" "/") in Heq as [_ Heq];
      [|rewrite !length_append, !appendInt_two by lia; reflexivity].
    apply append_inj_length in Heq as [Hm Heq].
    + apply (append_inj_length "/" "/") in Heq as [_ Heq];
        [|rewrite !length_append, !appendInt_two by lia; reflexivity].
      apply append_inj_length in Heq as [Hd _]; [|reflexivity].
      apply appendInt_inj in Hy, Hm, Hd. congruence.
    + rewrite !length_append, !appendInt_two by lia. reflexivity.
  - intros Hday. apply fileNameOf_Date.
    rewrite <- (Date_dayOf t1), <- (Date_dayOf t2), Hday. reflexivity.
Qed.

(** X18. The archive path of a Day is its year, month and day of month
    in UTC, as [YYYY/MM/DD.json.gz]; it does not depend on the time of
    day, and two instants have the same path exactly when they lie on
    the same UTC day: the archives of different Days never collide. *)
Theorem fileNameOf_names_the_day (t1 t2 : Time) :
  fileNameOf t1
  = Format2006 t1 +:+ "/" +:+ Format01 t1 +:+ "/" +:+ Format02 t1 +:+ ".json.gz" /\
  fileNameOf (dayOf t1) = fileNameOf t1 /\
  (fileNameOf t1 = fileNameOf t2 <-> dayOf t1 = dayOf t2).
Proof.
  split; [apply fileNameOf_text|].
  split; [apply fileNameOf_Date, Date_dayOf | apply fileNameOf_same_day].
Qed.

End PathFacts.

(* ===================================================================== *)
(** * A whole run into the in-memory store *)
(* ===================================================================== *)

Section WholeRun.
Context {Cod : Codec}.

Lemma dayOf_midnight t : t mod nsPerDay = 0 -> dayOf t = t.
Proof.
  unfold dayOf. rewrite Truncate_day. change nsPerDay with 86400000000000.
  intros Hmid. Z.div_mod_to_equations. lia.
Qed.

Lemma dayOf_after date t :
  date mod nsPerDay = 0 -> date <= dayOf t -> dayOf t <> date ->
  date + nsPerDay <= dayOf t.
Proof.
  unfold dayOf. rewrite Truncate_day. change nsPerDay with 86400000000000.
  intros Hmid Hle Hne. Z.div_mod_to_equations. lia.
Qed.

Lemma sameDay_dayOf d d' docs :
  dayOf d = dayOf d' -> List.filter (sameDay d) docs = List.filter (sameDay d') docs.
Proof.
  intros Heq. apply filter_ext. intros doc. unfold sameDay. rewrite Heq. reflexivity.
Qed.

(** The records of the day of [d] in the collection. *)
Lemma FindAllFromDate_Iter d (x : MongoDB) :
  unavailable x = None ->
  Iter (MongoDB_FindAllFromDate d x).1
  = List.map extJSON (List.filter (sameDay d) (collection x)).
Proof. intros Hup. rewrite (FindAllFromDate_available d x Hup). reflexivity. Qed.

(** One Day over a reachable server and a free path of the in-memory
    store. *)
Lemma mock_day a date (s : World MongoDB mockStorage) :
  unavailable (src s) = None ->
  forceCloseError (sto s) = None ->
  files (sto s) !! fileNameOf date = None ->
  exists s1 : World MongoDB mockStorage,
    archiveDocumentsAndDelete a date s = (None, s1) /\
    files (sto s1)
    = <[fileNameOf date :=
          gzip_file (List.map line (Iter (MongoDB_FindAllFromDate date (src s)).1))]>
        (files (sto s)) /\
    forceCloseError (sto s1) = None /\
    unavailable (src s1) = None /\
    (collection (src s1) = collection (src s) \/
     collection (src s1)
     = List.filter (fun doc => negb (sameDay date doc)) (collection (src s))).
Proof.
  intros Hup Hfce Hfree. unfold archiveDocumentsAndDelete.
  rewrite (@archiveDocuments_mock_written MongoDB MongoDB_documentSource Cod
             a date s _ (src s) Hfree
             (FindAllFromDate_available date (src s) Hup) eq_refl).
  rewrite Hfce. rewrite (FindAllFromDate_available date (src s) Hup). cbn [fst Iter].
  destruct (skipDelete a); cbn [negb].
  - eexists. split; [reflexivity|]. cbn [src sto files forceCloseError]. auto.
  - unfold source_DeleteAllFromDate. cbn [src sto trace].
    cbn [DeleteAllFromDate MongoDB_documentSource].
    destruct (DeleteAllFromDate_collection date (src s) Hup) as [Hcol Hup'].
    unfold MongoDB_DeleteAllFromDate in *. rewrite Hup in *.
    eexists. split; [reflexivity|]. unfold slog. cbn [src sto files forceCloseError emit].
    cbn [snd collection unavailable] in Hcol. auto.
Qed.

Lemma Run_loop_files fuel : forall a target date total (s : World MongoDB mockStorage),
  (dayCount target date < fuel)%nat ->
  date mod nsPerDay = 0 ->
  unavailable (src s) = None ->
  forceCloseError (sto s) = None ->
  (forall d, date <= dayOf d -> files (sto s) !! fileNameOf d = None) ->
  exists s' : World MongoDB mockStorage,
    Run_loop fuel a Background target date total s = Some (None, s') /\
    (forall d, date <= dayOf d -> dayOf d < target ->
       files (sto s') !! fileNameOf d
       = Some (gzip_file (List.map line
                 (List.map extJSON (List.filter (sameDay d) (collection (src s))))))) /\
    (forall p,
       (exists d, date <= dayOf d /\ dayOf d < target /\ p = fileNameOf d) \/
       files (sto s') !! p = files (sto s) !! p).
Proof.
  assert (Hpos : 0 < nsPerDay) by reflexivity.
  induction fuel as [|fuel IH]; intros a target date total s Hfuel Hmid Hup Hfce Hfree;
    [lia|].
  cbn [Run_loop]. destruct (Before date target) eqn:Hb.
  - unfold slog.
    set (s0 := emit (EvLog LevelInfo "archiving" [("date", Time_ date)]) s).
    destruct (mock_day a date s0 Hup Hfce) as (s1 & -> & Hfiles & Hfce1 & Hup1 & Hcol).
    { apply Hfree. rewrite (dayOf_midnight _ Hmid). lia. }
    cbn [Done Background].
    assert (Hmid' : (date + nsPerDay) mod nsPerDay = 0).
    { revert Hmid. change nsPerDay with 86400000000000. intros Hmid.
      Z.div_mod_to_equations. lia. }
    assert (Hother : forall d, dayOf d <> date -> fileNameOf d <> fileNameOf date).
    { intros d Hne Heq. apply fileNameOf_same_day in Heq.
      rewrite (dayOf_midnight _ Hmid) in Heq. contradiction. }
    rewrite AddDate_next.
    destruct (IH a target (date + nsPerDay) (int_incr total)
                (emit (EvSelect date false) s1)) as (s' & Hrun & HA & HB).
    { rewrite (dayCount_next _ _ Hb) in Hfuel. lia. }
    { exact Hmid'. }
    { exact Hup1. }
    { exact Hfce1. }
    { intros d Hd. cbn [sto emit]. rewrite Hfiles.
      rewrite lookup_insert_ne by (apply not_eq_sym, Hother; lia).
      apply Hfree. lia. }
    exists s'. split; [exact Hrun|]. cbn [src sto emit] in HA, HB.
    unfold Before in Hb. apply Z.ltb_lt in Hb.
    rewrite (FindAllFromDate_Iter date (src s0) Hup) in Hfiles.
    split.
    + intros d Hd Ht. destruct (Z.eq_dec (dayOf d) date) as [Heq|Hne].
      * assert (Hfn : fileNameOf d = fileNameOf date).
        { apply fileNameOf_same_day. rewrite (dayOf_midnight _ Hmid). exact Heq. }
        rewrite Hfn.
        destruct (HB (fileNameOf date)) as [(d' & Hd' & _ & Heq')| ->].
        { exfalso. symmetry in Heq'. revert Heq'. apply Hother. lia. }
        rewrite Hfiles, lookup_insert_eq.
        rewrite (sameDay_dayOf d date) by (rewrite (dayOf_midnight _ Hmid); exact Heq).
        reflexivity.
      * rewrite HA; [|apply dayOf_after; assumption | exact Ht].
        destruct Hcol as [-> | ->]; [reflexivity|].
        rewrite filter_other; [reflexivity|]. intros doc Hdoc. unfold sameDay in *.
        destruct (createdAt doc) as [c|]; [|discriminate].
        apply Z.eqb_eq in Hdoc. apply Z.eqb_neq.
        rewrite (dayOf_midnight _ Hmid). congruence.
    + intros p. destruct (decide (p = fileNameOf date)) as [->|Hp].
      * left. exists date. rewrite (dayOf_midnight _ Hmid). split; [lia|]. auto.
      * destruct (HB p) as [(d & Hd & Ht & ->)| ->].
        -- left. exists d. split; [lia|]. auto.
        -- right. rewrite Hfiles. apply lookup_insert_ne. congruence.
  - exists (slog LevelInfo "target reached" [("datesArchived", Int_ total)] s).
    split; [reflexivity|]. unfold Before in Hb. apply Z.ltb_ge in Hb. split.
    + intros d Hd Ht. lia.
    + intros p. right. reflexivity.
Qed.

(** X19. A run over a reachable MongoDB server into an empty in-memory
    store, not cancelled: it succeeds; for every UTC day from that of
    the earliest record up to the cutoff, the store then holds at the
    day's path the gzip stream of the records [FindAllFromDate] yields
    for that day in the collection as it was at the start, one per
    line; the store holds no other file; and with a codec that reads
    back what it wrote, a day whose records hold no newline is read
    back from its file record by record. *)
Theorem run_archives_every_day a target (s : World MongoDB mockStorage) earliest :
  MongoDB_EarliestCreatedAt (src s) = (Ok earliest, src s) ->
  files (sto s) = ∅ ->
  forceCloseError (sto s) = None ->
  exists s' : World MongoDB mockStorage,
    Run (Run_fuel earliest target) a Background target s = Some (None, s') /\
    (forall d, dayOf earliest <= dayOf d < target ->
       files (sto s') !! fileNameOf d
       = Some (gzip_file (List.map line (Iter (MongoDB_FindAllFromDate d (src s)).1)))) /\
    (forall p, is_Some (files (sto s') !! p) ->
       exists d, dayOf earliest <= dayOf d < target /\ p = fileNameOf d) /\
    (CodecLaw ->
     forall d, dayOf earliest <= dayOf d < target ->
       Forall (fun doc => ~ In newline doc) (Iter (MongoDB_FindAllFromDate d (src s)).1) ->
       exists file,
         files (sto s') !! fileNameOf d = Some file /\
         readLines file = Some (Iter (MongoDB_FindAllFromDate d (src s)).1)).
Proof.
  intros HE Hempty Hfce.
  assert (Hup : unavailable (src s) = None).
  { unfold MongoDB_EarliestCreatedAt in HE.
    destruct (unavailable (src s)); [discriminate | reflexivity]. }
  unfold Run, source_EarliestCreatedAt.
  cbn [EarliestCreatedAt MongoDB_documentSource]. rewrite HE. unfold slog.
  destruct (Run_loop_files (Run_fuel earliest target) a target
              (Truncate earliest (Hour * 24)) 0
              (emit (EvLog LevelInfo "archiver running"
                       [("target", Time_ target); ("earliest", Time_ earliest)])
                 (emit (EvEarliestCreatedAt (Ok earliest))
                    {| src := src s; sto := sto s; trace := trace s |})))
    as (s' & Hrun & HA & HB).
  { pose proof (Run_fuel_enough earliest target). lia. }
  { apply Truncate_day_midnight. }
  { exact Hup. }
  { exact Hfce. }
  { intros d _. cbn [sto emit]. rewrite Hempty. apply lookup_empty. }
  exists s'. split; [exact Hrun|]. cbn [src sto emit] in HA, HB.
  fold (dayOf earliest) in HA, HB.
  assert (Hfile : forall d, dayOf earliest <= dayOf d < target ->
            files (sto s') !! fileNameOf d
            = Some (gzip_file (List.map line (Iter (MongoDB_FindAllFromDate d (src s)).1)))).
  { intros d [Hd Ht]. rewrite (FindAllFromDate_Iter d (src s) Hup).
    apply HA; assumption. }
  split; [exact Hfile|]. split.
  - intros p Hp. destruct (HB p) as [(d & Hd & Ht & ->)|Heq].
    + exists d. auto.
    + rewrite Heq, Hempty, lookup_empty in Hp. destruct Hp as [? [=]].
  - intros Law d Hd Hnl. eexists. split; [apply Hfile; exact Hd|].
    apply readLines_gzip_file. exact Hnl.
Qed.

End WholeRun.

(* ===================================================================== *)
(** * A write that fails *)
(* ===================================================================== *)

Section FailedWrite.
Context {S T : Type} {Src : documentSource S} {Sto : store T} {Cod : Codec}.

Lemma is_write_no_failed_write_or ev :
  is_write ev -> no_failed_write ev \/ exists p e, ev = EvWrite p (Some e).
Proof. destruct ev as [| | |p [e|]| | | | | | |]; cbn; eauto; tauto. Qed.

(** The writes of [writeChunks]: all succeed, except the last when an
    error is returned. *)
Lemma writeChunks_shape (w : WriteCloser T) chunks : forall s : World S T,
  let '(r, s') := writeChunks (sink w) chunks s in
  exists W F,
    trace s' = trace s ++ W ++ F /\
    Forall no_failed_write W /\ failed_write r F.
Proof.
  induction chunks as [|c rest IH]; intros s.
  - cbn. exists [], []. rewrite app_nil_r. repeat split; constructor.
  - cbn [writeChunks]. cbn [Write sink].
    destruct (Write w c (sto s)) as [[e|] t].
    + exists [], [EvWrite c (Some e)]. cbn [trace emit app].
      split; [reflexivity|]. split; [constructor|]. exists c. reflexivity.
    + specialize (IH (emit (EvWrite c None)
                        {| src := src s; sto := t; trace := trace s |})).
      destruct (writeChunks (sink w) rest _) as [r s'].
      destruct IH as (W & F & Ht & HW & HF).
      exists (EvWrite c None :: W), F. cbn [trace emit] in Ht.
      rewrite Ht, <- !app_assoc. split; [reflexivity|].
      split; [constructor; [exact I | exact HW] | exact HF].
Qed.

Lemma writeDocuments_shape (w : WriteCloser T) docs : forall i gw (s : World S T),
  fresh w gw ->
  let '(r, i', gw', s') := writeDocuments docs i gw s in
  (exists W F,
     trace s' = trace s ++ W ++ F /\
     Forall no_failed_write W /\ failed_write r F) /\
  gw_w gw' = sink w /\ gw_err gw' = r /\ gw_closed gw' = false.
Proof.
  induction docs as [|doc rest IH]; intros i gw s Hfresh.
  - cbn. destruct Hfresh as (Hw & Herr & Hcl). split; [|auto].
    exists [], []. rewrite app_nil_r. repeat split; constructor.
  - cbn [writeDocuments]. unfold io_Copy.
    pose proof (Writer_Write_sink w gw (doc ++ [newline]) s Hfresh) as Hstep.
    assert (Hshape : let '(r, _, s1) := Writer_Write gw (doc ++ [newline]) s in
              exists W F, trace s1 = trace s ++ W ++ F /\
                Forall no_failed_write W /\ failed_write r F).
    { destruct Hfresh as (Hw & Herr & _). unfold Writer_Write. rewrite Herr, Hw.
      destruct (enc_write (gw_z gw) (doc ++ [newline])) as [z chunks].
      pose proof (writeChunks_shape w chunks s) as Hc.
      destruct (writeChunks (sink w) chunks s) as [e s1]. exact Hc. }
    destruct (Writer_Write gw (doc ++ [newline]) s) as [[r gw1] s1].
    destruct Hstep as (_ & Hw1 & Herr1 & Hcl1). destruct r as [e|].
    + split; [exact Hshape | auto].
    + specialize (IH (int_incr i) gw1 s1 (conj Hw1 (conj Herr1 Hcl1))).
      destruct (writeDocuments rest (int_incr i) gw1 s1) as [[[r i'] gw2] s2].
      destruct IH as ((W2 & F2 & Ht2 & HW2 & HF2) & Hgw).
      split; [|exact Hgw].
      destruct Hshape as (W1 & F1 & Ht1 & HW1 & HF1). cbn in HF1. subst F1.
      rewrite app_nil_r in Ht1.
      exists (W1 ++ W2), F2. rewrite Ht2, Ht1, <- !app_assoc.
      split; [reflexivity|]. split; [apply Forall_app; split; assumption | exact HF2].
Qed.

(** The events of an archive step that created its file: either no
    write failed, or one did, and then nothing follows it but the two
    closes, of which the first reports the same error. *)
Lemma archiveDocuments_writes a date (s : World S T) t1 w t2 :
  Exists (fileNameOf date) (sto s) = (Ok false, t1) ->
  Create (fileNameOf date) t1 = (Ok w, t2) ->
  let '(r, s') := archiveDocuments a date s in
  exists A c2,
    Forall no_failed_write A /\
    (trace s' = trace s ++ A ++ closes None c2 \/
     exists p e r',
       trace s' = trace s ++ A ++ EvWrite p (Some e) :: closes (Some e) c2 /\
       r = Some r' /\ Is r' e /\ Is r' (Errorf "failed to close gzip writer" e)).
Proof.
  intros HE HC. unfold archiveDocuments, store_Exists. rewrite HE.
  cbv beta iota zeta. unfold store_Create, slog. cbn [sto src trace emit].
  rewrite HC. cbv beta iota zeta.
  destruct (NewWriterLevel_default (S:=S) w) as (gw & -> & Hfresh).
  set (s0 := emit (EvCreate _ None) _).
  assert (Hs0 : trace s0 = trace s ++
            [EvExists (fileNameOf date) (Ok false);
             EvLog LevelInfo "writing to file" [("fileName", String_ (fileNameOf date))];
             EvCreate (fileNameOf date) None]).
  { subst s0. cbn [trace emit]. rewrite <- !app_assoc. reflexivity. }
  unfold archiveDocuments_body, source_FindAllFromDate.
  destruct (FindAllFromDate date (src s0)) as [res src1].
  set (s1 := emit (EvFindAllFromDate date) _).
  assert (Hs1 : trace s1 = trace s0 ++ [EvFindAllFromDate date]) by reflexivity.
  pose proof (writeDocuments_shape w (Iter res) 0 gw s1 Hfresh) as Hdocs.
  destruct (writeDocuments (Iter res) 0 gw s1) as [[[rw i] gw1] s2].
  destruct Hdocs as ((W & F & Ht2 & HW & HF) & Hw1 & Herr1 & Hcl1).
  (* the file close, after a gzip close that returned [c1] *)
  assert (Hfile : forall (r1 : option error) (s4 : World S T),
    exists c2 r2,
      defer_file_Close (sink w) r1 s4 = (r2, emit (EvFileClose c2)
         {| src := src s4; sto := (Close w (sto s4)).2; trace := trace s4 |}) /\
      (forall y x, r1 = Some y -> Is y x -> exists r', r2 = Some r' /\ Is r' x)).
  { intros r1 s4. unfold defer_file_Close. cbn [Close sink].
    destruct (Close w (sto s4)) as [c2 t3]. exists c2.
    pose proof (deferred_result r1 "failed to close file" c2) as (Hd & _ & _).
    cbn zeta in Hd. destruct c2 as [c|]; eexists; (split; [reflexivity|]);
      intros y x Hy HIs; apply (Hd y x Hy HIs). }
  destruct rw as [e|].
  - (* a write of the stream failed *)
    destruct HF as (p & ->). unfold defer_gzip_Close, gzip_Close, Writer_Close.
    rewrite Herr1. cbv beta iota zeta.
    destruct (Hfile (Join [Some e; Some (Errorf "failed to close gzip writer" e)])
                (emit (EvGzipClose (Some e)) s2)) as (c2 & r2 & -> & Hr2).
    exists ([EvExists (fileNameOf date) (Ok false);
             EvLog LevelInfo "writing to file" [("fileName", String_ (fileNameOf date))];
             EvCreate (fileNameOf date) None; EvFindAllFromDate date] ++ W), c2.
    split.
    { apply Forall_app. split; [repeat constructor | exact HW]. }
    right. exists p, e.
    destruct (Hr2 _ (Errorf "failed to close gzip writer" e) eq_refl) as (r' & Hr' & HIs).
    { cbn. auto 10 using Is_refl. }
    destruct (Hr2 _ e eq_refl) as (r'' & Hr'' & HIs').
    { cbn. auto 10 using Is_refl. }
    rewrite Hr' in Hr''. injection Hr'' as <-. subst r2.
    exists r'. cbn [trace emit]. rewrite Ht2, Hs1, Hs0, <- !app_assoc.
    split; [reflexivity|]. split; [reflexivity | split; assumption].
  - cbn in HF. subst F. rewrite app_nil_r in Ht2.
    set (s3 := emit (EvErr (sr_Err res)) s2).
    (* the stream is over: the events before the gzip close *)
    assert (Hclose : forall (r0 : option error) (s4 : World S T) B,
      trace s4 = trace s ++ B -> Forall no_failed_write B ->
      let '(r, s') := (let '(err, s) := defer_gzip_Close gw1 r0 s4 in
                       defer_file_Close (sink w) err s) in
      exists A c2,
        Forall no_failed_write A /\
        (trace s' = trace s ++ A ++ closes None c2 \/
         exists p e r',
           trace s' = trace s ++ A ++ EvWrite p (Some e) :: closes (Some e) c2 /\
           r = Some r' /\ Is r' e /\
           Is r' (Errorf "failed to close gzip writer" e))).
    { intros r0 s4 B Ht4 HB. unfold defer_gzip_Close, gzip_Close, Writer_Close.
      rewrite Herr1, Hcl1, Hw1.
      pose proof (writeChunks_shape w (enc_close (gw_z gw1)) s4) as Hc.
      destruct (writeChunks (sink w) (enc_close (gw_z gw1)) s4) as [c1 s5].
      destruct Hc as (W5 & F5 & Ht5 & HW5 & HF5). cbv beta iota zeta.
      destruct c1 as [e|].
      - destruct HF5 as (p & ->).
        destruct (Hfile (Join [r0; Some (Errorf "failed to close gzip writer" e)])
                    (emit (EvGzipClose (Some e)) s5)) as (c2 & r2 & -> & Hr2).
        exists (B ++ W5), c2. split; [apply Forall_app; split; assumption|].
        right. exists p, e.
        destruct (Join_pair_is_Some r0 (Errorf "failed to close gzip writer" e))
          as (y & Hy).
        destruct (Hr2 y (Errorf "failed to close gzip writer" e) Hy) as (r' & Hr' & HIs).
        { unfold Join in Hy. destruct r0; cbn in Hy; injection Hy as <-; cbn;
            auto 10 using Is_refl. }
        destruct (Hr2 y e Hy) as (r'' & Hr'' & HIs').
        { unfold Join in Hy. destruct r0; cbn in Hy; injection Hy as <-; cbn;
            auto 10 using Is_refl. }
        rewrite Hr' in Hr''. injection Hr'' as <-. subst r2.
        exists r'. cbn [trace emit]. rewrite Ht5, Ht4, <- !app_assoc.
        split; [reflexivity|]. split; [reflexivity | split; assumption].
      - cbn in HF5. subst F5. rewrite app_nil_r in Ht5.
        destruct (Hfile r0 (emit (EvGzipClose None) s5)) as (c2 & r2 & -> & _).
        exists (B ++ W5), c2. split; [apply Forall_app; split; assumption|].
        left. cbn [trace emit]. rewrite Ht5, Ht4, <- !app_assoc. reflexivity. }
    destruct (sr_Err res) as [e|].
    + apply (Hclose (Some e) s3
               ([EvExists (fileNameOf date) (Ok false);
                 EvLog LevelInfo "writing to file"
                   [("fileName", String_ (fileNameOf date))];
                 EvCreate (fileNameOf date) None; EvFindAllFromDate date]
                ++ W ++ [EvErr (Some e)])).
      * subst s3. cbn [trace emit]. rewrite Ht2, Hs1, Hs0, <- !app_assoc. reflexivity.
      * apply Forall_app. split; [repeat constructor|].
        apply Forall_app. split; [exact HW | repeat constructor].
    + unfold slog.
      apply (Hclose None _
               ([EvExists (fileNameOf date) (Ok false);
                 EvLog LevelInfo "writing to file"
                   [("fileName", String_ (fileNameOf date))];
                 EvCreate (fileNameOf date) None; EvFindAllFromDate date]
                ++ W ++ [EvErr None;
                         EvLog LevelInfo "documents written" [("total", Int_ i)]])).
      * subst s3. cbn [trace emit]. rewrite Ht2, Hs1, Hs0, <- !app_assoc. reflexivity.
      * apply Forall_app. split; [repeat constructor|].
        apply Forall_app. split; [exact HW | repeat constructor].
Qed.

Lemma no_failed_write_inside l l1 p e l2 :
  Forall no_failed_write l -> l = l1 ++ EvWrite p (Some e) :: l2 -> False.
Proof.
  intros Hl ->. apply Forall_app in Hl as [_ Hl].
  inversion Hl as [|? ? Hd _]. exact Hd.
Qed.

(** X20. A write to the file that fails is the last write of the Day:
    whether it happens while the records are streamed or while the gzip
    writer is closed, the only events after it are the close of the
    gzip writer, which reports the same error, and the close of the
    file; no write before it failed. The archive step returns an error
    in which the write error is found, as the failure to close the
    gzip writer, and the Day fails before any deletion. *)
Theorem failed_write_ends_the_day a date (s : World S T) t1 w t2 r s' l1 p e l2 :
  Exists (fileNameOf date) (sto s) = (Ok false, t1) ->
  Create (fileNameOf date) t1 = (Ok w, t2) ->
  archiveDocuments a date s = (r, s') ->
  trace s' = trace s ++ l1 ++ EvWrite p (Some e) :: l2 ->
  Forall no_failed_write l1 /\
  (exists c2, l2 = closes (Some e) c2) /\
  exists r',
    r = Some r' /\ Is r' e /\ Is r' (Errorf "failed to close gzip writer" e) /\
    archiveDocumentsAndDelete a date s
    = (Some (Errorf "failed to archive documents" r'), s').
Proof.
  intros HE HC Hrun Ht.
  pose proof (archiveDocuments_writes a date s t1 w t2 HE HC) as Hshape.
  rewrite Hrun in Hshape.
  destruct Hshape as (A & c2 & HA & [Hno|(p0 & e0 & r' & Hyes & -> & HIe & HIs)]).
  - exfalso. rewrite Hno in Ht. apply app_inv_head in Ht.
    apply (no_failed_write_inside (A ++ closes None c2) l1 p e l2); [|exact Ht].
    apply Forall_app. split; [exact HA | repeat constructor].
  - rewrite Hyes in Ht. apply app_inv_head in Ht.
    apply event_in_app in Ht as [(m & Hm & _)|(m & -> & Hm)].
    + exfalso. apply (no_failed_write_inside A l1 p e m HA Hm).
    + destruct m as [|ev m].
      * injection Hm as -> -> <-. rewrite app_nil_r. split; [exact HA|].
        split; [exists c2; reflexivity|]. exists r'. split; [reflexivity|].
        split; [exact HIe|]. split; [exact HIs|].
        unfold archiveDocumentsAndDelete. rewrite Hrun. reflexivity.
      * exfalso. injection Hm as _ Hm. unfold closes in Hm.
        destruct m as [|ev1 [|ev2 [|ev3 m]]]; cbn in Hm; discriminate.
Qed.

End FailedWrite.

(* ===================================================================== *)
(** * Running again *)
(* ===================================================================== *)

Section SecondRun.
Context {T : Type} {Sto : store T} {Cod : Codec}.

Lemma MongoDB_DeleteAllFromDate_unavailable d (x : MongoDB) :
  unavailable (MongoDB_DeleteAllFromDate d x).2 = unavailable x.
Proof.
  unfold MongoDB_DeleteAllFromDate. destruct (unavailable x) eqn:Hup; cbn; auto.
Qed.

Lemma archiveDocumentsAndDelete_unavailable a date (s : World MongoDB T) :
  unavailable (src (archiveDocumentsAndDelete a date s).2) = unavailable (src s).
Proof.
  unfold archiveDocumentsAndDelete.
  pose proof (archiveDocuments_events a date s) as Ha.
  destruct (archiveDocuments a date s) as [r sA].
  destruct Ha as (Hsrc & _).
  assert (HsA : src sA = src s).
  { destruct Hsrc as [->| ->]; [reflexivity | apply MongoDB_FindAllFromDate_state]. }
  destruct r as [e|]; [cbn; rewrite HsA; reflexivity|].
  destruct (skipDelete a); cbn [negb]; [cbn; rewrite HsA; reflexivity|].
  unfold source_DeleteAllFromDate. rewrite HsA.
  cbn [DeleteAllFromDate MongoDB_documentSource].
  pose proof (MongoDB_DeleteAllFromDate_unavailable date (src s)) as Hd.
  destruct (MongoDB_DeleteAllFromDate date (src s)) as [[n|e] x]; exact Hd.
Qed.

Lemma Run_loop_unavailable fuel : forall a ctx target date total (s : World MongoDB T)
    r s',
  Run_loop fuel a ctx target date total s = Some (r, s') ->
  unavailable (src s') = unavailable (src s).
Proof.
  induction fuel as [|fuel IH]; intros a ctx target date total s r s' Hrun;
    [discriminate|].
  cbn [Run_loop] in Hrun. destruct (Before date target).
  - unfold slog in Hrun.
    pose proof (archiveDocumentsAndDelete_unavailable a date
                  (emit (EvLog LevelInfo "archiving" [("date", Time_ date)]) s)) as Hstep.
    destruct (archiveDocumentsAndDelete a date _) as [[e|] s1]; cbn [snd src emit] in Hstep.
    + injection Hrun as <- <-. exact Hstep.
    + destruct (Done ctx date).
      * injection Hrun as <- <-. exact Hstep.
      * apply IH in Hrun. rewrite Hrun. exact Hstep.
  - injection Hrun as <- <-. reflexivity.
Qed.

(** X21. After a run over the MongoDB source that deleted and
    succeeded, a second run with the same cutoff has nothing to do,
    whatever its policies, its context and its store: when a document
    with a [createdAt] is left, it succeeds at once, entering no Day,
    asking nothing of the store and deleting nothing; when none is
    left, it fails, because the earliest timestamp cannot be found. *)
Theorem second_run_has_nothing_to_do fuel a ctx target (s s' : World MongoDB T)
    fuel' a' ctx' (s2 : World MongoDB T) :
  skipDelete a = false ->
  Run fuel a ctx target s = Some (None, s') ->
  src s2 = src s' ->
  match minCreatedAt (collection (src s')) with
  | Some earliest =>
      target <= dayOf earliest /\
      Run (Datatypes.S fuel') a' ctx' target s2
      = Some (None,
              {| src := src s2; sto := sto s2;
                 trace := trace s2 ++
                   [EvEarliestCreatedAt (Ok earliest);
                    EvLog LevelInfo "archiver running"
                      [("target", Time_ target); ("earliest", Time_ earliest)];
                    target_reached 0] |})
  | None =>
      Run fuel' a' ctx' target s2
      = Some (Some (Errorf "failed to get earliest created at" ErrNoDocuments),
              {| src := src s2; sto := sto s2;
                 trace := trace s2 ++ [EvEarliestCreatedAt (Err ErrNoDocuments)] |})
  end.
Proof.
  intros Hdel Hrun Hsrc.
  pose proof (Run_mongo_collection fuel a ctx target s s' Hdel Hrun) as Hcol.
  assert (Hup : unavailable (src s') = None).
  { unfold Run, source_EarliestCreatedAt in Hrun.
    cbn [EarliestCreatedAt MongoDB_documentSource] in Hrun.
    pose proof (MongoDB_EarliestCreatedAt_state (src s)) as Hst.
    destruct (MongoDB_EarliestCreatedAt (src s)) as [[earliest|e] x] eqn:HE;
      [|discriminate].
    cbn in Hst. subst x. apply Run_loop_unavailable in Hrun.
    unfold slog in Hrun. cbn [src emit] in Hrun. rewrite Hrun.
    unfold MongoDB_EarliestCreatedAt in HE.
    destruct (unavailable (src s)); [discriminate | reflexivity]. }
  pose proof (minCreatedAt_spec (collection (src s'))) as Hmin.
  unfold Run, source_EarliestCreatedAt.
  cbn [EarliestCreatedAt MongoDB_documentSource]. rewrite Hsrc.
  unfold MongoDB_EarliestCreatedAt. rewrite Hup.
  destruct (minCreatedAt (collection (src s'))) as [earliest|].
  - destruct Hmin as [(doc & Hin & Hdoc) _].
    assert (Hlate : target <= dayOf earliest).
    { rewrite Hcol in Hin. apply filter_In in Hin as [_ Hdue]. unfold due in Hdue.
      rewrite Hdoc in Hdue. apply negb_true_iff, Z.ltb_ge in Hdue. exact Hdue. }
    split; [exact Hlate|]. cbn [Run_loop]. fold (dayOf earliest).
    unfold Before. replace (dayOf earliest <? target) with false
      by (symmetry; apply Z.ltb_ge; exact Hlate).
    unfold slog, emit, target_reached. cbn [src sto trace].
    rewrite <- !app_assoc. rewrite <- Hsrc. reflexivity.
  - unfold emit. cbn [src sto trace]. rewrite <- Hsrc. reflexivity.
Qed.

End SecondRun.

(* ===================================================================== *)
(** * The further theorems at the scenarios *)
(* ===================================================================== *)

Section MoreWitnesses.
#[local] Existing Instance Stored.codec.

(** X1 at the five records and the morning of 11/02. *)
Lemma FindAllFromDate_is_the_day_witness :
  let date := nov 2 8 0 0 in
  unavailable five = None /\
  MongoDB_FindAllFromDate date five
  = ({| Iter := [extJSON doc2; extJSON doc3]; sr_Err := None |}, five) /\
  (forall doc, sameDay date doc = true <->
     exists c, createdAt doc = Some c /\
               dayOf date <= c < dayOf date + 24 * Hour) /\
  (forall date', dayOf date' = dayOf date ->
     MongoDB_FindAllFromDate date' five = MongoDB_FindAllFromDate date five).
Proof.
  cbv zeta. split; [reflexivity|].
  exact (FindAllFromDate_is_the_day (nov 2 8 0 0) five eq_refl).
Defined.

(** X2 at the five records and 11/02. *)
Lemma DeleteAllFromDate_removes_the_day_witness :
  let date := nov 2 0 0 0 in
  unavailable five = None /\
  exists a',
    MongoDB_DeleteAllFromDate date five
    = (Ok (Z.of_nat (List.length (Iter (MongoDB_FindAllFromDate date five).1))), a') /\
    unavailable a' = None /\
    Iter (MongoDB_FindAllFromDate date a').1 = [] /\
    MongoDB_DeleteAllFromDate date a' = (Ok 0, a') /\
    (List.length (collection a')
     + List.length (Iter (MongoDB_FindAllFromDate date five).1)
     = List.length (collection five))%nat.
Proof.
  cbv zeta. split; [reflexivity|].
  exact (DeleteAllFromDate_removes_the_day (nov 2 0 0 0) five eq_refl).
Defined.

(** X3 at the five records: deleting 11/02 leaves 11/03 alone. *)
Lemma DeleteAllFromDate_keeps_other_days_witness :
  let date := nov 2 0 0 0 in
  let date' := nov 3 0 0 0 in
  let a' := (MongoDB_DeleteAllFromDate date five).2 in
  unavailable five = None /\
  dayOf date' <> dayOf date /\
  (MongoDB_FindAllFromDate date' a').1 = (MongoDB_FindAllFromDate date' five).1 /\
  collection a' = List.filter (fun doc => negb (sameDay date doc)) (collection five) /\
  (forall doc, In doc (collection five) -> createdAt doc = None ->
               In doc (collection a')).
Proof.
  cbv zeta. split; [reflexivity|].
  assert (Hne : dayOf (nov 3 0 0 0) <> dayOf (nov 2 0 0 0))
    by (vm_compute; discriminate).
  split; [exact Hne|].
  exact (DeleteAllFromDate_keeps_other_days (nov 2 0 0 0) (nov 3 0 0 0) five
           eq_refl Hne).
Defined.

(** X4 at the five records. *)
Lemma EarliestCreatedAt_is_the_least_witness :
  unavailable five = None /\
  (forall t, MongoDB_EarliestCreatedAt five = (Ok t, five) <->
     (exists doc, In doc (collection five) /\ createdAt doc = Some t) /\
     (forall doc c, In doc (collection five) -> createdAt doc = Some c -> t <= c)) /\
  (MongoDB_EarliestCreatedAt five = (Err ErrNoDocuments, five) <->
   forall doc, In doc (collection five) -> createdAt doc = None).
Proof.
  split; [reflexivity|]. exact (EarliestCreatedAt_is_the_least five eq_refl).
Defined.

(** X5 at the five records: once 11/01 is deleted the earliest record
    is of 11/02. *)
Lemma deleting_the_earliest_day_advances_witness :
  let earliest := nov 1 23 59 59 in
  MongoDB_EarliestCreatedAt five = (Ok earliest, five) /\
  exists n a',
    MongoDB_DeleteAllFromDate earliest five = (Ok n, a') /\ 1 <= n /\
    (MongoDB_EarliestCreatedAt a' = (Err ErrNoDocuments, a') \/
     exists next, MongoDB_EarliestCreatedAt a' = (Ok next, a') /\
                  dayOf earliest + 24 * Hour <= dayOf next).
Proof.
  cbv zeta. split; [reflexivity|].
  exact (deleting_the_earliest_day_advances five (nov 1 23 59 59) eq_refl).
Defined.

(** X7 at a consumer that stops at the first empty document. *)
Lemma Iter_stops_when_told_witness :
  let stop := fun json : bytes => match json with [] => true | _ => false end in
  let jsons := [extJSON doc1; extJSON doc2] in
  let rest := [MongoCursor.DecodeError timeout; MongoCursor.Doc (extJSON doc3)] in
  Forall (fun x => stop x = false) jsons /\
  stop [] = true /\
  exists sr',
    MongoCursor.Iter
      (MongoCursor.found
         (Ok (MongoCursor.fresh_cursor
                (List.map MongoCursor.Doc jsons ++ MongoCursor.Doc [] :: rest)
                (Some timeout) None)))
      (MongoCursor.collect_until stop) []
    = Some (sr', [] ++ jsons ++ [[]]) /\
    (MongoCursor.pending <$> MongoCursor.cursor sr') = Some rest /\
    (MongoCursor.closed <$> MongoCursor.cursor sr') = Some true /\
    MongoCursor.Err sr' = (fun c => joinError [c]) <$> None.
Proof.
  cbv zeta.
  assert (Hgo : Forall (fun x : bytes => match x with [] => true | _ => false end = false)
                  [extJSON doc1; extJSON doc2])
    by (repeat constructor).
  split; [exact Hgo|]. split; [reflexivity|].
  exact (Iter_stops_when_told _ _ [] _ (Some timeout) None [] Hgo eq_refl).
Defined.

(** X9 at the five records: the deletion of 11/01 in the trace of the
    run. *)
Lemma deletion_follows_the_archive_witness :
  let s' := outcome (Run 4 defaults Background cutoff start) start in
  let pre := take 14 (trace s') in
  let post := drop 15 (trace s') in
  let d := nov 1 0 0 0 in
  deletions (trace start) = [] /\
  Run 4 defaults Background cutoff start = Some (None, s') /\
  trace s' = pre ++ EvDeleteAllFromDate d (Ok 1) :: post /\
  skipDelete defaults = false /\
  exists s1 s2 : World MongoDB mockStorage,
    archiveDocuments defaults d s1 = (None, s2) /\
    (exists pre1,
       trace s1 = pre1 ++ [EvLog LevelInfo "archiving" [("date", Time_ d)]]) /\
    trace s2 = pre /\
    (forall present : string -> mockStorage -> Prop,
       Persistent present -> ignoreFileExistsError defaults = false ->
       present (fileNameOf d) (sto s2)).
Proof.
  cbv zeta. split; [reflexivity|].
  assert (Hrun : Run 4 defaults Background cutoff start
                 = Some (None, outcome (Run 4 defaults Background cutoff start) start))
    by (vm_compute; reflexivity).
  split; [exact Hrun|].
  assert (Ht : trace (outcome (Run 4 defaults Background cutoff start) start)
               = take 14 (trace (outcome (Run 4 defaults Background cutoff start) start))
                 ++ EvDeleteAllFromDate (nov 1 0 0 0) (Ok 1)
                 :: drop 15 (trace (outcome (Run 4 defaults Background cutoff start) start)))
    by (vm_compute; reflexivity).
  split; [exact Ht|].
  exact (deletion_follows_the_archive (Src := MongoDB_documentSource)
           (Sto := mockStorage_store) 4 defaults Background cutoff start None _ _ _ _ _
           eq_refl Hrun Ht).
Defined.

(** X10 at the five records. *)
Lemma deleted_days_follow_archived_days_witness :
  let s' := outcome (Run 4 defaults Background cutoff start) start in
  Run 4 defaults Background cutoff start = Some (None, s') /\
  exists l ds,
    days_archived (trace s') = days_archived (trace start) ++ l /\
    deletions (trace s') = deletions (trace start) ++ ds /\
    ds.*1 `prefix_of` l /\
    (skipDelete defaults = false -> @None error = None ->
     ds.*1 = l /\ Forall (fun dr => exists n, dr.2 = Ok n) ds) /\
    (forall d e, In (d, Err e) ds ->
       None = Some (Errorf "archival failed" (Errorf "failed to delete documents" e)) /\
       exists ds0, ds = ds0 ++ [(d, Err e)]).
Proof.
  cbv zeta.
  assert (Hrun : Run 4 defaults Background cutoff start
                 = Some (None, outcome (Run 4 defaults Background cutoff start) start))
    by (vm_compute; reflexivity).
  split; [exact Hrun|].
  exact (deleted_days_follow_archived_days (Src := MongoDB_documentSource)
           (Sto := mockStorage_store) 4 defaults Background cutoff start None _ Hrun).
Defined.

(** X11 at the five records: two Days are reported. *)
Lemma success_reports_the_days_archived_witness :
  let s' := outcome (Run 4 defaults Background cutoff start) start in
  Run 4 defaults Background cutoff start = Some (None, s') /\
  last (trace s') = Some (target_reached 2) /\
  exists evs,
    trace s' = trace start ++ evs ++
      [target_reached (counted (List.length (days_archived evs)) 0)] /\
    (Z.of_nat (List.length (days_archived evs)) < 2 ^ 63 ->
     counted (List.length (days_archived evs)) 0
     = Z.of_nat (List.length (days_archived evs))).
Proof.
  cbv zeta.
  assert (Hrun : Run 4 defaults Background cutoff start
                 = Some (None, outcome (Run 4 defaults Background cutoff start) start))
    by (vm_compute; reflexivity).
  split; [exact Hrun|]. split; [vm_compute; reflexivity|].
  exact (success_reports_the_days_archived (Src := MongoDB_documentSource)
           (Sto := mockStorage_store) 4 defaults Background cutoff start _ Hrun).
Defined.

(** X12 at a store that cannot be written to. *)
Lemma store_failure_stops_the_run_witness :
  let s : World MongoDB unit := {| src := five; sto := tt; trace := [] |} in
  let date := nov 1 0 0 0 in
  Before date cutoff = true /\
  Exists (store := Faults.readOnly) (fileNameOf date) (sto s) = (Ok false, tt) /\
  Create (store := Faults.readOnly) (fileNameOf date) tt = (Err Faults.denied, tt) /\
  exists r s' evs,
    Run_loop (H0 := Faults.readOnly) 1 defaults Background cutoff date 0 s
    = Some (Some r, s') /\
    r = Errorf "archival failed" (Errorf "failed to archive documents" Faults.denied) /\
    Is r Faults.denied /\
    src s' = src s /\ sto s' = tt /\
    trace s' = trace s ++ evs /\
    Forall (fun ev => ~ stream_event ev /\ ~ is_close ev /\ deletion ev = None) evs.
Proof.
  cbv zeta. split; [reflexivity|]. split; [reflexivity|]. split; [reflexivity|].
  exact (store_failure_stops_the_run (Src := MongoDB_documentSource)
           (Sto := Faults.readOnly) 0 defaults Background cutoff (nov 1 0 0 0) 0
           {| src := five; sto := tt; trace := [] |} Faults.denied tt eq_refl
           (or_intror (ex_intro _ tt (conj eq_refl eq_refl)))).
Defined.

(** X13 at the five records: the records of 11/03 and 11/04 stay. *)
Lemma successful_run_deletes_the_days_before_the_cutoff_witness :
  let s' := outcome (Run 4 defaults Background cutoff start) start in
  skipDelete defaults = false /\
  Run 4 defaults Background cutoff start = Some (None, s') /\
  collection (src s') = [doc4; doc5] /\
  collection (src s')
  = List.filter (fun doc => negb (due cutoff doc)) (collection (src start)) /\
  (forall doc, In doc (collection (src s')) <->
     In doc (collection (src start)) /\
     forall c, createdAt doc = Some c -> cutoff <= dayOf c).
Proof.
  cbv zeta. split; [reflexivity|].
  assert (Hrun : Run 4 defaults Background cutoff start
                 = Some (None, outcome (Run 4 defaults Background cutoff start) start))
    by (vm_compute; reflexivity).
  split; [exact Hrun|]. split; [vm_compute; reflexivity|].
  exact (successful_run_deletes_the_days_before_the_cutoff (Sto := mockStorage_store)
           4 defaults Background cutoff start _ eq_refl Hrun).
Defined.

(** X14 at the discarding store and a server that cannot be reached:
    the archive step returns the error of the query. *)
Lemma stream_error_is_returned_witness :
  let date := nov 1 0 0 0 in
  let res := {| Iter := []; sr_Err := Some timeout |} in
  Exists (fileNameOf date) (sto discarding) = (Ok false, tt) /\
  Create (fileNameOf date) tt = (Ok nopCloser, tt) /\
  reliable nopCloser /\
  FindAllFromDate date (src discarding) = (res, src discarding) /\
  exists (s' : World MongoDB Noop) evs,
    archiveDocuments defaults date discarding = (Some timeout, s') /\
    src s' = src discarding /\
    trace s' = trace discarding ++ evs /\
    creations evs = [fileNameOf date] /\
    documents_written evs = [] /\
    (forall e, Some timeout = Some e ->
       archiveDocumentsAndDelete defaults date discarding
       = (Some (Errorf "failed to archive documents" e), s')).
Proof.
  cbv zeta.
  assert (Hrel : reliable nopCloser) by (split; reflexivity).
  split; [reflexivity|]. split; [reflexivity|]. split; [exact Hrel|].
  split; [reflexivity|].
  exact (stream_error_is_returned (Src := MongoDB_documentSource) (Sto := Noop_store)
           defaults (nov 1 0 0 0) discarding tt nopCloser tt
           {| Iter := []; sr_Err := Some timeout |} (src discarding)
           eq_refl eq_refl Hrel eq_refl).
Defined.

(** X15 at the five records and the discarding store. *)
Lemma discarding_run_succeeds_witness :
  let s : World MongoDB Noop := {| src := five; sto := tt; trace := [] |} in
  let earliest := nov 1 23 59 59 in
  MongoDB_EarliestCreatedAt (src s) = (Ok earliest, src s) /\
  exists s' : World MongoDB Noop,
    Run (Run_fuel earliest cutoff) defaults Background cutoff s = Some (None, s') /\
    (skipDelete defaults = false ->
     collection (src s')
     = List.filter (fun doc => negb (due cutoff doc)) (collection (src s))) /\
    (skipDelete defaults = true -> src s' = src s).
Proof.
  cbv zeta. split; [reflexivity|].
  exact (discarding_run_succeeds defaults cutoff
           {| src := five; sto := tt; trace := [] |} (nov 1 23 59 59) eq_refl).
Defined.

(** X16 at a test source with documents under 11/02 and 11/01, whose
    range loop visits the keys in the reverse of the order [keys] lists
    them in. *)
Lemma mock_EarliestCreatedAt_is_the_least_witness :
  let m := {| docs := docs (mock_add (nov 1 0 0 0) (extJSON doc1)
                       (mock_add (nov 2 0 0 0) (extJSON doc2) newMockDocumentSource));
              rangeOrder := fun d => rev (keys d) |} in
  visitsEachKeyOnce m /\
  rangeOrder m (docs m) = [nov 1 0 0 0; nov 2 0 0 0] /\
  docs m !! zeroTime = None /\
  mock_EarliestCreatedAt m = (Ok (nov 1 0 0 0), m) /\
  match mock_EarliestCreatedAt m with
  | (Ok t, m') =>
      m' = m /\ is_Some (docs m !! t) /\
      forall k, is_Some (docs m !! k) -> t <= k
  | (Err e, m') => m' = m /\ e = New "no documents found" /\ docs m = ∅
  end.
Proof.
  cbv zeta.
  set (m := {| docs := docs (mock_add (nov 1 0 0 0) (extJSON doc1)
                         (mock_add (nov 2 0 0 0) (extJSON doc2) newMockDocumentSource));
               rangeOrder := fun d => rev (keys d) |}).
  assert (Hvisit : visitsEachKeyOnce m)
    by (unfold visitsEachKeyOnce; cbn [rangeOrder]; symmetry; apply Permutation_rev).
  split; [exact Hvisit|]. split; [vm_compute; reflexivity|].
  assert (Hzero : docs m !! zeroTime = None) by (vm_compute; reflexivity).
  split; [exact Hzero|]. split; [vm_compute; reflexivity|].
  exact (mock_EarliestCreatedAt_is_the_least m Hvisit Hzero).
Defined.

(** X19 at the five records. *)
Lemma run_archives_every_day_witness :
  let earliest := nov 1 23 59 59 in
  MongoDB_EarliestCreatedAt (src start) = (Ok earliest, src start) /\
  files (sto start) = ∅ /\
  forceCloseError (sto start) = None /\
  exists s' : World MongoDB mockStorage,
    Run (Run_fuel earliest cutoff) defaults Background cutoff start = Some (None, s') /\
    (forall d, dayOf earliest <= dayOf d < cutoff ->
       files (sto s') !! fileNameOf d
       = Some (gzip_file (List.map line
                 (Iter (MongoDB_FindAllFromDate d (src start)).1)))) /\
    (forall p, is_Some (files (sto s') !! p) ->
       exists d, dayOf earliest <= dayOf d < cutoff /\ p = fileNameOf d) /\
    (CodecLaw ->
     forall d, dayOf earliest <= dayOf d < cutoff ->
       Forall (fun doc => ~ In newline doc)
         (Iter (MongoDB_FindAllFromDate d (src start)).1) ->
       exists file,
         files (sto s') !! fileNameOf d = Some file /\
         readLines file = Some (Iter (MongoDB_FindAllFromDate d (src start)).1)).
Proof.
  cbv zeta. split; [reflexivity|]. split; [reflexivity|]. split; [reflexivity|].
  exact (run_archives_every_day defaults cutoff start (nov 1 23 59 59)
           eq_refl eq_refl eq_refl).
Defined.

(** X20 at a store without room: the first write fails. *)
Lemma failed_write_ends_the_day_witness :
  let s : World MongoDB unit := {| src := five; sto := tt; trace := [] |} in
  let date := nov 1 0 0 0 in
  let out := archiveDocuments (H0 := Faults.full) defaults date s in
  let l1 := take 4 (trace out.2) in
  let l2 := drop 5 (trace out.2) in
  Exists (store := Faults.full) (fileNameOf date) (sto s) = (Ok false, tt) /\
  Create (store := Faults.full) (fileNameOf date) tt = (Ok Faults.fullSink, tt) /\
  trace out.2 = trace s ++ l1 ++ EvWrite Stored.header (Some Faults.noSpace) :: l2 /\
  Forall no_failed_write l1 /\
  (exists c2, l2 = closes (Some Faults.noSpace) c2) /\
  exists r',
    out.1 = Some r' /\ Is r' Faults.noSpace /\
    Is r' (Errorf "failed to close gzip writer" Faults.noSpace) /\
    archiveDocumentsAndDelete (H0 := Faults.full) defaults date s
    = (Some (Errorf "failed to archive documents" r'), out.2).
Proof.
  cbv zeta. split; [reflexivity|]. split; [reflexivity|].
  set (s := {| src := five; sto := tt; trace := [] |} : World MongoDB unit).
  assert (Ht : trace (archiveDocuments (H0 := Faults.full) defaults (nov 1 0 0 0) s).2
               = trace s
                 ++ take 4 (trace (archiveDocuments (H0 := Faults.full) defaults
                                     (nov 1 0 0 0) s).2)
                 ++ EvWrite Stored.header (Some Faults.noSpace)
                 :: drop 5 (trace (archiveDocuments (H0 := Faults.full) defaults
                                     (nov 1 0 0 0) s).2))
    by (vm_compute; reflexivity).
  split; [exact Ht|].
  exact (failed_write_ends_the_day (Src := MongoDB_documentSource) (Sto := Faults.full)
           defaults (nov 1 0 0 0) s tt Faults.fullSink tt _ _ _ _ _ _
           eq_refl eq_refl (surjective_pairing _) Ht).
Defined.

(** X21 at the five records: the second run finds the record of
    11/03 and stops. *)
Lemma second_run_has_nothing_to_do_witness :
  let s' := outcome (Run 4 defaults Background cutoff start) start in
  let s2 : World MongoDB mockStorage := {| src := two; sto := sto s'; trace := [] |} in
  skipDelete defaults = false /\
  Run 4 defaults Background cutoff start = Some (None, s') /\
  src s2 = src s' /\
  minCreatedAt (collection (src s')) = Some (nov 3 0 0 0) /\
  cutoff <= dayOf (nov 3 0 0 0) /\
  Run 1 ignoring cancelled cutoff s2
  = Some (None,
          {| src := src s2; sto := sto s2;
             trace := trace s2 ++
               [EvEarliestCreatedAt (Ok (nov 3 0 0 0));
                EvLog LevelInfo "archiver running"
                  [("target", Time_ cutoff); ("earliest", Time_ (nov 3 0 0 0))];
                target_reached 0] |}).
Proof.
  cbv zeta. split; [reflexivity|].
  assert (Hrun : Run 4 defaults Background cutoff start
                 = Some (None, outcome (Run 4 defaults Background cutoff start) start))
    by (vm_compute; reflexivity).
  split; [exact Hrun|].
  assert (Hsrc : two = src (outcome (Run 4 defaults Background cutoff start) start))
    by (vm_compute; reflexivity).
  split; [exact Hsrc|].
  assert (Hmin : minCreatedAt
                   (collection (src (outcome (Run 4 defaults Background cutoff start)
                                       start)))
                 = Some (nov 3 0 0 0))
    by (vm_compute; reflexivity).
  split; [exact Hmin|].
  pose proof (second_run_has_nothing_to_do (Sto := mockStorage_store)
                4 defaults Background cutoff start _ 0 ignoring cancelled
                {| src := two;
                   sto := sto (outcome (Run 4 defaults Background cutoff start) start);
                   trace := [] |}
                eq_refl Hrun Hsrc) as Hsecond.
  rewrite Hmin in Hsecond. exact Hsecond.
Defined.

End MoreWitnesses.
